(** * Natural-language task interpretation pipeline

    A shallow embedding of the task-creation workflows of the back end
    ([src/ai/workflows/task-creation.workflow.ts], the advanced workflow of
    [src/ai/workflows/project-analysis.workflow.ts] and the keyword fallback of
    [AiService]) together with the properties their specification states.

    The workflows are TypeScript over values of type [any] that come out of
    [JSON.parse], so the embedding starts with the fragment of JavaScript
    they use: UTF-16 strings, IEEE-754 binary64 numbers, JSON values, the
    coercions behind [||], [+], [<], [>=], [===] and [Math.min], and
    exceptions, those of a conversion that fails included.  Built-ins that
    are not reimplemented ([JSON.parse], number/string conversion,
    [toLowerCase]) are fields of a [Runtime] class, and the completion
    client is a sequence of outcomes indexed by call order. *)

From Stdlib Require Import ZArith NArith List Bool String Ascii Floats Lia.
Import ListNotations.

Set Warnings "-inexact-float,-register-all".

(* ================================================================== *)
(** * JavaScript strings: sequences of UTF-16 code units               *)
(* ================================================================== *)

Module JsString.

Definition code_unit := N.
Definition jsstring := list code_unit.

Fixpoint bytes (s : string) : list N :=
  match s with
  | EmptyString => []
  | String a s' => N_of_ascii a :: bytes s'
  end.

(** UTF-8 bytes to UTF-16 code units; a code point above the basic plane
    becomes a surrogate pair.  A truncated sequence is dropped. *)
Fixpoint utf16 (l : list N) : jsstring :=
  match l with
  | [] => []
  | b0 :: t0 =>
      if (b0 <? 128)%N then b0 :: utf16 t0
      else
        match t0 with
        | [] => []
        | b1 :: t1 =>
            if (b0 <? 224)%N
            then ((b0 mod 32) * 64 + b1 mod 64)%N :: utf16 t1
            else
              match t1 with
              | [] => []
              | b2 :: t2 =>
                  if (b0 <? 240)%N
                  then ((b0 mod 16) * 4096 + (b1 mod 64) * 64 + b2 mod 64)%N
                         :: utf16 t2
                  else
                    match t2 with
                    | [] => []
                    | b3 :: t3 =>
                        let cp := ((b0 mod 8) * 262144 + (b1 mod 64) * 4096
                                   + (b2 mod 64) * 64 + b3 mod 64)%N in
                        let v := (cp - 65536)%N in
                        (55296 + v / 1024)%N :: (56320 + v mod 1024)%N
                          :: utf16 t3
                    end
              end
        end
  end.

(** The JavaScript string written by a source literal. *)
Definition js (s : string) : jsstring := utf16 (bytes s).

Fixpoint eqb (s t : jsstring) : bool :=
  match s, t with
  | [], [] => true
  | c :: s', d :: t' => (c =? d)%N && eqb s' t'
  | _, _ => false
  end.

(** Code-unit order, the order of [<] on two strings. *)
Fixpoint ltb (s t : jsstring) : bool :=
  match s, t with
  | _, [] => false
  | [], _ :: _ => true
  | c :: s', d :: t' =>
      if (c <? d)%N then true else if (d <? c)%N then false else ltb s' t'
  end.

Fixpoint starts_with (p s : jsstring) : bool :=
  match p, s with
  | [], _ => true
  | _ :: _, [] => false
  | c :: p', d :: s' => (c =? d)%N && starts_with p' s'
  end.

(** [s.includes(p)] *)
Fixpoint includes (s p : jsstring) : bool :=
  starts_with p s ||
  match s with
  | [] => false
  | _ :: s' => includes s' p
  end.

(** [s.slice(0, n)] and [s.substring(0, n)] for [0 <= n]. *)
Definition slice0 (n : nat) (s : jsstring) : jsstring := firstn n s.

(** [s.substring(n)] *)
Definition substring_from (n : nat) (s : jsstring) : jsstring := skipn n s.

(** The characters matched by [\s] in a regular expression. *)
Definition is_space (c : code_unit) : bool :=
  ((9 <=? c) && (c <=? 13) || (c =? 32) || (c =? 160) || (c =? 5760)
   || (8192 <=? c) && (c <=? 8202) || (c =? 8232) || (c =? 8233)
   || (c =? 8239) || (c =? 8287) || (c =? 12288) || (c =? 65279))%N.

(** [s.split(/\s+/)]: the pieces between maximal runs of white space.  A
    leading or trailing run leaves an empty piece at that end. *)
Fixpoint split_spaces_from (cur : jsstring) (in_run : bool) (s : jsstring)
  : list jsstring :=
  match s with
  | [] => [rev cur]
  | c :: s' =>
      if is_space c
      then if in_run then split_spaces_from [] true s'
           else rev cur :: split_spaces_from [] true s'
      else split_spaces_from (c :: cur) false s'
  end.

Definition split_spaces (s : jsstring) : list jsstring :=
  split_spaces_from [] false s.

Definition lbrace : code_unit := 123%N.
Definition rbrace : code_unit := 125%N.
Definition hash : code_unit := 35%N.

(** The text up to and including the last [}] of [s], if there is one. *)
Fixpoint upto_last_rbrace (s : jsstring) : option jsstring :=
  match s with
  | [] => None
  | c :: s' =>
      match upto_last_rbrace s' with
      | Some r => Some (c :: r)
      | None => if (c =? rbrace)%N then Some [c] else None
      end
  end.

(** [s.match(/\{[\s\S]*\}/)]: from the first [{] to the last [}] after
    it; [None] when the pattern does not match. *)
Fixpoint match_braces (s : jsstring) : option jsstring :=
  match s with
  | [] => None
  | c :: s' =>
      if (c =? lbrace)%N
      then match upto_last_rbrace s' with
           | Some r => Some (c :: r)
           | None => None
           end
      else match_braces s'
  end.

End JsString.

Import JsString.

(* ================================================================== *)
(** * JavaScript numbers: IEEE-754 binary64                            *)
(* ================================================================== *)

Module JsNumber.

Definition number := spec_float.

Definition prec : Z := 53.
Definition emax : Z := 1024.

Definition add (x y : number) : number := SFadd prec emax x y.
Definition ltb (x y : number) : bool := SFltb x y.
Definition leb (x y : number) : bool := SFleb x y.

(** The number written by an integer literal, and by [.length]. *)
Definition of_Z (z : Z) : number := binary_normalize prec emax z 0 false.
Definition of_nat (n : nat) : number := of_Z (Z.of_nat n).

Definition NaN : number := S754_nan.

(** [0], [-0] and [NaN] are the falsy numbers. *)
Definition falsy (x : number) : bool :=
  match x with S754_zero _ | S754_nan => true | _ => false end.

(** [Math.min] on two numbers: [NaN] if either is, and [-0] below [+0]. *)
Definition min (x y : number) : number :=
  match SFcompare x y with
  | None => S754_nan
  | Some Lt => x
  | Some Gt => y
  | Some Eq => match x with S754_zero true => x | _ => y end
  end.

(** The decimal literals of the workflows, rounded to nearest as the
    JavaScript parser does. *)
Definition n0_1 : number := Eval vm_compute in Prim2SF 0.1.
Definition n0_2 : number := Eval vm_compute in Prim2SF 0.2.
Definition n0_3 : number := Eval vm_compute in Prim2SF 0.3.
Definition n0_5 : number := Eval vm_compute in Prim2SF 0.5.
Definition n0_6 : number := Eval vm_compute in Prim2SF 0.6.
Definition n0_8 : number := Eval vm_compute in Prim2SF 0.8.
Definition n0 : number := Eval vm_compute in Prim2SF 0.
Definition n1 : number := Eval vm_compute in Prim2SF 1.
Definition n2 : number := Eval vm_compute in Prim2SF 2.
Definition n4 : number := Eval vm_compute in Prim2SF 4.
Definition n5 : number := Eval vm_compute in Prim2SF 5.
Definition n10 : number := Eval vm_compute in Prim2SF 10.
Definition n30 : number := Eval vm_compute in Prim2SF 30.
Definition n240 : number := Eval vm_compute in Prim2SF 240.

(** A value is non-negative when it is [+0], [-0], [+Infinity] or a
    positive finite number. *)
Definition nonneg (x : number) : bool :=
  match x with
  | S754_zero _ => true
  | S754_infinity s => negb s
  | S754_nan => false
  | S754_finite s _ _ => negb s
  end.

End JsNumber.

Import JsNumber.

(* ================================================================== *)
(** * JavaScript values, exceptions and the built-ins taken as given   *)
(* ================================================================== *)

Module JsValue.

(** The values [JSON.parse] builds, and [undefined]. An object is the
    list of its own properties; a key is looked up from the front. *)
Inductive value : Type :=
| Undefined
| Null
| Bool (b : bool)
| Num (n : number)
| Str (s : jsstring)
| Arr (items : list value)
| Obj (props : list (jsstring * value)).

Definition object := list (jsstring * value).

(** A thrown [Error]: its [name] and [message]. *)
Record error : Type := mkError { name : jsstring; message : jsstring }.

Definition TypeError (msg : string) : error := mkError (js "TypeError") (js msg).
Definition Error (msg : string) : error := mkError (js "Error") (js msg).

(** [String(e)] for an [Error] (Error.prototype.toString). *)
Definition error_to_string (e : error) : jsstring :=
  match name e, message e with
  | [], m => m
  | n, [] => n
  | n, m => n ++ js ": " ++ m
  end.

(** How a call ends. *)
Inductive outcome (A : Type) : Type :=
| Returned (a : A)
| Thrown (e : error).
Arguments Returned {A} a.
Arguments Thrown {A} e.

(** Built-ins the workflows call and the embedding does not reimplement.
    [JSON_parse] is only applied to the text matched by [/\{[\s\S]*\}/],
    which starts with a brace, so a successful parse is an object. *)
Class Runtime : Type := {
  JSON_parse : jsstring -> outcome object;
  number_to_string : number -> jsstring;
  string_to_number : jsstring -> number;
  toLowerCase : jsstring -> jsstring
}.

(** [o.k] on an object: the own property, or [undefined]. *)
Fixpoint get (o : object) (k : jsstring) : value :=
  match o with
  | [] => Undefined
  | (k', v) :: o' => if JsString.eqb k' k then v else get o' k
  end.

(** [{...o, k: v}] *)
Definition set (o : object) (k : jsstring) (v : value) : object := (k, v) :: o.

(** [o?.k] on a possibly missing object. *)
Definition opt_get (o : option object) (k : jsstring) : value :=
  match o with
  | Some o' => get o' k
  | None => Undefined
  end.

(** ToBoolean *)
Definition truthy (v : value) : bool :=
  match v with
  | Undefined | Null => false
  | Bool b => b
  | Num n => negb (JsNumber.falsy n)
  | Str s => match s with [] => false | _ => true end
  | Arr _ | Obj _ => true
  end.

(** [a || b] *)
Definition or (a b : value) : value := if truthy a then a else b.

(** [v === s] for a string literal [s] *)
Definition strict_eq_str (v : value) (s : jsstring) : bool :=
  match v with
  | Str s' => JsString.eqb s' s
  | _ => false
  end.

(** Whether [o] has an own property [k]. *)
Definition has_own (o : object) (k : jsstring) : bool :=
  existsb (fun p => JsString.eqb (fst p) k) o.

(** Whether the conversion of [v] to a primitive (ToPrimitive, and with
    it ToString and ToNumber) returns.  A value decoded by [JSON.parse]
    holds no function.  An object with an own [toString] property thus
    has no [toString] to call, and its [valueOf], own or inherited,
    gives no primitive either: converting it throws a [TypeError].  Any
    other object prints through [Object.prototype.toString].  An array
    prints through [join], which converts each element that is not
    [null] or [undefined].  The conversions [to_string], [to_primitive]
    and [to_number] below, and the operators built on them, say what a
    value that converts is converted to; the workflows apply them to
    primitives, or after [converted] or [operator], which throw on a
    value that does not convert. *)
Fixpoint converts (v : value) : bool :=
  match v with
  | Arr items => forallb converts items
  | Obj o => negb (has_own o (js "toString"))
  | _ => true
  end.

(** What a conversion that fails throws. *)
Definition cannot_convert : error :=
  TypeError "Cannot convert object to primitive value".

(** A conversion made for its effect: a template literal, [join] and
    [new Date] convert their operand, and only whether that throws is
    kept. *)
Definition converted (v : value) : outcome unit :=
  if converts v then Returned tt else Thrown cannot_convert.

(** [o] and then [k], unless [o] throws. *)
Definition and_then {A : Type} (o : outcome unit) (k : outcome A) : outcome A :=
  match o with
  | Returned _ => k
  | Thrown e => Thrown e
  end.

Section Coercions.
Context {RT : Runtime}.

(** ToString of a value that converts (see [converts]).  An array prints
    its elements joined by commas, with [null] and [undefined] elements
    empty. *)
Fixpoint to_string (v : value) : jsstring :=
  match v with
  | Undefined => js "undefined"
  | Null => js "null"
  | Bool true => js "true"
  | Bool false => js "false"
  | Num n => number_to_string n
  | Str s => s
  | Arr items =>
      (fix join (l : list value) : jsstring :=
         match l with
         | [] => []
         | x :: l' =>
             (match x with
              | Undefined | Null => []
              | _ => to_string x
              end)
             ++ match l' with
                | [] => []
                | _ :: _ => js "," ++ join l'
                end
         end) items
  | Obj _ => js "[object Object]"
  end.

(** ToPrimitive of a value that converts: arrays and plain objects go
    through [toString]. *)
Definition to_primitive (v : value) : value :=
  match v with
  | Arr _ | Obj _ => Str (to_string v)
  | _ => v
  end.

(** ToNumber of a value that converts. *)
Definition to_number (v : value) : number :=
  match v with
  | Undefined => NaN
  | Null => n0
  | Bool true => n1
  | Bool false => n0
  | Num n => n
  | Str s => string_to_number s
  | Arr _ | Obj _ => string_to_number (to_string v)
  end.

(** What [a + b] is when both operands convert: concatenation as soon as
    one primitive is a string. *)
Definition plus (a b : value) : value :=
  match to_primitive a, to_primitive b with
  | Str s, pb => Str (s ++ to_string pb)
  | pa, Str t => Str (to_string pa ++ t)
  | pa, pb => Num (JsNumber.add (to_number pa) (to_number pb))
  end.

(** What [a < b] is when both operands convert. *)
Definition lt (a b : value) : bool :=
  match to_primitive a, to_primitive b with
  | Str s, Str t => JsString.ltb s t
  | pa, pb => JsNumber.ltb (to_number pa) (to_number pb)
  end.

(** What [a > b] is when both operands convert. *)
Definition gt (a b : value) : bool := lt b a.

(** What [a >= b] is when both operands convert: false when the
    comparison is undefined. *)
Definition ge (a b : value) : bool :=
  match to_primitive a, to_primitive b with
  | Str s, Str t => negb (JsString.ltb s t)
  | pa, pb =>
      match SFcompare (to_number pa) (to_number pb) with
      | Some Lt | None => false
      | Some _ => true
      end
  end.

(** [Math.min(a, b)] on primitives. *)
Definition Math_min (a b : value) : number :=
  JsNumber.min (to_number a) (to_number b).

(** [v.length] for a value that is not [null] or [undefined]. *)
Definition length_of (v : value) : value :=
  match v with
  | Str s => Num (JsNumber.of_nat (List.length s))
  | Arr items => Num (JsNumber.of_nat (List.length items))
  | Obj o => get o (js "length")
  | _ => Undefined
  end.

(** An operator on two operands: it converts both, the left one first,
    and throws when one does not convert. *)
Definition operator {A : Type} (op : value -> value -> A) (a b : value)
  : outcome A :=
  if converts a
  then if converts b then Returned (op a b) else Thrown cannot_convert
  else Thrown cannot_convert.

(** The expressions [a + b], [a < b], [a > b] and [a >= b]. *)
Definition sum : value -> value -> outcome value := operator plus.
Definition less : value -> value -> outcome bool := operator lt.
Definition greater : value -> value -> outcome bool := operator gt.
Definition at_least : value -> value -> outcome bool := operator ge.

End Coercions.

End JsValue.

Import JsValue.

#[global] Arguments js : simpl never.
#[global] Arguments JsNumber.add : simpl never.
#[global] Arguments JsNumber.ltb : simpl never.
#[global] Arguments JsNumber.leb : simpl never.
#[global] Arguments JsNumber.min : simpl never.
#[global] Arguments JsNumber.of_nat : simpl never.
#[global] Arguments n0 : simpl never.
#[global] Arguments n0_1 : simpl never.
#[global] Arguments n0_2 : simpl never.
#[global] Arguments n0_3 : simpl never.
#[global] Arguments n0_5 : simpl never.
#[global] Arguments n0_6 : simpl never.
#[global] Arguments n0_8 : simpl never.
#[global] Arguments n1 : simpl never.
#[global] Arguments n2 : simpl never.
#[global] Arguments n4 : simpl never.
#[global] Arguments n5 : simpl never.
#[global] Arguments n10 : simpl never.
#[global] Arguments n30 : simpl never.
#[global] Arguments n240 : simpl never.
#[global] Arguments plus : simpl never.
#[global] Arguments lt : simpl never.
#[global] Arguments gt : simpl never.
#[global] Arguments ge : simpl never.
#[global] Arguments Math_min : simpl never.
#[global] Arguments to_number : simpl never.
#[global] Arguments to_string : simpl never.

(* ================================================================== *)
(** * Effects: the logger, the completion client and exceptions        *)
(* ================================================================== *)

Module Effects.

Inductive level : Type := DEBUG | WARN | ERROR.

Record log_entry : Type := mkLog { lvl : level; text : jsstring }.

(** One call of [ollama.generate]: the promise rejects, or resolves to an
    object whose [response] is the generated text. *)
Inductive completion : Type :=
| Rejects (e : error)
| Responds (response : jsstring).

(** The completion service as the workflow sees it: the outcome of its
    first call, of its second call, and so on.  The prompt only reaches
    the service, so it is not part of the model; where building it can
    throw, the throw is. *)
Definition client := nat -> completion.

Record world : Type := mkWorld { calls : nat; logged : list log_entry }.

Definition start : world := mkWorld 0 [].

(** An [async] method: reads the client, updates the world, and returns
    or throws. *)
Definition M (A : Type) : Type := client -> world -> outcome A * world.

Definition ret {A} (a : A) : M A := fun _ w => (Returned a, w).

Definition throw {A} (e : error) : M A := fun _ w => (Thrown e, w).

Definition bind {A B} (m : M A) (k : A -> M B) : M B :=
  fun c w =>
    match m c w with
    | (Returned a, w') => k a c w'
    | (Thrown e, w') => (Thrown e, w')
    end.

(** [try { m } catch (error) { h error }] *)
Definition try_catch {A} (m : M A) (h : error -> M A) : M A :=
  fun c w =>
    match m c w with
    | (Returned a, w') => (Returned a, w')
    | (Thrown e, w') => h e c w'
    end.

Definition lift {A} (o : outcome A) : M A := fun _ w => (o, w).

(** The world after one more line of log. *)
Definition log_to (w : world) (l : level) (msg : jsstring) : world :=
  mkWorld (calls w) (logged w ++ [mkLog l msg]).

Definition logger (l : level) (msg : jsstring) : M unit :=
  fun _ w => (Returned tt, log_to w l msg).

(** [await this.ollama.generate({model, prompt, stream: false})], then
    [.response] of what it resolves to. *)
Definition ollama_generate : M jsstring :=
  fun c w =>
    let w' := mkWorld (S (calls w)) (logged w) in
    match c (calls w) with
    | Rejects e => (Thrown e, w')
    | Responds text => (Returned text, w')
    end.

Definition run {A} (m : M A) (c : client) : outcome A * world := m c start.

(** A method is oblivious of the log when it only appends to it: what it
    returns, how many completions it consumes and what it appends do not
    depend on the lines already there. *)
Definition oblivious {A} (m : M A) : Prop :=
  forall c k, exists o k' added,
    forall l, m c (mkWorld k l) = (o, mkWorld k' (l ++ added)).

(** A method that cannot throw. *)
Definition returns {A} (m : M A) : Prop :=
  forall c w, exists a w', m c w = (Returned a, w').

Declare Scope js_scope.
Delimit Scope js_scope with js_m.
Notation "x <- m ;; k" := (bind m (fun x => k))
  (at level 61, m at next level, right associativity) : js_scope.
Notation "m ;; k" := (bind m (fun _ => k))
  (at level 61, right associativity) : js_scope.

End Effects.

Import Effects.
Open Scope js_scope.

(** [TaskPriority] of [common/types]. *)
Inductive TaskPriority : Type := LOW | MEDIUM | HIGH | URGENT.

(** [input.length > 50 ? input.slice(0, 50) + "..." : input], the title
    every fallback derives from the input. *)
Definition truncated_title (input : jsstring) : jsstring :=
  if (50 <? List.length input)%nat then slice0 50 input ++ js "..." else input.

(** A task candidate.  [dueDate = Some v] stands for [new Date(v)];
    [aiMetadata] is an object of JSON values. *)
Record task : Type := mkTask {
  title : value;
  description : value;
  dueDate : option value;
  priority : TaskPriority;
  tags : value;
  estimatedDuration : value;
  aiMetadata : object
}.

Definition no_entities : value :=
  Obj [(js "people", Arr []); (js "places", Arr []);
       (js "organizations", Arr []); (js "dates", Arr [])].

Definition msg_error_occurred : jsstring :=
  js "작업 생성 중 오류가 발생했습니다. 내용을 다시 확인해주세요.".
Definition msg_be_specific : jsstring :=
  js "작업 내용을 더 구체적으로 작성해주세요.".
Definition msg_urgent_recheck : jsstring :=
  js "긴급한 작업입니다. 내용을 다시 확인해주세요.".
Definition msg_set_due_date : jsstring :=
  js "중요한 작업입니다. 마감일을 설정하는 것을 권장합니다.".
Definition msg_split_subtasks : jsstring :=
  js "복잡한 작업입니다. 하위 작업으로 나누는 것을 고려해보세요.".
Definition msg_high_risk : jsstring :=
  js "고위험 요소가 감지되었습니다. 검토가 필요합니다.".

(** [priority?.toLowerCase()] followed by the [switch] of [mapPriority],
    the same in every workflow.  A [priority] that is neither missing nor a
    string has no [toLowerCase] to call. *)
Definition mapPriority {RT : Runtime} (priority : value) : outcome TaskPriority :=
  match priority with
  | Undefined | Null => Returned MEDIUM
  | Str s =>
      let l := toLowerCase s in
      Returned (if JsString.eqb l (js "urgent") then URGENT
                else if JsString.eqb l (js "high") then HIGH
                else if JsString.eqb l (js "low") then LOW
                else MEDIUM)
  | _ => Thrown (TypeError "priority?.toLowerCase is not a function")
  end.

(** [v?.join(", ")] inside a prompt template: only whether it throws is
    kept.  [join] converts the elements of an array, and anything but a
    missing value or an array has no [join]. *)
Definition optional_join (v : value) : outcome unit :=
  match v with
  | Undefined | Null => Returned tt
  | Arr _ => converted v
  | _ => Thrown (TypeError "join is not a function")
  end.

(** [v ? new Date(v) : undefined]: [new Date] converts its argument to a
    primitive before it reads it. *)
Definition optional_date (v : value) : outcome (option value) :=
  if truthy v
  then and_then (converted v) (Returned (Some v))
  else Returned None.

(* ================================================================== *)
(** * [TaskCreationWorkflow] (task-creation.workflow.ts)               *)
(* ================================================================== *)

Module TaskCreationWorkflow.

Record conflict : Type := mkConflict {
  type : jsstring;
  message : jsstring;
  suggestion : jsstring
}.

(** [TaskCreationResult]; [relatedTasks] is never set and left out, and
    [conflicts = None] is a result without that property. *)
Record TaskCreationResult : Type := mkResult {
  result_task : task;
  needsConfirmation : bool;
  suggestions : list jsstring;
  conflicts : option (list conflict);
  confidence : number
}.

Section Workflow.
Context {RT : Runtime}.

Definition parseJSON (jsonString : jsstring) : M object :=
  try_catch
    (match match_braces jsonString with
     | Some jsonMatch => lift (JSON_parse jsonMatch)
     | None => throw (Error "No JSON found")
     end)
    (fun error =>
       logger WARN (js "JSON parsing failed: " ++ error_to_string error
                    ++ js ", raw response: " ++ jsonString) ;;
       ret []).

(** [v && v.length > n]: the comparison is only made for a truthy [v],
    and throws when [v.length] does not convert. *)
Definition longer_than (v : value) (n : number) : outcome bool :=
  if truthy v then greater (length_of v) (Num n) else Returned false.

Definition calculateExtractionConfidence (extractedInfo : object)
    (originalInput : jsstring) : outcome number :=
  let confidence := n0_5 in
  match longer_than (get extractedInfo (js "title")) n5 with
  | Thrown e => Thrown e
  | Returned clear =>
      let confidence :=
        if clear then JsNumber.add confidence n0_2 else confidence in
      match longer_than (get extractedInfo (js "description")) n10 with
      | Thrown e => Thrown e
      | Returned detailed =>
          let confidence :=
            if detailed then JsNumber.add confidence n0_1 else confidence in
          let confidence :=
            if truthy (get extractedInfo (js "dueDate"))
            then JsNumber.add confidence n0_1 else confidence in
          match longer_than (get extractedInfo (js "tags")) n0 with
          | Thrown e => Thrown e
          | Returned tagged =>
              let confidence :=
                if tagged then JsNumber.add confidence n0_1 else confidence in
              Returned (JsNumber.min confidence n1)
          end
      end
  end.

Definition fallbackExtraction (input : jsstring) : object :=
  [ (js "title", Str (truncated_title input));
    (js "description",
      if (100 <? List.length input)%nat then Str input else Undefined);
    (js "tags", Arr []);
    (js "entities",
      Obj [(js "people", Arr []); (js "places", Arr []);
           (js "organizations", Arr [])]);
    (js "urgencyIndicators", Arr []);
    (js "complexity", Num n2);
    (js "estimatedDuration", Num n30);
    (js "confidence", Num n0_3) ].

(** What [fallbackPriorityAnalysis] returns for the lower-cased text
    of a title and description. *)
Definition keyword_analysis (text : jsstring) : object :=
  let priority :=
    if includes text (js "urgent") || includes text (js "긴급")
       || includes text (js "asap")
    then js "urgent"
    else if includes text (js "important") || includes text (js "중요")
            || includes text (js "critical")
    then js "high"
    else if includes text (js "later") || includes text (js "나중에")
            || includes text (js "when possible")
    then js "low"
    else js "medium" in
  [ (js "priority", Str priority);
    (js "reasoning", Str (js "키워드 기반 분석"));
    (js "riskFactors", Arr []);
    (js "recommendedTimeSlot", Str (js "업무 시간"));
    (js "confidence", Num n0_5) ].

(** The two [+] of the first line convert the title and the description,
    and throw when one of them does not convert. *)
Definition fallbackPriorityAnalysis (info : object) : outcome object :=
  match sum (get info (js "title")) (Str (js " ")) with
  | Thrown e => Thrown e
  | Returned head =>
      match sum head (or (get info (js "description")) (Str [])) with
      | Thrown e => Thrown e
      | Returned text =>
          Returned (keyword_analysis (toLowerCase (to_string text)))
      end
  end.

Definition createBasicTask (input : jsstring) : task :=
  {| title := Str (truncated_title input);
     description := Str input;
     dueDate := None;
     priority := MEDIUM;
     tags := Arr [];
     estimatedDuration := Num n30;
     aiMetadata :=
       [ (js "extractedEntities", no_entities);
         (js "confidence", Num n0_3);
         (js "fallback", Bool true) ] |}.

Definition extractDetailedInformation (input : jsstring) : M object :=
  logger DEBUG (js "Step 1: Extracting detailed task information") ;;
  try_catch
    (response <- ollama_generate ;;
     result <- parseJSON response ;;
     confidence <- lift (calculateExtractionConfidence result input) ;;
     ret (set result (js "confidence") (Num confidence)))
    (fun error =>
       logger ERROR (js "Information extraction failed: "
                     ++ error_to_string error) ;;
       ret (fallbackExtraction input)).

(** The prompt template of [analyzeTaskComplexity], built before the
    [try]: it converts the title, the description, the due date and the
    complexity (or the text that stands for a missing one) to strings,
    then joins the urgency indicators. *)
Definition complexity_prompt (extractedInfo : object) : outcome unit :=
  and_then (converted (get extractedInfo (js "title")))
    (and_then
       (converted (or (get extractedInfo (js "description")) (Str (js "없음"))))
       (and_then
          (converted (or (get extractedInfo (js "dueDate")) (Str (js "없음"))))
          (and_then
             (converted
                (or (get extractedInfo (js "complexity")) (Str (js "미정"))))
             (optional_join (get extractedInfo (js "urgencyIndicators")))))).

Definition analyzeTaskComplexity (extractedInfo : object)
    (originalInput : jsstring) : M object :=
  logger DEBUG (js "Step 2: Analyzing task complexity and priority") ;;
  lift (complexity_prompt extractedInfo) ;;
  try_catch
    (response <- ollama_generate ;;
     parseJSON response)
    (fun error =>
       logger ERROR (js "Priority analysis failed: "
                     ++ error_to_string error) ;;
       lift (fallbackPriorityAnalysis extractedInfo)).

(** [overallConfidence] of [validateAndSuggest], when the sum can be
    made. *)
Definition overallConfidence (extractedInfo analysis : object) : number :=
  Math_min
    (plus (or (get extractedInfo (js "confidence")) (Num n0_5))
          (or (get analysis (js "confidence")) (Num n0_5)))
    (Num n1).

Definition resource_conflict : conflict :=
  {| type := js "resource";
     message := js "장시간 소요 작업으로 다른 작업에 영향을 줄 수 있습니다.";
     suggestion := js "작업을 여러 단계로 나누는 것을 고려해보세요." |}.

Definition validateAndSuggest (extractedInfo analysis : object)
  : M TaskCreationResult :=
  logger DEBUG (js "Step 3: Validating and generating suggestions") ;;
  let needsConfirmation := false in
  let suggestions : list jsstring := [] in
  let conflicts : list conflict := [] in
  lift (sum (or (get extractedInfo (js "confidence")) (Num n0_5))
            (or (get analysis (js "confidence")) (Num n0_5))) ;;
  let overall := overallConfidence extractedInfo analysis in
  let '(needsConfirmation, suggestions) :=
    if JsNumber.ltb overall n0_6
    then (true, suggestions ++ [msg_be_specific])
    else (needsConfirmation, suggestions) in
  let '(needsConfirmation, suggestions) :=
    if strict_eq_str (get analysis (js "priority")) (js "urgent")
       && JsNumber.ltb overall n0_8
    then (true, suggestions ++ [msg_urgent_recheck])
    else (needsConfirmation, suggestions) in
  let suggestions :=
    if strict_eq_str (get analysis (js "priority")) (js "high")
       && negb (truthy (get extractedInfo (js "dueDate")))
    then suggestions ++ [msg_set_due_date] else suggestions in
  complex <- lift (at_least (get extractedInfo (js "complexity")) (Num n4)) ;;
  let suggestions :=
    if complex
    then suggestions ++ [msg_split_subtasks] else suggestions in
  long <- lift (greater (get extractedInfo (js "estimatedDuration"))
                  (Num n240)) ;;
  let '(needsConfirmation, conflicts) :=
    if long
    then (true, conflicts ++ [resource_conflict])
    else (needsConfirmation, conflicts) in
  due <- lift (optional_date (get extractedInfo (js "dueDate"))) ;;
  mapped <- lift (mapPriority (get analysis (js "priority"))) ;;
  let finalTask :=
    {| title := get extractedInfo (js "title");
       description := get extractedInfo (js "description");
       dueDate := due;
       priority := mapped;
       tags := or (get extractedInfo (js "tags")) (Arr []);
       estimatedDuration :=
         or (get extractedInfo (js "estimatedDuration")) (Num n30);
       aiMetadata :=
         [ (js "extractedEntities",
             or (get extractedInfo (js "entities")) no_entities);
           (js "suggestedPriority", get analysis (js "priority"));
           (js "priorityReasoning", get analysis (js "reasoning"));
           (js "complexity", get extractedInfo (js "complexity"));
           (js "riskFactors", or (get analysis (js "riskFactors")) (Arr []));
           (js "confidence", Num overall);
           (js "urgencyIndicators",
             or (get extractedInfo (js "urgencyIndicators")) (Arr [])) ] |} in
  ret {| result_task := finalTask;
         needsConfirmation := needsConfirmation;
         suggestions := suggestions;
         conflicts := Some conflicts;
         confidence := overall |}.

(** The result of the [catch] of [execute]. *)
Definition degraded (input : jsstring) : TaskCreationResult :=
  {| result_task := createBasicTask input;
     needsConfirmation := true;
     suggestions := [msg_error_occurred];
     conflicts := None;
     confidence := n0_3 |}.

(** The three steps inside the [try] of [execute]. *)
Definition steps (input : jsstring) : M TaskCreationResult :=
  extractedInfo <- extractDetailedInformation input ;;
  analysis <- analyzeTaskComplexity extractedInfo input ;;
  validateAndSuggest extractedInfo analysis.

Definition start_message (input userId : jsstring) : jsstring :=
  js "Starting task creation workflow for user " ++ userId
    ++ js ": " ++ input.

Definition execute (input userId : jsstring) : M TaskCreationResult :=
  logger DEBUG (start_message input userId) ;;
  try_catch
    (steps input)
    (fun error =>
       logger ERROR (js "Task creation workflow failed: "
                     ++ JsValue.message error) ;;
       ret (degraded input)).

End Workflow.

End TaskCreationWorkflow.

(* ================================================================== *)
(** * [AdvancedTaskCreationWorkflow] (project-analysis.workflow.ts)    *)
(* ================================================================== *)

Module AdvancedTaskCreationWorkflow.

(** A risk signal of [detectConflicts]. *)
Record conflict : Type := mkConflict {
  type : jsstring;
  message : jsstring;
  severity : jsstring
}.

(** [TaskCreationState]; [validationResult] is never written and left
    out.  [confidence] holds whatever the model reported, so it is a
    value and not always a number. *)
Record TaskCreationState : Type := mkState {
  input : jsstring;
  userId : jsstring;
  extractedInfo : option object;
  priorityAnalysis : option object;
  needsHumanReview : bool;
  conflicts : list conflict;
  suggestions : list jsstring;
  finalTask : option task;
  confidence : value;
  currentStep : jsstring
}.

Record TaskCreationResult : Type := mkResult {
  result_task : option task;
  needsConfirmation : bool;
  result_suggestions : list jsstring;
  result_conflicts : list conflict;
  result_confidence : value;
  workflowPath : list jsstring
}.

Definition complexity_conflict : conflict :=
  {| type := js "complexity";
     message := js "매우 복잡한 작업입니다";
     severity := js "high" |}.

Definition duration_conflict : conflict :=
  {| type := js "duration";
     message := js "장시간 소요 작업입니다";
     severity := js "medium" |}.

Definition mismatch_conflict : conflict :=
  {| type := js "priority_complexity_mismatch";
     message := js "긴급하지만 복잡한 작업입니다";
     severity := js "high" |}.

Definition is_high (c : conflict) : bool := JsString.eqb (severity c) (js "high").

Section Workflow.
Context {RT : Runtime}.

Definition parseJSON (jsonString : jsstring) : M object :=
  try_catch
    (match match_braces jsonString with
     | Some jsonMatch => lift (JSON_parse jsonMatch)
     | None => throw (Error "No JSON found")
     end)
    (fun error =>
       logger WARN (js "JSON parsing failed: " ++ error_to_string error) ;;
       ret []).

Definition createBasicTask (input : jsstring) : task :=
  {| title := Str (truncated_title input);
     description := Str input;
     dueDate := None;
     priority := MEDIUM;
     tags := Arr [];
     estimatedDuration := Num n30;
     aiMetadata :=
       [ (js "extractedEntities", Obj []);
         (js "confidence", Num n0_3);
         (js "fallback", Bool true) ] |}.

Definition extractInformation (state : TaskCreationState)
  : M TaskCreationState :=
  logger DEBUG (js "📝 Step 1: Extracting detailed information") ;;
  try_catch
    (response <- ollama_generate ;;
     info <- parseJSON response ;;
     ret {| input := input state;
            userId := userId state;
            extractedInfo := Some info;
            priorityAnalysis := priorityAnalysis state;
            needsHumanReview := needsHumanReview state;
            conflicts := conflicts state;
            suggestions := suggestions state;
            finalTask := finalTask state;
            confidence := or (get info (js "confidence")) (Num n0_5);
            currentStep := js "information_extracted" |})
    (fun error =>
       logger ERROR (js "Information extraction failed: "
                     ++ error_to_string error) ;;
       ret {| input := input state;
              userId := userId state;
              extractedInfo :=
                Some [ (js "title", Str (input state));
                       (js "confidence", Num n0_2);
                       (js "complexity", Num n2);
                       (js "estimatedDuration", Num n30) ];
              priorityAnalysis := priorityAnalysis state;
              needsHumanReview := needsHumanReview state;
              conflicts := conflicts state;
              suggestions := suggestions state;
              finalTask := finalTask state;
              confidence := Num n0_2;
              currentStep := js "extraction_failed" |}).

(** [const info = state.extractedInfo] and the prompt template, built
    before the [try]: it reads properties of [info], converts the title
    and the complexity to strings, joins the urgency keywords and converts
    the estimated duration. *)
Definition priority_prompt (state : TaskCreationState) : outcome unit :=
  match extractedInfo state with
  | None =>
      Thrown (TypeError "Cannot read properties of undefined (reading 'title')")
  | Some info =>
      and_then (converted (get info (js "title")))
        (and_then (converted (get info (js "complexity")))
           (and_then (optional_join (get info (js "urgencyKeywords")))
              (converted (get info (js "estimatedDuration")))))
  end.

Definition analyzePriority (state : TaskCreationState)
  : M TaskCreationState :=
  logger DEBUG (js "⚡ Step 2: Analyzing priority") ;;
  lift (priority_prompt state) ;;
  try_catch
    (response <- ollama_generate ;;
     analysis <- parseJSON response ;;
     total <- lift (sum (confidence state)
                        (or (get analysis (js "confidence")) (Num n0_3))) ;;
     ret {| input := input state;
            userId := userId state;
            extractedInfo := extractedInfo state;
            priorityAnalysis := Some analysis;
            needsHumanReview := needsHumanReview state;
            conflicts := conflicts state;
            suggestions := suggestions state;
            finalTask := finalTask state;
            confidence := Num (Math_min total (Num n1));
            currentStep := js "priority_analyzed" |})
    (fun error =>
       logger ERROR (js "Priority analysis failed: "
                     ++ error_to_string error) ;;
       ret {| input := input state;
              userId := userId state;
              extractedInfo := extractedInfo state;
              priorityAnalysis :=
                Some [ (js "priority", Str (js "medium"));
                       (js "confidence", Num n0_3);
                       (js "riskLevel", Str (js "medium")) ];
              needsHumanReview := needsHumanReview state;
              conflicts := conflicts state;
              suggestions := suggestions state;
              finalTask := finalTask state;
              confidence := confidence state;
              currentStep := js "priority_analysis_failed" |}).

Definition detectConflicts (state : TaskCreationState)
  : M TaskCreationState :=
  logger DEBUG (js "🔍 Step 3: Detecting conflicts") ;;
  let conflicts : list conflict := [] in
  let suggestions := suggestions state in
  complex <- lift (at_least (opt_get (extractedInfo state) (js "complexity"))
                     (Num n4)) ;;
  let '(conflicts, suggestions) :=
    if complex
    then (conflicts ++ [complexity_conflict],
          suggestions ++ [js "작업을 여러 단계로 나누는 것을 권장합니다"])
    else (conflicts, suggestions) in
  long <- lift (greater (opt_get (extractedInfo state) (js "estimatedDuration"))
                  (Num n240)) ;;
  let '(conflicts, suggestions) :=
    if long
    then (conflicts ++ [duration_conflict],
          suggestions ++ [js "다른 작업들과의 스케줄 조정이 필요할 수 있습니다"])
    else (conflicts, suggestions) in
  mismatch <-
    (if strict_eq_str (opt_get (priorityAnalysis state) (js "priority"))
          (js "urgent")
     then lift (at_least (opt_get (extractedInfo state) (js "complexity"))
                  (Num n4))
     else ret false) ;;
  let '(conflicts, suggestions) :=
    if mismatch
    then (conflicts ++ [mismatch_conflict],
          suggestions ++ [js "리소스 확보 또는 범위 축소를 고려하세요"])
    else (conflicts, suggestions) in
  ret {| input := input state;
         userId := userId state;
         extractedInfo := extractedInfo state;
         priorityAnalysis := priorityAnalysis state;
         needsHumanReview := needsHumanReview state;
         conflicts := conflicts;
         suggestions := suggestions;
         finalTask := finalTask state;
         confidence := confidence state;
         currentStep := js "conflicts_detected" |}.

(** The signals [detectConflicts] leaves in the state when it returns,
    in check order. *)
Definition signals (st : TaskCreationState) : list conflict :=
  (if ge (opt_get (extractedInfo st) (js "complexity")) (Num n4)
   then [complexity_conflict] else [])
  ++ (if gt (opt_get (extractedInfo st) (js "estimatedDuration")) (Num n240)
      then [duration_conflict] else [])
  ++ (if strict_eq_str (opt_get (priorityAnalysis st) (js "priority"))
           (js "urgent")
         && ge (opt_get (extractedInfo st) (js "complexity")) (Num n4)
      then [mismatch_conflict] else []).

Definition validateAndFinalize (state : TaskCreationState)
  : M TaskCreationState :=
  logger DEBUG (js "✅ Step 4: Validating and finalizing") ;;
  let needsHumanReview := false in
  let suggestions := suggestions state in
  low <- lift (less (confidence state) (Num n0_6)) ;;
  let '(needsHumanReview, suggestions) :=
    if low
    then (true, suggestions ++ [msg_be_specific])
    else (needsHumanReview, suggestions) in
  urgent_low <-
    (if strict_eq_str (opt_get (priorityAnalysis state) (js "priority"))
          (js "urgent")
     then lift (less (confidence state) (Num n0_8))
     else ret false) ;;
  let '(needsHumanReview, suggestions) :=
    if urgent_low
    then (true, suggestions ++ [msg_urgent_recheck])
    else (needsHumanReview, suggestions) in
  let suggestions :=
    if strict_eq_str (opt_get (priorityAnalysis state) (js "priority"))
         (js "high")
       && negb (truthy (opt_get (extractedInfo state) (js "dueDate")))
    then suggestions ++ [msg_set_due_date] else suggestions in
  let '(needsHumanReview, suggestions) :=
    if existsb is_high (conflicts state)
    then (true, suggestions ++ [msg_high_risk])
    else (needsHumanReview, suggestions) in
  mapped <- lift (mapPriority
                    (or (opt_get (priorityAnalysis state) (js "priority"))
                        (Str (js "medium")))) ;;
  due <- lift (optional_date (opt_get (extractedInfo state) (js "dueDate"))) ;;
  let task :=
    {| title := or (opt_get (extractedInfo state) (js "title"))
                   (Str (input state));
       description := opt_get (extractedInfo state) (js "description");
       priority := mapped;
       estimatedDuration :=
         or (opt_get (extractedInfo state) (js "estimatedDuration")) (Num n30);
       tags := or (opt_get (extractedInfo state) (js "tags")) (Arr []);
       dueDate := due;
       aiMetadata :=
         [ (js "extractedEntities",
             or (opt_get (extractedInfo state) (js "entities")) (Obj []));
           (js "suggestedPriority",
             opt_get (priorityAnalysis state) (js "priority"));
           (js "priorityReasoning",
             opt_get (priorityAnalysis state) (js "reasoning"));
           (js "complexity", opt_get (extractedInfo state) (js "complexity"));
           (js "riskLevel", opt_get (priorityAnalysis state) (js "riskLevel"));
           (js "confidence", confidence state);
           (js "workflowVersion", Str (js "advanced-v2"));
           (js "processedSteps", Str (currentStep state));
           (js "urgencyIndicators",
             or (opt_get (extractedInfo state) (js "urgencyKeywords"))
                (Arr [])) ] |} in
  ret {| input := input state;
         userId := userId state;
         extractedInfo := extractedInfo state;
         priorityAnalysis := priorityAnalysis state;
         needsHumanReview := needsHumanReview;
         conflicts := conflicts state;
         suggestions := suggestions;
         finalTask := Some task;
         confidence := confidence state;
         currentStep := js "finalized" |}.

Definition initialState (input userId : jsstring) : TaskCreationState :=
  {| input := input;
     userId := userId;
     extractedInfo := None;
     priorityAnalysis := None;
     needsHumanReview := false;
     conflicts := [];
     suggestions := [];
     finalTask := None;
     confidence := Num n0;
     currentStep := js "starting" |}.

Definition result_of (state : TaskCreationState) : TaskCreationResult :=
  {| result_task := finalTask state;
     needsConfirmation := needsHumanReview state;
     result_suggestions := suggestions state;
     result_conflicts := conflicts state;
     result_confidence := confidence state;
     workflowPath := [currentStep state] |}.

Definition degraded (input : jsstring) : TaskCreationResult :=
  {| result_task := Some (createBasicTask input);
     needsConfirmation := true;
     result_suggestions := [msg_error_occurred];
     result_conflicts := [];
     result_confidence := Num n0_3;
     workflowPath := [js "error"] |}.

(** The four stages inside the [try] of [execute]. *)
Definition stages (state : TaskCreationState) : M TaskCreationState :=
  state <- extractInformation state ;;
  state <- analyzePriority state ;;
  state <- detectConflicts state ;;
  validateAndFinalize state.

Definition start_message (input : jsstring) : jsstring :=
  js "🚀 Starting advanced workflow for: " ++ input.

Definition execute (input userId : jsstring) : M TaskCreationResult :=
  logger DEBUG (start_message input) ;;
  try_catch
    (state <- stages (initialState input userId) ;;
     ret (result_of state))
    (fun error =>
       logger ERROR (js "Advanced workflow failed: "
                     ++ error_to_string error) ;;
       ret (degraded input)).

End Workflow.

End AdvancedTaskCreationWorkflow.

(* ================================================================== *)
(** * [AiService.fallbackParsing]: the tags of the keyword fallback    *)
(* ================================================================== *)

Module AiService.

(** [input.split(/\s+/).filter(w => w.startsWith("#")).map(t => t.substring(1))] *)
Definition fallbackParsing_tags (input : jsstring) : list jsstring :=
  map (substring_from 1)
    (filter (starts_with [hash]) (split_spaces input)).

End AiService.

(* ================================================================== *)
(** * What the model reported                                          *)
(* ================================================================== *)

Module Reports.

(** [o] is an object the workflow decoded from an answer of the model. *)
Definition reported {RT : Runtime} (c : client) (o : object) : Prop :=
  exists i text m,
    c i = Responds text /\ match_braces text = Some m /\
    JSON_parse m = Returned o.

(** A [confidence] property that is missing, or a number in [0, 1]. *)
Definition in_unit (v : value) : Prop :=
  v = Undefined \/
  exists n, v = Num n /\ JsNumber.leb n0 n = true /\ JsNumber.leb n n1 = true.

(** Every confidence the model reports is missing or within [0, 1]. *)
Definition reports_in_unit {RT : Runtime} (c : client) : Prop :=
  forall o, reported c o -> in_unit (get o (js "confidence")).

(** A number within [0, 1]. *)
Definition unit_number (v : value) : Prop :=
  exists n, v = Num n /\ JsNumber.leb n0 n = true /\ JsNumber.leb n n1 = true.

End Reports.

Import Reports.

(* ================================================================== *)
(** * The specification's words, for comparison with the code          *)
(* ================================================================== *)

Module Spec.




Definition no_space (w : jsstring) : Prop :=
  forall c, In c w -> is_space c = false.

(** What may precede a word: nothing, or white space. *)
Definition closed_left (before : jsstring) : Prop :=
  before = [] \/ exists b c, before = b ++ [c] /\ is_space c = true.

(** What may follow a word: nothing, or white space. *)
Definition closed_right (after : jsstring) : Prop :=
  after = [] \/ exists c a, after = c :: a /\ is_space c = true.

(** "the words of inputText": [w] is a word of [s] when it is a non-empty
    stretch of [s] without white space that is delimited, on each side,
    by white space or by the end of [s]. *)
Definition word_of (s w : jsstring) : Prop :=
  w <> [] /\ no_space w /\
  exists before after,
    s = before ++ w ++ after /\ closed_left before /\ closed_right after.

(** "that start with '#', with the leading hash stripped" *)
Definition hash_tag_of (s t : jsstring) : Prop := word_of s (hash :: t).

End Spec.

(* ================================================================== *)
(** * Concrete runs                                                    *)
(* ================================================================== *)

Module Scenario.

Definition quoted (s : string) : jsstring := [34%N] ++ js s ++ [34%N].

(** [{"confidence": -5}] *)
Definition text_negative_confidence : jsstring :=
  js "{" ++ quoted "confidence" ++ js ": -5}".

(** [{"confidence": 7}] *)
Definition text_confidence_seven : jsstring :=
  js "{" ++ quoted "confidence" ++ js ": 7}".

(** [{"priority": 5}] *)
Definition text_numeric_priority : jsstring :=
  js "{" ++ quoted "priority" ++ js ": 5}".

(** [{"complexity": 5, "confidence": 0.5}] *)
Definition text_complex : jsstring :=
  js "{" ++ quoted "complexity" ++ js ": 5, " ++ quoted "confidence"
    ++ js ": 0.5}".

(** [{"priority": "urgent", "confidence": 0.5}] *)
Definition text_urgent : jsstring :=
  js "{" ++ quoted "priority" ++ js ": " ++ quoted "urgent" ++ js ", "
    ++ quoted "confidence" ++ js ": 0.5}".

Definition minus_five : number := Eval vm_compute in Prim2SF (-5).
Definition seven : number := Eval vm_compute in Prim2SF 7.
Definition n300 : number := Eval vm_compute in Prim2SF 300.
Definition n0_7 : number := Eval vm_compute in Prim2SF 0.7.
Definition minus_4_5 : number := Eval vm_compute in Prim2SF (-4.5).

(** What [JSON.parse] returns on the texts above. *)
Definition parsed : list (jsstring * object) :=
  [ (text_negative_confidence, [(js "confidence", Num minus_five)]);
    (text_confidence_seven, [(js "confidence", Num seven)]);
    (text_numeric_priority, [(js "priority", Num n5)]);
    (text_complex, [(js "complexity", Num n5); (js "confidence", Num n0_5)]);
    (text_urgent,
      [(js "priority", Str (js "urgent")); (js "confidence", Num n0_5)]) ].

Fixpoint lookup (t : jsstring) (l : list (jsstring * object)) : option object :=
  match l with
  | [] => None
  | (k, o) :: l' => if JsString.eqb k t then Some o else lookup t l'
  end.

Definition lower (c : code_unit) : code_unit :=
  if ((65 <=? c) && (c <=? 90))%N then (c + 32)%N else c.

(** A runtime for the runs below: [JSON.parse] on the texts of [parsed]
    (a syntax error elsewhere) and [toLowerCase] on ASCII and Hangul
    text.  The runs convert no finite non-zero number to a string and
    no numeral to a number. *)
Definition runtime : Runtime :=
  {| JSON_parse t :=
       match lookup t parsed with
       | Some o => Returned o
       | None => Thrown (mkError (js "SyntaxError") (js "Unexpected token"))
       end;
     number_to_string n :=
       match n with
       | S754_nan => js "NaN"
       | S754_infinity false => js "Infinity"
       | S754_infinity true => js "-Infinity"
       | _ => js "0"
       end;
     string_to_number s := match s with [] => n0 | _ => NaN end;
     toLowerCase := map lower |}.

Definition connection_refused : error :=
  mkError (js "TypeError") (js "fetch failed").

(** Total service outage. *)
Definition outage : client := fun _ => Rejects connection_refused.

(** The model answers in prose, without any JSON. *)
Definition prose : client := fun _ => Responds (js "죄송합니다, 잘 모르겠습니다.").

(** The model answers the first call with [first], every later call
    with [later]. *)
Definition answers (first later : jsstring) : client :=
  fun i => match i with O => Responds first | S _ => Responds later end.

(** The first call is answered, the service is down afterwards. *)
Definition answers_then_outage (first : jsstring) : client :=
  fun i => match i with O => Responds first | S _ => Rejects connection_refused end.

Definition meeting : jsstring := js "회의 준비 #긴급 #보고서".
Definition user1 : jsstring := js "user-1".
Definition user2 : jsstring := js "user-2".

End Scenario.

(* ================================================================== *)
(** * The regular expressions of [extractBasicInfo], and dates         *)
(* ================================================================== *)

Module JsRegExp.

(** [\d] *)
Definition is_digit (c : code_unit) : bool := ((48 <=? c) && (c <=? 57))%N.

(** [\w] without the [u] flag: ASCII letters, digits and the underscore. *)
Definition is_word (c : code_unit) : bool :=
  (is_digit c || (65 <=? c) && (c <=? 90) || (97 <=? c) && (c <=? 122)
   || (c =? 95))%N.

(** How the [i] flag compares a character with one of the pattern
    without the [u] flag: by their upper case.  The patterns below hold
    ASCII and Hangul characters only; no other character has the upper
    case of one of these, so it is enough to fold the ASCII letters. *)
Definition fold (c : code_unit) : code_unit :=
  if ((97 <=? c) && (c <=? 122))%N then (c - 32)%N else c.

(** A pattern at the head of a string: what is left after the match. *)
Definition matcher := jsstring -> option jsstring.

Definition digit : matcher :=
  fun s => match s with
           | c :: r => if is_digit c then Some r else None
           | [] => None
           end.

Definition char (ch : code_unit) : matcher :=
  fun s => match s with
           | c :: r => if (c =? ch)%N then Some r else None
           | [] => None
           end.

(** A literal under the [i] flag. *)
Fixpoint literal_i (p : jsstring) : matcher :=
  fun s => match p with
           | [] => Some s
           | ch :: p' =>
               match s with
               | c :: r => if (fold c =? fold ch)%N then literal_i p' r else None
               | [] => None
               end
           end.

Definition seq (m1 m2 : matcher) : matcher :=
  fun s => match m1 s with
           | Some r => m2 r
           | None => None
           end.

(** [m1|m2], and backtracking between alternatives of which at most one
    can match. *)
Definition alt (m1 m2 : matcher) : matcher :=
  fun s => match m1 s with
           | Some r => Some r
           | None => m2 s
           end.

Definition dash : code_unit := 45%N.
Definition slash : code_unit := 47%N.

(** [\d{4}-\d{2}-\d{2}] *)
Definition iso_date : matcher :=
  seq digit (seq digit (seq digit (seq digit (seq (char dash)
    (seq digit (seq digit (seq (char dash) (seq digit digit)))))))).

(** [\d{1,2}\/]: two digits are tried first; the slash cannot follow both
    one and two digits, so at most one of the two ways matches. *)
Definition day_or_month : matcher :=
  alt (seq digit (seq digit (char slash))) (seq digit (char slash)).

(** [\d{1,2}\/\d{1,2}\/\d{4}] *)
Definition slash_date : matcher :=
  seq day_or_month (seq day_or_month (seq digit (seq digit (seq digit digit)))).

(** [(\d{4}-\d{2}-\d{2}|\d{1,2}\/\d{1,2}\/\d{4}|내일|다음주|next week|tomorrow)]
    under the [i] flag. *)
Definition datePattern : matcher :=
  alt iso_date
    (alt slash_date
       (alt (literal_i (js "내일"))
          (alt (literal_i (js "다음주"))
             (alt (literal_i (js "next week")) (literal_i (js "tomorrow")))))).

(** The text a matcher consumed at the head of [s]. *)
Definition matched (s rest : jsstring) : jsstring :=
  firstn (List.length s - List.length rest) s.

(** [s.match(/.../g)] for a pattern that never matches the empty string:
    the matches from left to right, the search resuming after each one.
    [skip] counts the characters of the last match still to be passed. *)
Fixpoint match_global (m : matcher) (skip : nat) (s : jsstring) : list jsstring :=
  match s with
  | [] => []
  | _ :: s' =>
      match skip with
      | S k => match_global m k s'
      | O =>
          match m s with
          | Some rest =>
              matched s rest
                :: match_global m (List.length s - List.length rest - 1) s'
          | None => match_global m 0 s'
          end
      end
  end.

(** The longest run of [\w] at the head of [s]. *)
Fixpoint word_run (s : jsstring) : jsstring :=
  match s with
  | c :: r => if is_word c then c :: word_run r else []
  | [] => []
  end.

(** [[...s.matchAll(/#(\w+)/g)].map(match => match[1])] *)
Fixpoint hash_words (skip : nat) (s : jsstring) : list jsstring :=
  match s with
  | [] => []
  | c :: s' =>
      match skip with
      | S k => hash_words k s'
      | O =>
          if (c =? hash)%N
          then match word_run s' with
               | [] => hash_words 0 s'
               | w => w :: hash_words (List.length w) s'
               end
          else hash_words 0 s'
      end
  end.

End JsRegExp.

Import JsRegExp.

Module JsDate.

(** The dates the embedding does not reimplement, for a [v] that
    converts; [new Date(v)] throws on any other (see [converts]).
    [new Date(v).toISOString()]: the ISO text of the date, or the
    [RangeError] thrown for an invalid date. *)
Class Dates : Type := {
  toISOString : value -> outcome jsstring;
  (** [new Date(v).getTime()]: the time value, [NaN] for an invalid
      date. *)
  getTime : value -> number
}.

End JsDate.

Import JsDate.

(* ================================================================== *)
(** * [SimpleTaskWorkflow] (project-analysis.workflow.ts)              *)
(* ================================================================== *)

Module SimpleTaskWorkflow.

(** [WorkflowResult]; [dueDate = None] is [undefined]. *)
Record WorkflowResult : Type := mkResult {
  title : value;
  description : value;
  dueDate : option jsstring;
  priority : TaskPriority;
  tags : value;
  entities : value;
  estimatedDuration : value;
  confidence : number
}.

Definition n0_7 : number := Eval vm_compute in Prim2SF 0.7.

Definition urgentKeywords : list jsstring :=
  [js "urgent"; js "asap"; js "emergency"; js "critical"; js "긴급";
   js "즉시"; js "당장"].
Definition highKeywords : list jsstring :=
  [js "important"; js "must"; js "need to"; js "required"; js "중요";
   js "해야"; js "필수"].
Definition lowKeywords : list jsstring :=
  [js "when possible"; js "eventually"; js "sometime"; js "나중에";
   js "시간될때"; js "여유있을때"].

Section Workflow.
Context {RT : Runtime} {DT : Dates}.

Definition parseJSON (jsonString : jsstring) : M object :=
  try_catch
    (match match_braces jsonString with
     | Some jsonMatch => lift (JSON_parse jsonMatch)
     | None => throw (Error "No JSON found")
     end)
    (fun error =>
       logger WARN (js "JSON parsing failed: " ++ error_to_string error
                    ++ js ", raw response: " ++ jsonString) ;;
       ret []).

Definition extractBasicInfo (input : jsstring) : object :=
  let title := truncated_title input in
  let dates := match_global datePattern 0 input in
  let tags := hash_words 0 input in
  [ (js "title", Str title);
    (js "description",
      if (100 <? List.length input)%nat then Str input else Undefined);
    (js "tags", Arr (map Str tags));
    (js "entities",
      Obj [(js "people", Arr []); (js "places", Arr []);
           (js "organizations", Arr []); (js "dates", Arr (map Str dates))]);
    (js "estimatedDuration", Num n30);
    (js "confidence", Num n0_5) ].

Definition analyzePriorityKeywords (text : jsstring) : object :=
  let lowerText := toLowerCase text in
  let priority :=
    if existsb (includes lowerText) urgentKeywords then js "urgent"
    else if existsb (includes lowerText) highKeywords then js "high"
    else if existsb (includes lowerText) lowKeywords then js "low"
    else js "medium" in
  [ (js "priority", Str priority);
    (js "reasoning", Str (js "키워드 기반 분석"));
    (js "confidence", Num n0_6) ].

Definition createFallbackResult (input : jsstring) : WorkflowResult :=
  {| title := Str (truncated_title input);
     description := Undefined;
     dueDate := None;
     priority := MEDIUM;
     tags := Arr [];
     entities := no_entities;
     estimatedDuration := Num n30;
     confidence := n0_3 |}.

Definition extractInformation (input : jsstring) : M object :=
  logger DEBUG (js "Step 1: Extracting information") ;;
  try_catch
    (response <- ollama_generate ;;
     parseJSON response)
    (fun error =>
       logger ERROR (js "Information extraction failed: "
                     ++ error_to_string error) ;;
       ret (extractBasicInfo input)).

(** The prompt template of [analyzePriority], built before the [try]:
    it converts to strings the title, the description and the due date,
    or what stands for a missing one. *)
Definition priority_prompt (extractedInfo : object) (originalInput : jsstring)
  : outcome unit :=
  and_then
    (converted (or (get extractedInfo (js "title")) (Str originalInput)))
    (and_then
       (converted (or (get extractedInfo (js "description")) (Str (js "없음"))))
       (converted (or (get extractedInfo (js "dueDate")) (Str (js "없음"))))).

Definition analyzePriority (extractedInfo : object) (originalInput : jsstring)
  : M object :=
  logger DEBUG (js "Step 2: Analyzing priority") ;;
  lift (priority_prompt extractedInfo originalInput) ;;
  try_catch
    (response <- ollama_generate ;;
     parseJSON response)
    (fun error =>
       logger ERROR (js "Priority analysis failed: "
                     ++ error_to_string error) ;;
       ret (analyzePriorityKeywords originalInput)).

(** The date parsing of [finalizeResult]: the ISO text, and [undefined]
    when there is no due date, when the due date does not convert, or
    when [toISOString] throws. *)
Definition parsedDueDate (extractedInfo : object) : option jsstring :=
  if truthy (get extractedInfo (js "dueDate"))
  then match and_then (converted (get extractedInfo (js "dueDate")))
               (toISOString (get extractedInfo (js "dueDate"))) with
       | Returned iso => Some iso
       | Thrown _ => None
       end
  else None.

(** [confidence] of [finalizeResult], when the sum can be made. *)
Definition overallConfidence (extractedInfo priorityInfo : object) : number :=
  Math_min
    (plus (or (get extractedInfo (js "confidence")) (Num n0_7))
          (or (get priorityInfo (js "confidence")) (Num n0_7)))
    (Num n1).

Definition finalizeResult (extractedInfo priorityInfo : object)
    (originalInput : jsstring) : M WorkflowResult :=
  logger DEBUG (js "Step 3: Finalizing result") ;;
  let dueDate := parsedDueDate extractedInfo in
  lift (sum (or (get extractedInfo (js "confidence")) (Num n0_7))
            (or (get priorityInfo (js "confidence")) (Num n0_7))) ;;
  let confidence := overallConfidence extractedInfo priorityInfo in
  mapped <- lift (mapPriority
                    (or (get priorityInfo (js "priority")) (Str (js "medium")))) ;;
  ret {| title := or (get extractedInfo (js "title"))
                     (Str (slice0 50 originalInput));
         description := get extractedInfo (js "description");
         dueDate := dueDate;
         priority := mapped;
         tags := or (get extractedInfo (js "tags")) (Arr []);
         entities := or (get extractedInfo (js "entities")) no_entities;
         estimatedDuration :=
           or (get extractedInfo (js "estimatedDuration")) (Num n30);
         confidence := confidence |}.

(** The three steps inside the [try] of [execute]. *)
Definition steps (input : jsstring) : M WorkflowResult :=
  extractedInfo <- extractInformation input ;;
  priorityInfo <- analyzePriority extractedInfo input ;;
  finalizeResult extractedInfo priorityInfo input.

Definition execute (input : jsstring) : M WorkflowResult :=
  logger DEBUG (js "Starting workflow execution for: " ++ input) ;;
  try_catch
    (steps input)
    (fun error =>
       logger ERROR (js "Workflow execution failed: "
                     ++ JsValue.message error) ;;
       ret (createFallbackResult input)).

End Workflow.

End SimpleTaskWorkflow.

#[global] Arguments SimpleTaskWorkflow.n0_7 : simpl never.

(* ================================================================== *)
(** * [AiService]: the methods that run the workflows                  *)
(* ================================================================== *)

Module AiServiceMethods.

(** [ParsedTaskData]; [dueDate = Some iso] stands for [new Date(iso)]. *)
Record ParsedTaskData : Type := mkParsed {
  title : value;
  description : value;
  dueDate : option jsstring;
  priority : TaskPriority;
  tags : value;
  extractedEntities : value;
  estimatedDuration : value;
  confidence : number
}.

(** What [createTaskFromNaturalLanguage] resolves to; [conflicts = None]
    is a result without that property, and [relatedTasks] is never set. *)
Record CreatedTask : Type := mkCreated {
  created_task : task;
  needsConfirmation : bool;
  suggestions : list jsstring;
  conflicts : option (list TaskCreationWorkflow.conflict)
}.

Definition msg_more_specific : jsstring :=
  js "작업 내용을 더 구체적으로 입력해주세요.".

Section Methods.
Context {RT : Runtime} {DT : Dates}.

(** [parseNaturalLanguageTaskOriginal], the LangChain parser kept as a
    backup: a method of the service that is taken as given. *)
Variable parseNaturalLanguageTaskOriginal : jsstring -> M ParsedTaskData.

Definition parseNaturalLanguageTask (input : jsstring) : M ParsedTaskData :=
  logger DEBUG (js "Parsing natural language input: " ++ input) ;;
  try_catch
    (workflowResult <- SimpleTaskWorkflow.execute input ;;
     ret {| title := SimpleTaskWorkflow.title workflowResult;
            description := SimpleTaskWorkflow.description workflowResult;
            dueDate :=
              match SimpleTaskWorkflow.dueDate workflowResult with
              | Some iso => if truthy (Str iso) then Some iso else None
              | None => None
              end;
            priority := SimpleTaskWorkflow.priority workflowResult;
            tags := or (SimpleTaskWorkflow.tags workflowResult) (Arr []);
            extractedEntities :=
              or (SimpleTaskWorkflow.entities workflowResult) no_entities;
            estimatedDuration :=
              SimpleTaskWorkflow.estimatedDuration workflowResult;
            confidence := SimpleTaskWorkflow.confidence workflowResult |})
    (fun error =>
       logger ERROR (js "LangGraph workflow failed, falling back to original method: "
                     ++ error_to_string error) ;;
       parseNaturalLanguageTaskOriginal input).

(** [priority] of [TaskPriority] as the string it is. *)
Definition priority_string (p : TaskPriority) : jsstring :=
  match p with
  | LOW => js "low"
  | MEDIUM => js "medium"
  | HIGH => js "high"
  | URGENT => js "urgent"
  end.

Definition createTaskFromNaturalLanguage (input userId : jsstring)
  : M CreatedTask :=
  logger DEBUG (js "Creating task from natural language for user " ++ userId
                ++ js ": " ++ input) ;;
  try_catch
    (result <- TaskCreationWorkflow.execute input userId ;;
     ret {| created_task := TaskCreationWorkflow.result_task result;
            needsConfirmation := TaskCreationWorkflow.needsConfirmation result;
            suggestions := TaskCreationWorkflow.suggestions result;
            conflicts := TaskCreationWorkflow.conflicts result |})
    (fun error =>
       logger ERROR (js "Task creation workflow failed: "
                     ++ error_to_string error) ;;
       parsedData <- parseNaturalLanguageTask input ;;
       ret {| created_task :=
                mkTask (title parsedData) (description parsedData)
                  (option_map Str (dueDate parsedData))
                  (priority parsedData) (tags parsedData)
                  (estimatedDuration parsedData)
                  [ (js "extractedEntities", extractedEntities parsedData);
                    (js "confidence", Num (confidence parsedData));
                    (js "originalInput", Str input) ];
              needsConfirmation := JsNumber.ltb (confidence parsedData) n0_6;
              suggestions :=
                if JsNumber.ltb (confidence parsedData) n0_6
                then [msg_more_specific] else [];
              conflicts := None |}).

End Methods.

End AiServiceMethods.

(* ================================================================== *)
(** * [ProjectAnalysisWorkflow] (project-analysis.workflow.ts)         *)
(* ================================================================== *)

Module JsMath.

Definition sub (x y : number) : number := SFsub prec emax x y.
Definition mul (x y : number) : number := SFmul prec emax x y.
Definition div (x y : number) : number := SFdiv prec emax x y.

(** An integer of magnitude [n] and sign [s] as a number; a zero keeps
    the sign. *)
Definition signed (s : bool) (n : Z) : number :=
  if (n =? 0)%Z then S754_zero s
  else binary_normalize prec emax (if s then - n else n) 0 false.

(** [Math.round]: the closest integer, and of two equally close ones the
    one towards [+Infinity]; a result of zero keeps the sign. *)
Definition Math_round (x : number) : number :=
  match x with
  | S754_finite s m e =>
      if (0 <=? e)%Z then x
      else
        let d := (2 ^ (- e))%Z in
        let q := (Zpos m / d)%Z in
        let r := (Zpos m mod d)%Z in
        let away := if s then (d <? 2 * r)%Z else (d <=? 2 * r)%Z in
        signed s (if away then q + 1 else q)%Z
  | _ => x
  end.

(** [Math.ceil]: the smallest integer that is not below; a result of
    zero keeps the sign. *)
Definition Math_ceil (x : number) : number :=
  match x with
  | S754_finite s m e =>
      if (0 <=? e)%Z then x
      else
        let d := (2 ^ (- e))%Z in
        let q := (Zpos m / d)%Z in
        let r := (Zpos m mod d)%Z in
        signed s (if s then q else if (r =? 0)%Z then q else q + 1)%Z
  | _ => x
  end.

Definition n3 : number := Eval vm_compute in Prim2SF 3.
Definition n20 : number := Eval vm_compute in Prim2SF 20.
Definition n40 : number := Eval vm_compute in Prim2SF 40.
Definition n50 : number := Eval vm_compute in Prim2SF 50.
Definition n60 : number := Eval vm_compute in Prim2SF 60.
Definition n70 : number := Eval vm_compute in Prim2SF 70.
Definition n80 : number := Eval vm_compute in Prim2SF 80.
Definition n100 : number := Eval vm_compute in Prim2SF 100.

(** [1000 * 60 * 60 * 24], which the doubles compute exactly. *)
Definition n86400000 : number := Eval vm_compute in Prim2SF 86400000.

End JsMath.

Import JsMath.

#[global] Arguments JsMath.sub : simpl never.
#[global] Arguments JsMath.mul : simpl never.
#[global] Arguments JsMath.div : simpl never.
#[global] Arguments Math_round : simpl never.
#[global] Arguments Math_ceil : simpl never.
#[global] Arguments n3 : simpl never.
#[global] Arguments n20 : simpl never.
#[global] Arguments n40 : simpl never.
#[global] Arguments n50 : simpl never.
#[global] Arguments n60 : simpl never.
#[global] Arguments n70 : simpl never.
#[global] Arguments n80 : simpl never.
#[global] Arguments n100 : simpl never.
#[global] Arguments n86400000 : simpl never.

Module JsAccess.

(** [v.k] for a key [k] that no string, array, number or boolean has:
    reading a property of [null] or [undefined] throws. *)
Definition member (v : value) (k : jsstring) : outcome value :=
  match v with
  | Undefined | Null =>
      Thrown (TypeError "Cannot read properties of undefined")
  | Obj o => Returned (get o k)
  | _ => Returned Undefined
  end.

(** [v?.length] *)
Definition optional_length (v : value) : value :=
  match v with
  | Undefined | Null => Undefined
  | _ => length_of v
  end.

(** [items.filter(keep)] with a callback that may throw. *)
Fixpoint filter_with (keep : value -> outcome bool) (items : list value)
  : outcome (list value) :=
  match items with
  | [] => Returned []
  | t :: rest =>
      match keep t with
      | Thrown e => Thrown e
      | Returned b =>
          match filter_with keep rest with
          | Thrown e => Thrown e
          | Returned kept => Returned (if b then t :: kept else kept)
          end
      end
  end.

(** The code points of a string, as the strings its iterator yields: a
    high surrogate followed by a low one is one code point.  The low
    surrogate is then the first code point of the rest, which is
    dropped. *)
Fixpoint code_points (s : jsstring) : list jsstring :=
  match s with
  | [] => []
  | c :: s' =>
      match s' with
      | c' :: s'' =>
          if ((55296 <=? c) && (c <=? 56319) && (56320 <=? c')
              && (c' <=? 57343))%N
          then match code_points s' with
               | _ :: points => [c; c'] :: points
               | [] => [[c; c']]
               end
          else [c] :: code_points s'
      | [] => [[c]]
      end
  end.

(** [...v] in an argument list: the elements of an array, the code
    points of a string; another value is not iterable. *)
Definition spread (v : value) : outcome (list value) :=
  match v with
  | Arr items => Returned items
  | Str s => Returned (map Str (code_points s))
  | _ => Thrown (TypeError "Spread syntax requires ...iterable")
  end.

End JsAccess.

Import JsAccess.

Module ProjectAnalysisWorkflow.

(** The four values of [calculateProjectHealth]. *)
Inductive health : Type := excellent | good | fair | poor.

(** The string each of them is. *)
Definition health_name (h : health) : jsstring :=
  match h with
  | excellent => js "excellent"
  | good => js "good"
  | fair => js "fair"
  | poor => js "poor"
  end.

(** The object [calculateMetrics] builds. *)
Record Metrics : Type := mkMetrics {
  totalTasks : value;
  completedTasks : value;
  overdueTasks : value;
  completionRate : number;
  overdueRate : number;
  averageTaskDuration : number;
  projectHealth : health
}.

(** [ProjectAnalysisState]; [metrics = None] is the initial [{}]. *)
Record ProjectAnalysisState : Type := mkState {
  projectId : jsstring;
  projectData : value;
  analysisType : jsstring;
  insights : value;
  recommendations : list value;
  risks : list value;
  metrics : option Metrics;
  confidence : number
}.

Record ProjectAnalysisResult : Type := mkResult {
  summary : jsstring;
  result_insights : value;
  result_recommendations : list value;
  result_risks : list value;
  result_metrics : option Metrics;
  result_confidence : number
}.

(** [metrics.f] for a numeric property [f]. *)
Definition metric (f : Metrics -> number) (m : option Metrics) : value :=
  match m with
  | Some x => Num (f x)
  | None => Undefined
  end.

Definition risk_overdue : jsstring :=
  js "높은 지연율: 프로젝트 일정이 크게 밀리고 있습니다".
Definition risk_deadline : jsstring :=
  js "마감일 위험: 현재 진행률로는 마감일 내 완료가 어려울 수 있습니다".
Definition risk_duration : jsstring :=
  js "작업 복잡도 높음: 평균 작업 소요 시간이 예상보다 깁니다".

Definition advice_schedule : jsstring :=
  js "일정 관리 개선: 작업 우선순위를 재검토하고 리소스 배분을 조정하세요".
Definition advice_progress : jsstring :=
  js "진행률 향상: 작업을 더 작은 단위로 분할하여 완료 가능성을 높이세요".
Definition advice_duration : jsstring :=
  js "작업 복잡도 관리: 복잡한 작업들을 세분화하여 관리 효율성을 높이세요".

Definition failed_insights : value :=
  Obj [ (js "performance", Str (js "분석 중 오류 발생"));
        (js "efficiency", Str (js "데이터 부족으로 분석 불가")) ].

Section Workflow.
Context {RT : Runtime} {DT : Dates}.

Definition parseJSON (jsonString : jsstring) : M object :=
  try_catch
    (match match_braces jsonString with
     | Some jsonMatch => lift (JSON_parse jsonMatch)
     | None => ret []
     end)
    (fun error =>
       logger WARN (js "JSON parsing failed: " ++ error_to_string error) ;;
       ret []).

Definition calculateProjectHealth (completionRate overdueRate : number)
  : health :=
  if JsNumber.ltb n80 completionRate && JsNumber.ltb overdueRate n10
  then excellent
  else if JsNumber.ltb n60 completionRate && JsNumber.ltb overdueRate n20
  then good
  else if JsNumber.ltb n40 completionRate && JsNumber.ltb overdueRate n30
  then fair
  else poor.

(** [Math.round(x * 100) / 100] *)
Definition two_decimals (x : number) : number :=
  JsMath.div (Math_round (JsMath.mul x n100)) n100.

(** [t => t.status === 'completed' && t.estimatedDuration] *)
Definition completed_with_duration (t : value) : outcome bool :=
  match member t (js "status") with
  | Thrown e => Thrown e
  | Returned status =>
      if strict_eq_str status (js "completed")
      then match member t (js "estimatedDuration") with
           | Thrown e => Thrown e
           | Returned d => Returned (truthy d)
           end
      else Returned false
  end.

(** [(sum, task) => sum + (task.estimatedDuration || 0)] over the tasks,
    from the left. *)
Fixpoint total_duration (total : value) (tasks : list value) : outcome value :=
  match tasks with
  | [] => Returned total
  | task :: rest =>
      match member task (js "estimatedDuration") with
      | Thrown e => Thrown e
      | Returned d =>
          match sum total (or d (Num n0)) with
          | Thrown e => Thrown e
          | Returned total' => total_duration total' rest
          end
      end
  end.

Definition calculateAverageTaskDuration (tasks : value) : outcome number :=
  match tasks with
  | Undefined | Null =>
      Thrown (TypeError "Cannot read properties of undefined (reading 'length')")
  | _ =>
      if negb (truthy (length_of tasks)) then Returned n0
      else
        match tasks with
        | Arr items =>
            match filter_with completed_with_duration items with
            | Thrown e => Thrown e
            | Returned [] => Returned n0
            | Returned completedTasks =>
                match total_duration (Num n0) completedTasks with
                | Thrown e => Thrown e
                | Returned totalDuration =>
                    Returned
                      (two_decimals
                         (JsMath.div (to_number totalDuration)
                            (JsNumber.of_nat (List.length completedTasks))))
                end
            end
        | _ => Thrown (TypeError "tasks.filter is not a function")
        end
  end.

(** [new Date(dueDate).getTime() - new Date().getTime()] in days, rounded
    up; [today] is the reading of the clock.  [new Date(dueDate)] throws
    when the due date does not convert. *)
Definition calculateDaysToDeadline (today : number) (dueDate : value)
  : outcome number :=
  and_then (converted dueDate)
    (Returned
       (Math_ceil (JsMath.div (JsMath.sub (getTime dueDate) today) n86400000))).

(** [t => t.status === 'completed'] *)
Definition is_completed (t : value) : outcome bool :=
  match member t (js "status") with
  | Thrown e => Thrown e
  | Returned status => Returned (strict_eq_str status (js "completed"))
  end.

(** [tasks.filter(t => t.dueDate && new Date(t.dueDate) < new Date()
    && t.status !== 'completed')].  [new Date(t.dueDate)] throws when the
    due date does not convert.  The clock is read once for each task
    with a due date; [today k] is its [k]-th reading. *)
Fixpoint overdue (today : nat -> number) (reads : nat) (tasks : list value)
  : outcome (list value) :=
  match tasks with
  | [] => Returned []
  | t :: rest =>
      match member t (js "dueDate") with
      | Thrown e => Thrown e
      | Returned dueDate =>
          if truthy dueDate
          then
            match converted dueDate with
            | Thrown e => Thrown e
            | Returned _ =>
                let late := JsNumber.ltb (getTime dueDate) (today reads) in
                match (if late then is_completed t else Returned true) with
                | Thrown e => Thrown e
                | Returned done =>
                    match overdue today (S reads) rest with
                    | Thrown e => Thrown e
                    | Returned kept =>
                        Returned (if late && negb done then t :: kept else kept)
                    end
                end
            end
          else overdue today reads rest
      end
  end.

(** [data.tasks?.filter(keep).length] *)
Definition filtered_length (keep : list value -> outcome (list value))
    (tasks : value) : outcome value :=
  match tasks with
  | Undefined | Null => Returned Undefined
  | Arr items =>
      match keep items with
      | Thrown e => Thrown e
      | Returned kept => Returned (Num (JsNumber.of_nat (List.length kept)))
      end
  | _ => Thrown (TypeError "data.tasks?.filter is not a function")
  end.

(** The body of [calculateMetrics] after the log line.  Where the counts
    are compared and divided they are numbers: the filters have thrown on
    [tasks] that are neither missing nor an array. *)
Definition measured (today : nat -> number) (data : value)
  : outcome Metrics :=
  match member data (js "tasks") with
  | Thrown e => Thrown e
  | Returned tasks =>
      let totalTasks := or (optional_length tasks) (Num n0) in
      match filtered_length (filter_with is_completed) tasks with
      | Thrown e => Thrown e
      | Returned completed =>
          let completedTasks := or completed (Num n0) in
          match filtered_length (overdue today 0) tasks with
          | Thrown e => Thrown e
          | Returned late =>
              let overdueTasks := or late (Num n0) in
              let completionRate :=
                if gt totalTasks (Num n0)
                then JsMath.mul
                       (JsMath.div (to_number completedTasks)
                          (to_number totalTasks)) n100
                else n0 in
              let overdueRate :=
                if gt totalTasks (Num n0)
                then JsMath.mul
                       (JsMath.div (to_number overdueTasks)
                          (to_number totalTasks)) n100
                else n0 in
              match calculateAverageTaskDuration (or tasks (Arr [])) with
              | Thrown e => Thrown e
              | Returned average =>
                  Returned
                    {| totalTasks := totalTasks;
                       completedTasks := completedTasks;
                       overdueTasks := overdueTasks;
                       completionRate := two_decimals completionRate;
                       overdueRate := two_decimals overdueRate;
                       averageTaskDuration := average;
                       projectHealth :=
                         calculateProjectHealth completionRate overdueRate |}
              end
          end
      end
  end.

Definition calculateMetrics (today : nat -> number)
    (state : ProjectAnalysisState) : M ProjectAnalysisState :=
  logger DEBUG (js "📊 Step 1: Calculating project metrics") ;;
  measured <- lift (measured today (projectData state)) ;;
  ret {| projectId := projectId state;
         projectData := projectData state;
         analysisType := analysisType state;
         insights := insights state;
         recommendations := recommendations state;
         risks := risks state;
         metrics := Some measured;
         confidence := n0_8 |}.

(** The risks [identifyRisks] reads off the metrics, before it asks the
    model; reading [projectData.dueDate] may throw, and so may
    [calculateDaysToDeadline]. *)
Definition metric_risks (today : number) (state : ProjectAnalysisState)
  : outcome (list value) :=
  let risks : list value := [] in
  let risks :=
    if gt (metric overdueRate (metrics state)) (Num n30)
    then risks ++ [Str risk_overdue] else risks in
  match (if lt (metric completionRate (metrics state)) (Num n50)
         then member (projectData state) (js "dueDate")
         else Returned (Bool false)) with
  | Thrown e => Thrown e
  | Returned dueDate =>
      match (if lt (metric completionRate (metrics state)) (Num n50)
                && truthy dueDate
             then
               match calculateDaysToDeadline today dueDate with
               | Thrown e => Thrown e
               | Returned daysToDeadline =>
                   Returned
                     (if JsNumber.ltb daysToDeadline n30
                      then risks ++ [Str risk_deadline] else risks)
               end
             else Returned risks) with
      | Thrown e => Thrown e
      | Returned risks =>
          let risks :=
            if gt (metric averageTaskDuration (metrics state)) (Num n5)
            then risks ++ [Str risk_duration] else risks in
          Returned risks
      end
  end.

(** [if (answer.k) items.push(...answer.k)] *)
Definition pushed (items : list value) (answer : object) (k : jsstring)
  : outcome (list value) :=
  if truthy (get answer k)
  then match spread (get answer k) with
       | Thrown e => Thrown e
       | Returned more => Returned (items ++ more)
       end
  else Returned items.

Definition identifyRisks (today : number) (state : ProjectAnalysisState)
  : M ProjectAnalysisState :=
  logger DEBUG (js "⚠️ Step 2: Identifying project risks") ;;
  risks <- lift (metric_risks today state) ;;
  risks <-
    try_catch
      (response <- ollama_generate ;;
       riskAnalysis <- parseJSON response ;;
       lift (pushed risks riskAnalysis (js "additionalRisks")))
      (fun error =>
         logger WARN (js "AI risk analysis failed: " ++ error_to_string error) ;;
         ret risks) ;;
  ret {| projectId := projectId state;
         projectData := projectData state;
         analysisType := analysisType state;
         insights := insights state;
         recommendations := recommendations state;
         risks := risks;
         metrics := metrics state;
         confidence := confidence state |}.

(** The prompt template of [generateInsights], built before the [try]:
    besides the metrics, which are numbers and a string, it converts
    every risk to a string, those the model added included. *)
Definition insights_prompt (state : ProjectAnalysisState) : outcome unit :=
  if forallb converts (risks state)
  then Returned tt else Thrown cannot_convert.

Definition generateInsights (state : ProjectAnalysisState)
  : M ProjectAnalysisState :=
  logger DEBUG (js "💡 Step 3: Generating insights") ;;
  lift (insights_prompt state) ;;
  try_catch
    (response <- ollama_generate ;;
     answer <- parseJSON response ;;
     total <- lift (sum (Num (confidence state))
                        (or (get answer (js "confidence")) (Num n0_3))) ;;
     ret {| projectId := projectId state;
            projectData := projectData state;
            analysisType := analysisType state;
            insights := or (get answer (js "keyInsights")) (Obj []);
            recommendations := recommendations state;
            risks := risks state;
            metrics := metrics state;
            confidence := Math_min total (Num n1) |})
    (fun error =>
       logger ERROR (js "Insight generation failed: "
                     ++ error_to_string error) ;;
       ret {| projectId := projectId state;
              projectData := projectData state;
              analysisType := analysisType state;
              insights := failed_insights;
              recommendations := recommendations state;
              risks := risks state;
              metrics := metrics state;
              confidence := confidence state |}).

(** The recommendations [createRecommendations] reads off the metrics,
    before it asks the model. *)
Definition metric_recommendations (state : ProjectAnalysisState)
  : list value :=
  let recommendations : list value := [] in
  let recommendations :=
    if gt (metric overdueRate (metrics state)) (Num n20)
    then recommendations ++ [Str advice_schedule] else recommendations in
  let recommendations :=
    if lt (metric completionRate (metrics state)) (Num n70)
    then recommendations ++ [Str advice_progress] else recommendations in
  let recommendations :=
    if gt (metric averageTaskDuration (metrics state)) (Num n3)
    then recommendations ++ [Str advice_duration] else recommendations in
  recommendations.

Definition createRecommendations (state : ProjectAnalysisState)
  : M ProjectAnalysisState :=
  logger DEBUG (js "🎯 Step 4: Creating recommendations") ;;
  let recommendations := metric_recommendations state in
  recommendations <-
    try_catch
      (response <- ollama_generate ;;
       aiRecommendations <- parseJSON response ;;
       lift (pushed recommendations aiRecommendations
               (js "actionableRecommendations")))
      (fun error =>
         logger WARN (js "AI recommendation generation failed: "
                      ++ error_to_string error) ;;
         ret recommendations) ;;
  ret {| projectId := projectId state;
         projectData := projectData state;
         analysisType := analysisType state;
         insights := insights state;
         recommendations := recommendations;
         risks := risks state;
         metrics := metrics state;
         confidence := confidence state |}.

Definition generateSummary (state : ProjectAnalysisState) : jsstring :=
  let healthStatus :=
    match metrics state with
    | Some m =>
        match projectHealth m with
        | excellent => js "매우 양호"
        | good => js "양호"
        | fair => js "보통"
        | poor => js "개선 필요"
        end
    | None => js "알 수 없음"
    end in
  js "프로젝트 상태: " ++ healthStatus
    ++ js " | 완료율: " ++ to_string (metric completionRate (metrics state))
    ++ js "% | 지연율: " ++ to_string (metric overdueRate (metrics state))
    ++ js "% | 총 작업: "
    ++ to_string (match metrics state with
                  | Some m => totalTasks m
                  | None => Undefined
                  end)
    ++ js "개".

Definition initialState (projectId : jsstring) (projectData : value)
    (analysisType : jsstring) : ProjectAnalysisState :=
  {| projectId := projectId;
     projectData := projectData;
     analysisType := analysisType;
     insights := Obj [];
     recommendations := [];
     risks := [];
     metrics := None;
     confidence := n0 |}.

(** The result of the [catch] of [analyzeProject]. *)
Definition failed : ProjectAnalysisResult :=
  {| summary := js "프로젝트 분석 중 오류가 발생했습니다.";
     result_insights := Obj [];
     result_recommendations := [Str (js "나중에 다시 시도해주세요.")];
     result_risks := [];
     result_metrics := None;
     result_confidence := n0_1 |}.

Definition result_of (state : ProjectAnalysisState) : ProjectAnalysisResult :=
  {| summary := generateSummary state;
     result_insights := insights state;
     result_recommendations := recommendations state;
     result_risks := risks state;
     result_metrics := metrics state;
     result_confidence := confidence state |}.

(** The readings of the clock during one analysis: those of
    [calculateMetrics], in order, and the one of
    [calculateDaysToDeadline]. *)
Record clock : Type := mkClock {
  at_metrics : nat -> number;
  at_deadline : number
}.

(** The four steps inside the [try] of [analyzeProject]. *)
Definition stages (now : clock) (state : ProjectAnalysisState)
  : M ProjectAnalysisState :=
  state <- calculateMetrics (at_metrics now) state ;;
  state <- identifyRisks (at_deadline now) state ;;
  state <- generateInsights state ;;
  createRecommendations state.

Definition analyzeProject (now : clock) (projectId : jsstring)
    (projectData : value) (analysisType : jsstring)
  : M ProjectAnalysisResult :=
  logger DEBUG (js "🔍 Starting project analysis for: " ++ projectId) ;;
  try_catch
    (state <- stages now (initialState projectId projectData analysisType) ;;
     ret (result_of state))
    (fun error =>
       logger ERROR (js "Project analysis failed: " ++ error_to_string error) ;;
       ret failed).

End Workflow.

End ProjectAnalysisWorkflow.

(* ================================================================== *)
(** * Views of a match and of the advanced workflow's state            *)
(* ================================================================== *)

Module MatchViews.

(** A pattern that, where it matches, takes between [lo] and [hi]
    characters off the head of the text and returns the rest. *)
Definition consumes (m : matcher) (lo hi : nat) : Prop :=
  forall s rest,
    m s = Some rest ->
    exists d, s = d ++ rest /\ (lo <= List.length d <= hi)%nat.

End MatchViews.

Module ProjectViews.

(** The metrics of project data without tasks. *)
Definition no_tasks : ProjectAnalysisWorkflow.Metrics :=
  {| ProjectAnalysisWorkflow.totalTasks := Num n0;
     ProjectAnalysisWorkflow.completedTasks := Num n0;
     ProjectAnalysisWorkflow.overdueTasks := Num n0;
     ProjectAnalysisWorkflow.completionRate := n0;
     ProjectAnalysisWorkflow.overdueRate := n0;
     ProjectAnalysisWorkflow.averageTaskDuration := n0;
     ProjectAnalysisWorkflow.projectHealth := ProjectAnalysisWorkflow.poor |}.

End ProjectViews.

Module StateViews.

Import AdvancedTaskCreationWorkflow.

(** The state with another [userId] and everything else as it is. *)
Definition with_userId (u : jsstring) (s : TaskCreationState)
  : TaskCreationState :=
  {| input := input s;
     userId := u;
     extractedInfo := extractedInfo s;
     priorityAnalysis := priorityAnalysis s;
     needsHumanReview := needsHumanReview s;
     conflicts := conflicts s;
     suggestions := suggestions s;
     finalTask := finalTask s;
     confidence := confidence s;
     currentStep := currentStep s |}.

(** What a stage gives on the state with another [userId], from what it
    gives on the state itself. *)
Definition relabelled (u : jsstring)
    (r : outcome TaskCreationState * world) : outcome TaskCreationState * world :=
  match r with
  | (Returned s, w) => (Returned (with_userId u s), w)
  | (Thrown e, w) => (Thrown e, w)
  end.

End StateViews.

(* ================================================================== *)
(** * More concrete runs                                               *)
(* ================================================================== *)

Module Cases.

(** [{"estimatedDuration": 300}] *)
Definition text_long_task : jsstring :=
  js "{" ++ Scenario.quoted "estimatedDuration" ++ js ": 300}".

(** [{"title": "보고서"}] *)
Definition text_report : jsstring :=
  js "{" ++ Scenario.quoted "title" ++ js ": " ++ Scenario.quoted "보고서"
    ++ js "}".

(** [{"priority": "URGENT", "confidence": 0.2}] *)
Definition text_upper_case_urgent : jsstring :=
  js "{" ++ Scenario.quoted "priority" ++ js ": " ++ Scenario.quoted "URGENT"
    ++ js ", " ++ Scenario.quoted "confidence" ++ js ": 0.2}".

(** [{"title": {"toString": 1}}] *)
Definition text_title_object : jsstring :=
  js "{" ++ Scenario.quoted "title" ++ js ": {" ++ Scenario.quoted "toString"
    ++ js ": 1}}".

(** [{"title": {"length": {"toString": 1}}}] *)
Definition text_title_length : jsstring :=
  js "{" ++ Scenario.quoted "title" ++ js ": {" ++ Scenario.quoted "length"
    ++ js ": {" ++ Scenario.quoted "toString" ++ js ": 1}}}".

(** [{"additionalRisks": [{"toString": 1}]}] *)
Definition text_risk_object : jsstring :=
  js "{" ++ Scenario.quoted "additionalRisks" ++ js ": [{"
    ++ Scenario.quoted "toString" ++ js ": 1}]}".

(** What [JSON.parse] returns on the texts above and on those of
    [Scenario.parsed]. *)
Definition parsed : list (jsstring * object) :=
  (text_long_task, [(js "estimatedDuration", Num Scenario.n300)])
    :: (text_report, [(js "title", Str (js "보고서"))])
    :: (text_upper_case_urgent,
         [(js "priority", Str (js "URGENT")); (js "confidence", Num n0_2)])
    :: (text_title_object, [(js "title", Obj [(js "toString", Num n1)])])
    :: (text_title_length,
         [(js "title", Obj [(js "length", Obj [(js "toString", Num n1)])])])
    :: (text_risk_object,
         [(js "additionalRisks", Arr [Obj [(js "toString", Num n1)]])])
    :: Scenario.parsed.

(** [Scenario.runtime] with the larger table. *)
Definition runtime : Runtime :=
  {| JSON_parse t :=
       match Scenario.lookup t parsed with
       | Some o => Returned o
       | None => Thrown (mkError (js "SyntaxError") (js "Unexpected token"))
       end;
     number_to_string := number_to_string (Runtime := Scenario.runtime);
     string_to_number := string_to_number (Runtime := Scenario.runtime);
     toLowerCase := toLowerCase (Runtime := Scenario.runtime) |}.

(** 2024-03-01T00:00:00.000Z in milliseconds. *)
Definition n1709251200000 : number :=
  Eval vm_compute in Prim2SF 1709251200000.

(** Dates for the runs below: one valid date text, anything else is an
    invalid date. *)
Definition dates : Dates :=
  {| toISOString v :=
       match v with
       | Str s =>
           if JsString.eqb s (js "2024-03-01")
           then Returned (js "2024-03-01T00:00:00.000Z")
           else Thrown (mkError (js "RangeError") (js "Invalid time value"))
       | _ => Thrown (mkError (js "RangeError") (js "Invalid time value"))
       end;
     getTime v :=
       match v with
       | Str s =>
           if JsString.eqb s (js "2024-03-01") then n1709251200000 else NaN
       | _ => NaN
       end |}.

(** 2024-04-01T00:00:00.000Z in milliseconds. *)
Definition n1711929600000 : number :=
  Eval vm_compute in Prim2SF 1711929600000.

(** A clock that stands at 2024-04-01. *)
Definition april : ProjectAnalysisWorkflow.clock :=
  {| ProjectAnalysisWorkflow.at_metrics := fun _ => n1711929600000;
     ProjectAnalysisWorkflow.at_deadline := n1711929600000 |}.

(** A project with one open task that was due on 2024-03-01. *)
Definition late_project : value :=
  Obj [ (js "tasks",
          Arr [ Obj [ (js "dueDate", Str (js "2024-03-01"));
                      (js "status", Str (js "open")) ] ]) ].

(** An input that names two dates and two tags. *)
Definition planning : jsstring :=
  js "내일 회의 #긴급 #report_1 2024-03-01".

End Cases.

(* ================================================================== *)
(** * Facts about strings                                              *)
(* ================================================================== *)

Module StringFacts.

Lemma eqb_eq (s t : jsstring) : JsString.eqb s t = true <-> s = t.
Proof.
  revert t; induction s as [|c s IH]; intros [|d t]; simpl;
    try (split; (reflexivity || discriminate)).
  rewrite andb_true_iff, N.eqb_eq, IH.
  split; [intros [-> ->]; reflexivity | intros H; inversion H; auto].
Qed.

Lemma eqb_refl (s : jsstring) : JsString.eqb s s = true.
Proof. apply eqb_eq; reflexivity. Qed.

End StringFacts.

(* ================================================================== *)
(** * Facts about binary64 comparison, addition and [Math.min]         *)
(* ================================================================== *)

Module NumberFacts.

Lemma compare_antisym (x y : number) :
  SFcompare y x = option_map CompOpp (SFcompare x y).
Proof.
  destruct x as [sx|sx| |sx mx ex], y as [sy|sy| |sy my ey]; simpl;
    try reflexivity;
    try (destruct sx; reflexivity); try (destruct sy; reflexivity);
    try (destruct sx, sy; reflexivity).
  destruct sx, sy; simpl; try reflexivity;
    rewrite (Z.compare_antisym ey ex);
    destruct (ey ?= ex)%Z; simpl; try reflexivity;
    do 2 f_equal; symmetry; exact (Pos.compare_cont_antisym mx my Eq).
Qed.

Lemma leb_ltb_false (x y : number) : leb x y = true -> ltb y x = false.
Proof.
  unfold leb, ltb, SFleb, SFltb. rewrite (compare_antisym x y).
  destruct (SFcompare x y) as [[]|]; simpl; congruence.
Qed.

Lemma ltb_leb (x y : number) : ltb x y = true -> leb x y = true.
Proof.
  unfold leb, ltb, SFleb, SFltb.
  destruct (SFcompare x y) as [[]|]; simpl; congruence.
Qed.

Lemma nonneg_leb (x : number) : nonneg x = true -> leb n0 x = true.
Proof. destruct x as [s|[]| |[] m e]; simpl; intros H; try discriminate; reflexivity. Qed.

Lemma leb_nonneg (x : number) : leb n0 x = true -> nonneg x = true.
Proof. destruct x as [s|[]| |[] m e]; simpl; intros H; try discriminate; reflexivity. Qed.

Lemma min_one_not_above (x : number) : ltb n1 (JsNumber.min x n1) = false.
Proof.
  unfold JsNumber.min.
  destruct (SFcompare x n1) as [[]|] eqn:E.
  - destruct x as [[]| | |]; try reflexivity; discriminate E.
  - apply leb_ltb_false. unfold leb, SFleb. rewrite E. reflexivity.
  - reflexivity.
  - reflexivity.
Qed.

Lemma min_one_bounds (x : number) :
  nonneg x = true ->
  leb n0 (JsNumber.min x n1) = true /\ leb (JsNumber.min x n1) n1 = true.
Proof.
  intros H. unfold JsNumber.min.
  destruct (SFcompare x n1) as [[]|] eqn:E.
  - destruct x as [[]| | |]; try (split; reflexivity); discriminate E.
  - split; [apply nonneg_leb, H | unfold leb, SFleb; rewrite E; reflexivity].
  - split; reflexivity.
  - destruct x as [s|s| |s m e]; try discriminate H;
      unfold n1, SFcompare in E; try destruct s; discriminate E.
Qed.

(** Rounding never turns a non-negative mantissa into a negative one. *)
Lemma shr_1_nonneg (mrs : shr_record) :
  (0 <= shr_m mrs)%Z -> (0 <= shr_m (shr_1 mrs))%Z.
Proof.
  destruct mrs as [m r s]; simpl.
  destruct m as [|[p|p|]|[p|p|]]; simpl; lia.
Qed.

Lemma iter_shr_1_nonneg (p : positive) (mrs : shr_record) :
  (0 <= shr_m mrs)%Z -> (0 <= shr_m (iter_pos shr_1 p mrs))%Z.
Proof.
  revert mrs; induction p as [p IH|p IH|]; intros mrs H; simpl.
  - apply IH, IH, shr_1_nonneg, H.
  - apply IH, IH, H.
  - apply shr_1_nonneg, H.
Qed.

Lemma shr_fexp_nonneg (m e : Z) (l : location) :
  (0 <= m)%Z -> (0 <= shr_m (fst (shr_fexp prec emax m e l)))%Z.
Proof.
  intros H. unfold shr_fexp, shr.
  assert (H0 : (0 <= shr_m (shr_record_of_loc m l))%Z)
    by (destruct l as [|[]]; exact H).
  destruct (fexp prec emax (Zdigits2 m + e) - e)%Z; simpl; auto.
  apply iter_shr_1_nonneg, H0.
Qed.

Lemma round_nearest_even_nonneg (m : Z) (l : location) :
  (0 <= m)%Z -> (0 <= round_nearest_even m l)%Z.
Proof.
  intros H. destruct l as [|[]]; simpl; try lia.
  destruct (Z.even m); lia.
Qed.

Lemma binary_round_aux_nonneg (m e : Z) (l : location) :
  (0 <= m)%Z -> nonneg (binary_round_aux prec emax false m e l) = true.
Proof.
  intros H. unfold binary_round_aux.
  pose proof (shr_fexp_nonneg m e l H) as H1.
  destruct (shr_fexp prec emax m e l) as [mrs' e'] eqn:E1. simpl in H1.
  pose proof (shr_fexp_nonneg _ e' loc_Exact
                (round_nearest_even_nonneg _ (loc_of_shr_record mrs') H1)) as H2.
  destruct (shr_fexp prec emax (round_nearest_even (shr_m mrs') (loc_of_shr_record mrs')) e' loc_Exact)
    as [mrs'' e''] eqn:E2. simpl in H2.
  destruct (shr_m mrs'') as [|p|p]; try reflexivity.
  - destruct (e'' <=? emax - prec)%Z; reflexivity.
  - lia.
Qed.

Lemma add_nonneg (x y : number) :
  nonneg x = true -> nonneg y = true -> nonneg (JsNumber.add x y) = true.
Proof.
  destruct x as [sx|sx| |sx mx ex], y as [sy|sy| |sy my ey]; simpl;
    intros Hx Hy; try discriminate; try reflexivity; try assumption.
  - destruct sx, sy; reflexivity.
  - destruct sx, sy; try discriminate; reflexivity.
  - destruct sx, sy; try discriminate.
    unfold JsNumber.add, SFadd, cond_Zopp, binary_normalize.
    cbn [Z.add]. unfold binary_round.
    destruct (shl_align (_ + _) _ _) as [mz ez].
    apply binary_round_aux_nonneg. lia.
Qed.

End NumberFacts.

Import NumberFacts.

(* ================================================================== *)
(** * Facts about the effects                                          *)
(* ================================================================== *)

Module EffectFacts.

Lemma oblivious_ret {A} (a : A) : oblivious (ret a).
Proof. intros c k. exists (Returned a), k, []. intros l. now rewrite app_nil_r. Qed.

Lemma oblivious_throw {A} (e : error) : oblivious (@throw A e).
Proof. intros c k. exists (Thrown e), k, []. intros l. now rewrite app_nil_r. Qed.

Lemma oblivious_lift {A} (o : outcome A) : oblivious (lift o).
Proof. intros c k. exists o, k, []. intros l. now rewrite app_nil_r. Qed.

Lemma oblivious_logger (lv : level) (msg : jsstring) : oblivious (logger lv msg).
Proof. intros c k. exists (Returned tt), k, [mkLog lv msg]. reflexivity. Qed.

Lemma oblivious_generate : oblivious ollama_generate.
Proof.
  intros c k. unfold ollama_generate. simpl.
  destruct (c k) as [e|text].
  - exists (Thrown e), (S k), []. intros l. now rewrite app_nil_r.
  - exists (Returned text), (S k), []. intros l. now rewrite app_nil_r.
Qed.

Lemma oblivious_bind {A B} (m : M A) (f : A -> M B) :
  oblivious m -> (forall a, oblivious (f a)) -> oblivious (bind m f).
Proof.
  intros Hm Hf c k. destruct (Hm c k) as (o & k1 & l1 & E1).
  destruct o as [a|e].
  - destruct (Hf a c k1) as (o2 & k2 & l2 & E2).
    exists o2, k2, (l1 ++ l2). intros l. unfold bind.
    rewrite E1, E2, app_assoc. reflexivity.
  - exists (Thrown e), k1, l1. intros l. unfold bind. rewrite E1. reflexivity.
Qed.

Lemma oblivious_try_catch {A} (m : M A) (h : error -> M A) :
  oblivious m -> (forall e, oblivious (h e)) -> oblivious (try_catch m h).
Proof.
  intros Hm Hh c k. destruct (Hm c k) as (o & k1 & l1 & E1).
  destruct o as [a|e].
  - exists (Returned a), k1, l1. intros l. unfold try_catch. rewrite E1. reflexivity.
  - destruct (Hh e c k1) as (o2 & k2 & l2 & E2).
    exists o2, k2, (l1 ++ l2). intros l. unfold try_catch.
    rewrite E1, E2, app_assoc. reflexivity.
Qed.

Lemma returns_ret {A} (a : A) : returns (ret a).
Proof. intros c w. exists a, w. reflexivity. Qed.

Lemma returns_logger (lv : level) (msg : jsstring) : returns (logger lv msg).
Proof. intros c w. eexists _, _. reflexivity. Qed.

Lemma returns_bind {A B} (m : M A) (f : A -> M B) :
  returns m -> (forall a, returns (f a)) -> returns (bind m f).
Proof.
  intros Hm Hf c w. destruct (Hm c w) as (a & w1 & E1).
  destruct (Hf a c w1) as (b & w2 & E2).
  exists b, w2. unfold bind. rewrite E1. exact E2.
Qed.

Lemma returns_try_catch {A} (m : M A) (h : error -> M A) :
  (forall e, returns (h e)) -> returns (try_catch m h).
Proof.
  intros Hh c w. unfold try_catch.
  destruct (m c w) as [[a|e] w1].
  - exists a, w1. reflexivity.
  - apply Hh.
Qed.

(** Walks down a method built from the operations above. *)
Ltac oblivious_step :=
  lazymatch goal with
  | |- oblivious (bind _ _) => apply oblivious_bind; [ | intros ? ]
  | |- oblivious (try_catch _ _) => apply oblivious_try_catch; [ | intros ? ]
  | |- oblivious (ret _) => apply oblivious_ret
  | |- oblivious (throw _) => apply oblivious_throw
  | |- oblivious (lift _) => apply oblivious_lift
  | |- oblivious (logger _ _) => apply oblivious_logger
  | |- oblivious ollama_generate => apply oblivious_generate
  | |- oblivious (match ?x with _ => _ end) => destruct x
  end.

(** Finds a message among those appended one at a time. *)
Ltac in_appended :=
  repeat lazymatch goal with
         | |- In ?m (?m :: _) => left; reflexivity
         | |- In _ (_ :: _) => right
         | |- In ?m (_ ++ [?m]) => apply in_or_app; right; left; reflexivity
         | |- In _ (_ ++ _) => apply in_or_app; left
         end.

Ltac returns_step :=
  lazymatch goal with
  | |- returns (bind _ _) => apply returns_bind; [ | intros ? ]
  | |- returns (try_catch _ _) => apply returns_try_catch; intros ?
  | |- returns (ret _) => apply returns_ret
  | |- returns (logger _ _) => apply returns_logger
  end.

(** The operators and conversions of a method, as tests of [converts]. *)
Ltac conversions :=
  unfold sum, less, greater, at_least, operator, optional_date, and_then,
    converted;
  cbn [converts].

(** Splits on whether [v] converts, in a goal about a method that
    returned: where [v] does not convert the method threw. *)
Ltac converting v :=
  destruct (converts v) eqn:?; cbv beta iota zeta;
  [ | let H := fresh in intros H; discriminate H ].

End EffectFacts.

Import EffectFacts.

Module TaskCreationFacts.
Import TaskCreationWorkflow.

Section Facts.
Context {RT : Runtime}.

Lemma parseJSON_oblivious (text : jsstring) : oblivious (parseJSON text).
Proof. unfold parseJSON. repeat oblivious_step. Qed.

Lemma parseJSON_returns (text : jsstring) : returns (parseJSON text).
Proof. unfold parseJSON. repeat returns_step. Qed.

Lemma extractDetailedInformation_oblivious (input : jsstring) :
  oblivious (extractDetailedInformation input).
Proof.
  unfold extractDetailedInformation.
  repeat first [oblivious_step | apply parseJSON_oblivious].
Qed.

Lemma extractDetailedInformation_returns (input : jsstring) :
  returns (extractDetailedInformation input).
Proof. unfold extractDetailedInformation. repeat returns_step. Qed.

Lemma analyzeTaskComplexity_oblivious (e : object) (input : jsstring) :
  oblivious (analyzeTaskComplexity e input).
Proof.
  unfold analyzeTaskComplexity.
  repeat first [oblivious_step | apply parseJSON_oblivious].
Qed.

Lemma validateAndSuggest_oblivious (e a : object) :
  oblivious (validateAndSuggest e a).
Proof. unfold validateAndSuggest. repeat oblivious_step. Qed.

Lemma steps_oblivious (input : jsstring) : oblivious (steps input).
Proof.
  unfold steps.
  repeat oblivious_step;
    [ apply extractDetailedInformation_oblivious
    | apply analyzeTaskComplexity_oblivious
    | apply validateAndSuggest_oblivious ].
Qed.

(** [parseJSON] never throws: it returns the parsed object, or the
    empty object when the text holds no JSON or does not parse. *)
Lemma parseJSON_cases (text : jsstring) (c : client) (w : world) :
  exists o w',
    parseJSON text c w = (Returned o, w') /\ calls w' = calls w /\
    (o = [] \/
     exists m, match_braces text = Some m /\ JSON_parse m = Returned o).
Proof.
  unfold parseJSON, try_catch, bind, lift, throw, logger, ret.
  destruct (match_braces text) as [m|] eqn:Em.
  - destruct (JSON_parse m) as [o|err] eqn:Ep.
    + exists o, w. repeat split; eauto.
    + eexists [], _. repeat split; eauto.
  - eexists [], _. repeat split; eauto.
Qed.

(** The extraction confidence, when it is computed, is one of the sums
    the four signals give. *)
Lemma calculateExtractionConfidence_sums (o : object) (input : jsstring)
    (x : number) :
  calculateExtractionConfidence o input = Returned x ->
  exists clear detailed due tagged : bool,
    x = JsNumber.min
          (let confidence := n0_5 in
           let confidence :=
             if clear then JsNumber.add confidence n0_2 else confidence in
           let confidence :=
             if detailed then JsNumber.add confidence n0_1 else confidence in
           let confidence :=
             if due then JsNumber.add confidence n0_1 else confidence in
           if tagged then JsNumber.add confidence n0_1 else confidence)
          n1.
Proof.
  unfold calculateExtractionConfidence.
  destruct (longer_than (get o (js "title")) n5) as [clear|err];
    [|discriminate].
  destruct (longer_than (get o (js "description")) n10) as [detailed|err];
    [|discriminate].
  destruct (longer_than (get o (js "tags")) n0) as [tagged|err];
    [|discriminate].
  intros H. injection H as <-.
  exists clear, detailed, (truthy (get o (js "dueDate"))), tagged.
  reflexivity.
Qed.

Lemma calculateExtractionConfidence_nonneg (o : object) (input : jsstring)
    (x : number) :
  calculateExtractionConfidence o input = Returned x ->
  nonneg x = true /\ JsNumber.falsy x = false.
Proof.
  intros H.
  destruct (calculateExtractionConfidence_sums _ _ _ H)
    as (clear & detailed & due & tagged & ->).
  destruct clear, detailed, due, tagged; split; vm_compute; reflexivity.
Qed.

(** The extraction step never throws, and the confidence it attaches
    is a non-negative number. *)
Lemma extractDetailedInformation_cases (input : jsstring) (c : client)
    (w : world) :
  exists e w' x,
    extractDetailedInformation input c w = (Returned e, w') /\
    get e (js "confidence") = Num x /\ nonneg x = true /\
    JsNumber.falsy x = false.
Proof.
  unfold extractDetailedInformation, try_catch, bind, logger, ret,
    ollama_generate.
  cbn [calls logged log_to].
  destruct (c (calls w)) as [err|text].
  - eexists _, _, n0_3. repeat split.
  - match goal with |- context [parseJSON text c ?w0] =>
      destruct (parseJSON_cases text c w0) as (o & w1 & Ep & _ & _)
    end.
    rewrite Ep. unfold lift.
    destruct (calculateExtractionConfidence o input) as [x|err] eqn:Ex.
    + destruct (calculateExtractionConfidence_nonneg _ _ _ Ex) as (Hn & Hf).
      eexists _, _, x. repeat split; assumption.
    + eexists _, _, n0_3. repeat split.
Qed.

(** The analysis step hands on what the model reported, the empty
    object when nothing could be decoded, or the keyword analysis. *)
Lemma analyzeTaskComplexity_cases (e : object) (input : jsstring)
    (c : client) (w : world) (a : object) (w' : world) :
  analyzeTaskComplexity e input c w = (Returned a, w') ->
  a = [] \/ reported c a \/ fallbackPriorityAnalysis e = Returned a.
Proof.
  unfold analyzeTaskComplexity, try_catch, bind, logger, ret, lift,
    ollama_generate.
  cbn [calls logged log_to].
  destruct (complexity_prompt e);
    cbv beta iota; [|intros H; discriminate H].
  destruct (c (calls w)) as [err|text] eqn:Ec; cbv beta iota.
  - destruct (fallbackPriorityAnalysis e) as [a'|err'];
      intros H; inversion H; auto.
  - match goal with |- context [parseJSON text c ?w0] =>
      destruct (parseJSON_cases text c w0) as (o & w1 & Ep & _ & Ho)
    end.
    rewrite Ep. intros H; inversion H; subst.
    destruct Ho as [->|(m & Hm & Hp)]; [auto|].
    right; left. exists (calls w), text, m. auto.
Qed.

(** The keyword analysis reports a confidence of 0.5. *)
Lemma keyword_analysis_confidence (text : jsstring) :
  get (keyword_analysis text) (js "confidence") = Num n0_5.
Proof. reflexivity. Qed.

(** The priority of the keyword analysis is a string. *)
Lemma keyword_analysis_priority (text : jsstring) :
  exists p, get (keyword_analysis text) (js "priority") = Str p.
Proof. eexists. reflexivity. Qed.

(** What [fallbackPriorityAnalysis] returns, when it returns. *)
Lemma fallbackPriorityAnalysis_returned (e a : object) :
  fallbackPriorityAnalysis e = Returned a ->
  exists text, a = keyword_analysis text.
Proof.
  unfold fallbackPriorityAnalysis.
  destruct (sum (get e (js "title")) (Str (js " "))) as [head|err];
    [|discriminate].
  destruct (sum head (or (get e (js "description")) (Str []))) as [text|err];
    [|discriminate].
  intros H. injection H as <-. eauto.
Qed.

(** What [validateAndSuggest] returns, when it returns. *)
Lemma validateAndSuggest_returned (e a : object) (c : client) (w : world)
    (r : TaskCreationResult) (w' : world) :
  validateAndSuggest e a c w = (Returned r, w') ->
  confidence r = overallConfidence e a /\
  needsConfirmation r =
    (JsNumber.ltb (overallConfidence e a) n0_6
     || strict_eq_str (get a (js "priority")) (js "urgent")
        && JsNumber.ltb (overallConfidence e a) n0_8
     || gt (get e (js "estimatedDuration")) (Num n240)) /\
  conflicts r =
    Some (if gt (get e (js "estimatedDuration")) (Num n240)
          then [resource_conflict] else []) /\
  title (result_task r) = get e (js "title") /\
  (JsNumber.ltb (overallConfidence e a) n0_6 = true ->
   In msg_be_specific (suggestions r)) /\
  (strict_eq_str (get a (js "priority")) (js "urgent")
   && JsNumber.ltb (overallConfidence e a) n0_8 = true ->
   In msg_urgent_recheck (suggestions r)).
Proof.
  unfold validateAndSuggest, bind, logger, lift, ret. conversions.
  converting (or (get e (js "confidence")) (Num n0_5)).
  converting (or (get a (js "confidence")) (Num n0_5)).
  destruct (JsNumber.ltb (overallConfidence e a) n0_6);
    destruct (strict_eq_str (get a (js "priority")) (js "urgent"));
    destruct (JsNumber.ltb (overallConfidence e a) n0_8);
    destruct (strict_eq_str (get a (js "priority")) (js "high"));
    destruct (truthy (get e (js "dueDate")));
    cbv beta iota zeta;
    converting (get e (js "complexity"));
    destruct (ge (get e (js "complexity")) (Num n4));
    converting (get e (js "estimatedDuration"));
    destruct (gt (get e (js "estimatedDuration")) (Num n240));
    try converting (get e (js "dueDate"));
    (destruct (mapPriority (get a (js "priority"))) as [p|err];
     cbv beta iota; intros H; [|discriminate H]);
    injection H as <- <-;
    cbn [confidence needsConfirmation conflicts suggestions result_task
         title orb andb];
    repeat split; intros; try discriminate; try reflexivity; in_appended.
Qed.

(** The task of a result of [validateAndSuggest]: its priority is the
    mapped one, and its due date, if any, converts. *)
Lemma validateAndSuggest_task (e a : object) (c : client) (w : world)
    (r : TaskCreationResult) (w' : world) :
  validateAndSuggest e a c w = (Returned r, w') ->
  mapPriority (get a (js "priority")) = Returned (priority (result_task r)) /\
  get (aiMetadata (result_task r)) (js "suggestedPriority")
    = get a (js "priority") /\
  dueDate (result_task r)
    = (if truthy (get e (js "dueDate"))
       then Some (get e (js "dueDate")) else None) /\
  w' = log_to w DEBUG (js "Step 3: Validating and generating suggestions").
Proof.
  unfold validateAndSuggest, bind, logger, lift, ret. conversions.
  converting (or (get e (js "confidence")) (Num n0_5)).
  converting (or (get a (js "confidence")) (Num n0_5)).
  repeat match goal with
         | |- context [let '(_, _) := ?x in _] => destruct x
         end.
  converting (get e (js "complexity")).
  converting (get e (js "estimatedDuration")).
  repeat match goal with
         | |- context [let '(_, _) := ?x in _] => destruct x
         end.
  destruct (truthy (get e (js "dueDate")));
    try converting (get e (js "dueDate"));
    (destruct (mapPriority (get a (js "priority"))) as [p|err];
     cbv beta iota; intros H; [|discriminate H]);
    injection H as <- <-; repeat split.
Qed.

(** [validateAndSuggest] throws exactly when a conversion or
    [mapPriority] does. *)
Lemma validateAndSuggest_returns_iff (e a : object) (c : client) (w : world) :
  (exists r w', validateAndSuggest e a c w = (Returned r, w')) <->
  (converts (or (get e (js "confidence")) (Num n0_5)) = true /\
   converts (or (get a (js "confidence")) (Num n0_5)) = true /\
   converts (get e (js "complexity")) = true /\
   converts (get e (js "estimatedDuration")) = true /\
   (truthy (get e (js "dueDate")) = true ->
    converts (get e (js "dueDate")) = true) /\
   exists p, mapPriority (get a (js "priority")) = Returned p).
Proof.
  unfold validateAndSuggest, bind, logger, lift, ret. conversions.
  destruct (converts (or (get e (js "confidence")) (Num n0_5)));
    cbv beta iota;
    [|split; [intros (r & w' & H); discriminate H
             |intros (H & _); discriminate H]].
  destruct (converts (or (get a (js "confidence")) (Num n0_5)));
    cbv beta iota;
    [|split; [intros (r & w' & H); discriminate H
             |intros (_ & H & _); discriminate H]].
  repeat match goal with
         | |- context [let '(_, _) := ?x in _] => destruct x
         end.
  destruct (converts (get e (js "complexity")));
    cbv beta iota;
    [|split; [intros (r & w' & H); discriminate H
             |intros (_ & _ & H & _); discriminate H]].
  destruct (converts (get e (js "estimatedDuration")));
    cbv beta iota;
    [|split; [intros (r & w' & H); discriminate H
             |intros (_ & _ & _ & H & _); discriminate H]].
  repeat match goal with
         | |- context [let '(_, _) := ?x in _] => destruct x
         end.
  destruct (truthy (get e (js "dueDate"))) eqn:Et; cbv beta iota;
    [destruct (converts (get e (js "dueDate"))) eqn:Ed; cbv beta iota;
     [|split; [intros (r & w' & H); discriminate H
              |intros (_ & _ & _ & _ & H & _); discriminate (H eq_refl)]]|];
    (destruct (mapPriority (get a (js "priority"))) as [p|err];
     cbv beta iota; split;
     [ intros _; repeat split; eauto; intros H; discriminate H
     | eauto
     | intros (r & w' & H); discriminate H
     | intros (_ & _ & _ & _ & _ & p & H); discriminate H ]).
Qed.

(** [execute] unfolded: the entry line, then the three steps, then the
    [catch] if they threw. *)
Lemma execute_unfold (input userId : jsstring) (c : client) (w : world) :
  execute input userId c w =
  match steps input c (log_to w DEBUG (start_message input userId)) with
  | (Returned r, w') => (Returned r, w')
  | (Thrown err, w') =>
      (Returned (degraded input),
       log_to w' ERROR (js "Task creation workflow failed: "
                        ++ JsValue.message err))
  end.
Proof. reflexivity. Qed.

(** A result of [execute] is the degraded one or comes out of
    [validateAndSuggest]. *)
Lemma execute_cases (input userId : jsstring) (c : client) (w : world)
    (r : TaskCreationResult) (w' : world) :
  execute input userId c w = (Returned r, w') ->
  r = degraded input \/
  exists e a x w1,
    get e (js "confidence") = Num x /\ nonneg x = true /\
    JsNumber.falsy x = false /\
    (a = [] \/ reported c a \/ fallbackPriorityAnalysis e = Returned a) /\
    validateAndSuggest e a c w1 = (Returned r, w').
Proof.
  rewrite execute_unfold. unfold steps, bind.
  match goal with |- context [extractDetailedInformation input c ?w0] =>
    destruct (extractDetailedInformation_cases input c w0)
      as (e & w1 & x & Ee & Hx & Hn & Hf)
  end.
  rewrite Ee.
  destruct (analyzeTaskComplexity e input c w1) as [[a|err] w2] eqn:Ea.
  - destruct (validateAndSuggest e a c w2) as [[r'|err] w3] eqn:Ev.
    + intros H; inversion H; subst. right.
      exists e, a, x, w2. repeat split; auto.
      eapply analyzeTaskComplexity_cases; eauto.
    + intros H; inversion H; auto.
  - intros H; inversion H; auto.
Qed.

Lemma execute_returns (input userId : jsstring) : returns (execute input userId).
Proof. unfold execute. repeat returns_step. Qed.

End Facts.
End TaskCreationFacts.

Module AdvancedFacts.
Import AdvancedTaskCreationWorkflow.

Section Facts.
Context {RT : Runtime}.

Lemma advanced_parseJSON_cases (text : jsstring) (c : client) (w : world) :
  exists o w',
    parseJSON text c w = (Returned o, w') /\ calls w' = calls w /\
    (o = [] \/
     exists m, match_braces text = Some m /\ JSON_parse m = Returned o).
Proof.
  unfold parseJSON, try_catch, bind, lift, throw, logger, ret.
  destruct (match_braces text) as [m|] eqn:Em.
  - destruct (JSON_parse m) as [o|err] eqn:Ep.
    + exists o, w. repeat split; eauto.
    + eexists [], _. repeat split; eauto.
  - eexists [], _. repeat split; eauto.
Qed.

Lemma advanced_parseJSON_oblivious (text : jsstring) : oblivious (parseJSON text).
Proof. unfold parseJSON. repeat oblivious_step. Qed.

(** The extraction stage never throws.  The confidence it leaves in
    the state is the one the model reported, [0.5] when there is none,
    or [0.2] when the call failed. *)
Lemma extractInformation_cases (st : TaskCreationState) (c : client)
    (w : world) :
  exists s1 w1,
    extractInformation st c w = (Returned s1, w1) /\
    input s1 = input st /\
    ((exists info,
        extractedInfo s1 = Some info /\ (info = [] \/ reported c info) /\
        confidence s1 = or (get info (js "confidence")) (Num n0_5))
     \/ confidence s1 = Num n0_2).
Proof.
  unfold extractInformation, try_catch, bind, logger, ret, ollama_generate.
  cbn [calls logged log_to].
  destruct (c (calls w)) as [err|text] eqn:Ec; cbv beta iota.
  - eexists _, _. split; [reflexivity|]. split; [reflexivity|]. right. reflexivity.
  - match goal with |- context [parseJSON text c ?w0] =>
      destruct (advanced_parseJSON_cases text c w0) as (o & w1 & Ep & _ & Ho)
    end.
    rewrite Ep.
    eexists _, _. split; [reflexivity|]. split; [reflexivity|]. left.
    exists o. cbn [extractedInfo confidence]. repeat split.
    destruct Ho as [->|(m & Hm & Hp)]; [auto|].
    right. exists (calls w), text, m. auto.
Qed.

Lemma analyzePriority_cases (st : TaskCreationState) (c : client)
    (w : world) (s2 : TaskCreationState) (w2 : world) :
  analyzePriority st c w = (Returned s2, w2) ->
  input s2 = input st /\ extractedInfo s2 = extractedInfo st /\
  ((exists a,
      priorityAnalysis s2 = Some a /\ (a = [] \/ reported c a) /\
      confidence s2 =
        Num (Math_min (plus (confidence st)
                            (or (get a (js "confidence")) (Num n0_3)))
                      (Num n1)))
   \/ confidence s2 = confidence st).
Proof.
  unfold analyzePriority, try_catch, bind, logger, ret, lift,
    ollama_generate.
  cbn [calls logged log_to].
  destruct (priority_prompt st); cbv beta iota;
    [|intros H; discriminate H].
  destruct (c (calls w)) as [err|text] eqn:Ec; cbv beta iota.
  - intros H; injection H as <- <-. cbn. auto.
  - match goal with |- context [parseJSON text c ?w0] =>
      destruct (advanced_parseJSON_cases text c w0) as (o & w1 & Ep & _ & Ho)
    end.
    rewrite Ep. conversions.
    destruct (converts (confidence st)); cbv beta iota;
      [destruct (converts (or (get o (js "confidence")) (Num n0_3)));
       cbv beta iota|];
      intros H; injection H as <- <-;
      cbn [input extractedInfo priorityAnalysis confidence];
      (split; [reflexivity|]); (split; [reflexivity|]);
      [left|right; reflexivity|right; reflexivity].
    exists o. repeat split.
    destruct Ho as [->|(m & Hm & Hp)]; [auto|].
    right. exists (calls w), text, m. auto.
Qed.

(** What [detectConflicts] leaves in the state, when it returns. *)
Lemma detectConflicts_returned (st : TaskCreationState) (c : client)
    (w : world) (s3 : TaskCreationState) (w3 : world) :
  detectConflicts st c w = (Returned s3, w3) ->
  input s3 = input st /\
  extractedInfo s3 = extractedInfo st /\
  priorityAnalysis s3 = priorityAnalysis st /\
  confidence s3 = confidence st /\
  conflicts s3 = signals st.
Proof.
  unfold detectConflicts, signals, bind, logger, lift, ret. conversions.
  converting (opt_get (extractedInfo st) (js "complexity")).
  destruct (ge (opt_get (extractedInfo st) (js "complexity")) (Num n4));
    cbv beta iota zeta;
    converting (opt_get (extractedInfo st) (js "estimatedDuration"));
    destruct (gt (opt_get (extractedInfo st) (js "estimatedDuration"))
                (Num n240));
    destruct (strict_eq_str (opt_get (priorityAnalysis st) (js "priority"))
                (js "urgent"));
    cbv beta iota zeta; intros H; injection H as <- <-; repeat split.
Qed.

(** [detectConflicts] throws exactly when the complexity or the
    estimated duration does not convert. *)
Lemma detectConflicts_returns_iff (st : TaskCreationState) (c : client)
    (w : world) :
  (exists s3 w3, detectConflicts st c w = (Returned s3, w3)) <->
  (converts (opt_get (extractedInfo st) (js "complexity")) = true /\
   converts (opt_get (extractedInfo st) (js "estimatedDuration")) = true).
Proof.
  unfold detectConflicts, bind, logger, lift, ret. conversions.
  destruct (converts (opt_get (extractedInfo st) (js "complexity")));
    cbv beta iota;
    [|split; [intros (r & w' & H); discriminate H
             |intros (H & _); discriminate H]].
  destruct (converts (opt_get (extractedInfo st) (js "estimatedDuration")));
    cbv beta iota;
    [|destruct (ge _ _); cbv beta iota zeta;
      (split; [intros (r & w' & H); discriminate H
              |intros (_ & H); discriminate H])].
  destruct (ge (opt_get (extractedInfo st) (js "complexity")) (Num n4));
    destruct (gt (opt_get (extractedInfo st) (js "estimatedDuration"))
                (Num n240));
    destruct (strict_eq_str (opt_get (priorityAnalysis st) (js "priority"))
                (js "urgent"));
    cbv beta iota zeta; split; eauto.
Qed.

Lemma validateAndFinalize_returned (st : TaskCreationState) (c : client)
    (w : world) (s4 : TaskCreationState) (w4 : world) :
  validateAndFinalize st c w = (Returned s4, w4) ->
  confidence s4 = confidence st /\
  conflicts s4 = conflicts st /\
  needsHumanReview s4 =
    (lt (confidence st) (Num n0_6)
     || strict_eq_str (opt_get (priorityAnalysis st) (js "priority"))
          (js "urgent")
        && lt (confidence st) (Num n0_8)
     || existsb is_high (conflicts st)) /\
  (strict_eq_str (opt_get (priorityAnalysis st) (js "priority"))
     (js "urgent")
   && lt (confidence st) (Num n0_8) = true ->
   In msg_urgent_recheck (suggestions s4)) /\
  (exists t, finalTask s4 = Some t /\
     title t = or (opt_get (extractedInfo st) (js "title"))
                  (Str (input st))).
Proof.
  unfold validateAndFinalize, bind, logger, lift, ret. conversions.
  converting (confidence st).
  destruct (lt (confidence st) (Num n0_6));
    destruct (strict_eq_str (opt_get (priorityAnalysis st) (js "priority"))
                (js "urgent"));
    destruct (lt (confidence st) (Num n0_8));
    destruct (strict_eq_str (opt_get (priorityAnalysis st) (js "priority"))
                (js "high"));
    destruct (truthy (opt_get (extractedInfo st) (js "dueDate")));
    destruct (existsb is_high (conflicts st));
    cbv beta iota zeta;
    (destruct (mapPriority _) as [p|err];
     cbv beta iota; [|intros H; discriminate H]);
    try converting (opt_get (extractedInfo st) (js "dueDate"));
    intros H; injection H as <- <-;
    cbn [confidence needsHumanReview conflicts suggestions finalTask
         orb andb];
    repeat split; intros; try discriminate; try reflexivity;
    try in_appended; eexists; split; reflexivity.
Qed.


(** [validateAndFinalize] throws exactly when a conversion or
    [mapPriority] does. *)
Lemma validateAndFinalize_returns_iff (st : TaskCreationState)
    (c : client) (w : world) :
  (exists s4 w4, validateAndFinalize st c w = (Returned s4, w4)) <->
  (converts (confidence st) = true /\
   (truthy (opt_get (extractedInfo st) (js "dueDate")) = true ->
    converts (opt_get (extractedInfo st) (js "dueDate")) = true) /\
   exists p,
     mapPriority (or (opt_get (priorityAnalysis st) (js "priority"))
                     (Str (js "medium"))) = Returned p).
Proof.
  unfold validateAndFinalize, bind, logger, lift, ret. conversions.
  destruct (converts (confidence st)); cbv beta iota;
    [|split; [intros (r & w' & H); discriminate H
             |intros (H & _); discriminate H]].
  destruct (lt (confidence st) (Num n0_6));
    destruct (strict_eq_str (opt_get (priorityAnalysis st) (js "priority"))
                (js "urgent"));
    destruct (lt (confidence st) (Num n0_8));
    destruct (strict_eq_str (opt_get (priorityAnalysis st) (js "priority"))
                (js "high"));
    destruct (existsb is_high (conflicts st));
    cbv beta iota zeta;
    (destruct (mapPriority _) as [p|err]; cbv beta iota zeta;
     [|split; [intros (r & w' & H); discriminate H
              |intros (_ & _ & p & H); discriminate H]]);
    (destruct (truthy (opt_get (extractedInfo st) (js "dueDate"))) eqn:Et;
     cbv beta iota zeta;
     [destruct (converts (opt_get (extractedInfo st) (js "dueDate"))) eqn:Ed;
      cbv beta iota zeta;
      [|split; [intros (r & w' & H); discriminate H
               |intros (_ & H & _); discriminate (H eq_refl)]]|]);
    (split; [intros _; repeat split; eauto; intros H; discriminate H|eauto]).
Qed.

Lemma advanced_execute_unfold (text userId : jsstring) (c : client) (w : world) :
  execute text userId c w =
  match stages (initialState text userId) c
          (log_to w DEBUG (start_message text)) with
  | (Returned s, w') => (Returned (result_of s), w')
  | (Thrown err, w') =>
      (Returned (degraded text),
       log_to w' ERROR (js "Advanced workflow failed: "
                        ++ error_to_string err))
  end.
Proof.
  unfold execute, bind, try_catch, logger, ret.
  destruct (stages _ c _) as [[s|err] w']; reflexivity.
Qed.

Lemma advanced_execute_returns (text userId : jsstring) : returns (execute text userId).
Proof. unfold execute. repeat returns_step. Qed.

(** A result of [execute] is the degraded one, or the state the four
    stages produce, the last two of which do not touch the confidence. *)
Lemma advanced_execute_cases (text userId : jsstring) (c : client) (w : world)
    (r : TaskCreationResult) (w' : world) :
  execute text userId c w = (Returned r, w') ->
  r = degraded text \/
  exists s1 w1 s2 w2 s3 w3 s4,
    extractInformation (initialState text userId) c
      (log_to w DEBUG (start_message text)) = (Returned s1, w1) /\
    analyzePriority s1 c w1 = (Returned s2, w2) /\
    detectConflicts s2 c w2 = (Returned s3, w3) /\
    validateAndFinalize s3 c w3 = (Returned s4, w') /\
    r = result_of s4.
Proof.
  rewrite advanced_execute_unfold. unfold stages, bind.
  destruct (extractInformation _ c _) as [[s1|err] w1] eqn:E1; cbv beta iota;
    [|intros H; injection H as <- <-; auto].
  destruct (analyzePriority s1 c w1) as [[s2|err] w2] eqn:E2; cbv beta iota;
    [|intros H; injection H as <- <-; auto].
  destruct (detectConflicts s2 c w2) as [[s3|err] w3] eqn:E3; cbv beta iota;
    [|intros H; injection H as <- <-; auto].
  destruct (validateAndFinalize s3 c w3) as [[s4|err] w4] eqn:E4;
    cbv beta iota; [|intros H; injection H as <- <-; auto].
  intros H; injection H as <- <-. right.
  exists s1, w1, s2, w2, s3, w3, s4. auto 10.
Qed.

End Facts.
End AdvancedFacts.

(* ================================================================== *)
(** * Facts about defaulting and adding confidences                    *)
(* ================================================================== *)

Module AggregateFacts.

Section Facts.
Context {RT : Runtime}.

Lemma plus_num (x y : number) : plus (Num x) (Num y) = Num (JsNumber.add x y).
Proof. reflexivity. Qed.

Lemma Math_min_num (x y : number) : Math_min (Num x) (Num y) = JsNumber.min x y.
Proof. reflexivity. Qed.

(** [v || d] for a confidence that is missing or a number. *)
Lemma or_default (v : value) (d : number) :
  v = Undefined \/ (exists n, v = Num n) ->
  or v (Num d) = Num (match v with
                      | Num n => if JsNumber.falsy n then d else n
                      | _ => d
                      end).
Proof.
  intros [->|(n & ->)]; [reflexivity|].
  unfold or, truthy. destruct (JsNumber.falsy n); reflexivity.
Qed.

(** Defaulting keeps a confidence within [0, 1]. *)
Lemma or_default_in_unit (v : value) (d : number) :
  in_unit v -> unit_number (Num d) -> unit_number (or v (Num d)).
Proof.
  intros Hv Hd.
  rewrite or_default
    by (destruct Hv as [->|(n & -> & _)]; [left | right; eexists]; reflexivity).
  destruct Hv as [->|(n & -> & H0 & H1)]; [exact Hd|].
  destruct (JsNumber.falsy n); [exact Hd|].
  exists n. auto.
Qed.

(** The capped sum of two numbers within [0, 1] is within [0, 1]. *)
Lemma capped_sum_in_unit (x y : value) :
  unit_number x -> unit_number y ->
  unit_number (Num (Math_min (plus x y) (Num n1))).
Proof.
  intros (a & -> & Ha & _) (b & -> & Hb & _).
  rewrite plus_num, Math_min_num.
  exists (JsNumber.min (JsNumber.add a b) n1). split; [reflexivity|].
  apply min_one_bounds, add_nonneg; apply leb_nonneg; assumption.
Qed.

Lemma unit_number_half : unit_number (Num n0_5).
Proof. exists n0_5. repeat split. Qed.

Lemma unit_number_0_3 : unit_number (Num n0_3).
Proof. exists n0_3. repeat split. Qed.

Lemma unit_number_0_2 : unit_number (Num n0_2).
Proof. exists n0_2. repeat split. Qed.

End Facts.
End AggregateFacts.

Import AggregateFacts.

Module CompareFacts.

Section Facts.
Context {RT : Runtime}.


(** On numbers, [x >= y] is [y <= x]. *)
Lemma ge_num (x y : number) :
  JsNumber.leb y x = true -> ge (Num x) (Num y) = true.
Proof.
  change (ge (Num x) (Num y))
    with (match SFcompare x y with
          | Some Lt | None => false
          | Some _ => true
          end).
  unfold JsNumber.leb, SFleb. rewrite (compare_antisym y x).
  destruct (SFcompare y x) as [[]|]; intros H; try discriminate H;
    reflexivity.
Qed.

Lemma strict_eq_str_refl (s : jsstring) : strict_eq_str (Str s) s = true.
Proof. apply StringFacts.eqb_refl. Qed.

Lemma mapPriority_string (s : jsstring) :
  exists p, mapPriority (Str s) = Returned p.
Proof. eexists. reflexivity. Qed.

End Facts.
End CompareFacts.

Import CompareFacts.

(* ================================================================== *)
(** * Facts about [split(/\s+/)]                                       *)
(* ================================================================== *)

Module SplitFacts.

Lemma no_space_cons (c : code_unit) (p : jsstring) :
  is_space c = false -> Spec.no_space p -> Spec.no_space (c :: p).
Proof. intros Hc Hp d [<-|Hd]; auto. Qed.

Lemma no_space_tail (c : code_unit) (p : jsstring) :
  Spec.no_space (c :: p) -> is_space c = false /\ Spec.no_space p.
Proof.
  intros H. split; [apply H; left; reflexivity|].
  intros d Hd. apply H. right. exact Hd.
Qed.

(** Every non-empty piece is the pending word extended up to the next
    white space, or a stretch that starts right after white space. *)
Lemma split_spaces_from_sound (s cur : jsstring) (in_run : bool)
    (w : jsstring) :
  In w (split_spaces_from cur in_run s) ->
  (exists p after,
     w = rev cur ++ p /\ s = p ++ after /\ Spec.no_space p /\
     Spec.closed_right after)
  \/ (exists before c after,
        s = before ++ [c] ++ w ++ after /\ is_space c = true /\
        Spec.no_space w /\ Spec.closed_right after).
Proof.
  revert cur in_run.
  induction s as [|c s IH]; intros cur in_run; cbn [split_spaces_from].
  - intros [<-|[]]. left. exists [], []. rewrite app_nil_r.
    repeat split; [intros d [] | left; reflexivity].
  - destruct (is_space c) eqn:Ec.
    + assert (Hrest : In w (split_spaces_from [] true s) ->
                      exists before c0 after,
                        c :: s = before ++ [c0] ++ w ++ after /\
                        is_space c0 = true /\ Spec.no_space w /\
                        Spec.closed_right after).
      { intros Hin.
        destruct (IH _ _ Hin)
          as [(p & after & -> & -> & Hp & Ha)
             |(before & c0 & after & -> & Hc0 & Hw & Ha)].
        - exists [], c, after. auto.
        - exists (c :: before), c0, after. auto. }
      assert (Hfirst : rev cur = w ->
                       exists p after,
                         w = rev cur ++ p /\ c :: s = p ++ after /\
                         Spec.no_space p /\ Spec.closed_right after).
      { intros <-. exists [], (c :: s). rewrite app_nil_r.
        repeat split; [intros d [] | right; eauto]. }
      destruct in_run.
      * intros Hin. right. auto.
      * intros [Hw|Hin]; [left | right]; auto.
    + intros Hin.
      destruct (IH _ _ Hin)
        as [(p & after & -> & -> & Hp & Ha)
           |(before & c0 & after & -> & Hc0 & Hw & Ha)].
      * left. exists (c :: p), after. cbn [rev]. rewrite <- app_assoc.
        repeat split; auto using no_space_cons.
      * right. exists (c :: before), c0, after. auto.
Qed.

(** The pending word, extended up to the next white space, is a piece. *)
Lemma split_spaces_from_first (p after cur : jsstring) (in_run : bool) :
  Spec.no_space p -> Spec.closed_right after ->
  in_run = false \/ p <> [] ->
  In (rev cur ++ p) (split_spaces_from cur in_run (p ++ after)).
Proof.
  revert cur in_run.
  induction p as [|x p IH]; intros cur in_run Hp Ha Hrun;
    cbn [app split_spaces_from].
  - rewrite app_nil_r.
    destruct Ha as [->|(c & a & -> & Hc)]; cbn [split_spaces_from].
    + left. reflexivity.
    + rewrite Hc. destruct Hrun as [->|Hne]; [|contradiction].
      left. reflexivity.
  - destruct (no_space_tail _ _ Hp) as (Hx & Hp').
    rewrite Hx.
    replace (rev cur ++ x :: p) with (rev (x :: cur) ++ p)
      by (cbn [rev]; rewrite <- app_assoc; reflexivity).
    apply IH; auto.
Qed.

(** A non-empty stretch without white space that starts right after
    white space and is followed by white space or the end is a piece. *)
Lemma split_spaces_from_later (before : jsstring) (c : code_unit)
    (w after cur : jsstring) (in_run : bool) :
  is_space c = true -> w <> [] -> Spec.no_space w -> Spec.closed_right after ->
  In w (split_spaces_from cur in_run (before ++ [c] ++ w ++ after)).
Proof.
  intros Hc Hne Hw Ha. revert cur in_run.
  assert (Hgo : In w (split_spaces_from [] true (w ++ after))).
  { apply (split_spaces_from_first w after [] true); auto. }
  induction before as [|x before IH]; intros cur in_run;
    cbn [app split_spaces_from].
  - rewrite Hc. destruct in_run; [|right]; exact Hgo.
  - destruct (is_space x); [destruct in_run; [|right]|]; apply IH.
Qed.

(** The non-empty pieces of [split(/\s+/)] are the words. *)
Lemma split_spaces_words (s w : jsstring) :
  w <> [] -> (In w (split_spaces s) <-> Spec.word_of s w).
Proof.
  intros Hne. unfold split_spaces, Spec.word_of. split.
  - intros Hin.
    destruct (split_spaces_from_sound _ _ _ _ Hin)
      as [(p & after & Ew & -> & Hp & Ha)
         |(before & c & after & -> & Hc & Hw & Ha)].
    + cbn in Ew. subst p. split; [exact Hne|]. split; [exact Hp|].
      exists [], after. split; [reflexivity|]. split; [left; reflexivity|].
      exact Ha.
    + split; [exact Hne|]. split; [exact Hw|].
      exists (before ++ [c]), after. rewrite <- app_assoc.
      split; [reflexivity|]. split; [right; eauto | exact Ha].
  - intros (_ & Hw & before & after & -> & Hb & Ha).
    destruct Hb as [->|(b & c & -> & Hc)].
    + apply (split_spaces_from_first w after [] false); auto.
    + rewrite <- app_assoc.
      apply split_spaces_from_later; auto.
Qed.

Lemma starts_with_hash (w : jsstring) :
  starts_with [hash] w = true <-> exists t, w = hash :: t.
Proof.
  destruct w as [|d w]; cbn [starts_with].
  - split; [discriminate | intros (t & H); discriminate H].
  - rewrite andb_true_r, N.eqb_eq. split.
    + intros <-. eauto.
    + intros (t & H). injection H as <- _. reflexivity.
Qed.

(** The tags of [fallbackParsing] are the words that start with a hash,
    without it. *)
Lemma fallbackParsing_tags_spec (input t : jsstring) :
  In t (AiService.fallbackParsing_tags input) <-> Spec.hash_tag_of input t.
Proof.
  unfold AiService.fallbackParsing_tags, Spec.hash_tag_of.
  rewrite in_map_iff. split.
  - intros (w & <- & Hin). apply filter_In in Hin. destruct Hin as (Hin & Hs).
    apply starts_with_hash in Hs. destruct Hs as (t & ->).
    cbn [substring_from skipn].
    apply split_spaces_words; [discriminate | exact Hin].
  - intros Hw. exists (hash :: t). split; [reflexivity|].
    apply filter_In. split.
    + apply split_spaces_words; [discriminate | exact Hw].
    + apply starts_with_hash. eauto.
Qed.

End SplitFacts.

Module TC := TaskCreationWorkflow.
Module Adv := AdvancedTaskCreationWorkflow.

(* ================================================================== *)
(** * Where the confidence does stay within [0, 1]                     *)
(* ================================================================== *)

(** In [TaskCreationWorkflow] the confidence of a result never exceeds 1,
    whatever the model reports.  When every confidence the model reports
    is missing or a number within [0, 1], the confidence of every result
    of [execute] lies within [0, 1], in both workflows and on every path,
    those that fall back after a failed call included. *)
Theorem confidence_bounds {RT : Runtime} (c : client) :
  (forall input userId w r w',
     TC.execute input userId c w = (Returned r, w') ->
     JsNumber.ltb n1 (TC.confidence r) = false) /\
  (reports_in_unit c ->
   (forall input userId w r w',
      TC.execute input userId c w = (Returned r, w') ->
      JsNumber.leb n0 (TC.confidence r) = true /\
      JsNumber.leb (TC.confidence r) n1 = true) /\
   (forall input userId w r w',
      Adv.execute input userId c w = (Returned r, w') ->
      unit_number (Adv.result_confidence r))).
Proof.
  split; [|intros Hrep; split].
  - intros input userId w r w' H.
    destruct (TaskCreationFacts.execute_cases _ _ _ _ _ _ H)
      as [->|(e & a & x & w1 & _ & _ & _ & _ & Hv)]; [reflexivity|].
    destruct (TaskCreationFacts.validateAndSuggest_returned _ _ _ _ _ _ Hv)
      as (-> & _).
    unfold TC.overallConfidence, Math_min.
    change (to_number (Num n1)) with n1. apply min_one_not_above.
  - intros input userId w r w' H.
    destruct (TaskCreationFacts.execute_cases _ _ _ _ _ _ H)
      as [->|(e & a & x & w1 & Hx & Hnn & Hf & Ha & Hv)];
      [split; reflexivity|].
    destruct (TaskCreationFacts.validateAndSuggest_returned _ _ _ _ _ _ Hv)
      as (-> & _).
    unfold TC.overallConfidence.
    assert (Hu : unit_number
                   (Num (Math_min
                           (plus (or (get e (js "confidence")) (Num n0_5))
                                 (or (get a (js "confidence")) (Num n0_5)))
                           (Num n1)))).
    { rewrite Hx.
      assert (Ha' : exists y, or (get a (js "confidence")) (Num n0_5) = Num y
                              /\ nonneg y = true).
      { assert (Hi : in_unit (get a (js "confidence"))).
        { destruct Ha as [->|[Hr|Hk]];
            [left; reflexivity | apply Hrep, Hr |].
          destruct (TaskCreationFacts.fallbackPriorityAnalysis_returned _ _ Hk)
            as (text & ->).
          right; exists n0_5; repeat split. }
        destruct (or_default_in_unit _ n0_5 Hi unit_number_half)
          as (y & Ey & Hy & _).
        exists y. split; [exact Ey | apply leb_nonneg, Hy]. }
      destruct Ha' as (y & -> & Hy).
      unfold or, truthy. rewrite Hf. cbn [negb].
      rewrite plus_num, Math_min_num.
      exists (JsNumber.min (JsNumber.add x y) n1). split; [reflexivity|].
      apply min_one_bounds, add_nonneg; assumption. }
    destruct Hu as (n & En & Hn). injection En as <-. exact Hn.
  - intros input userId w r w' H.
    destruct (AdvancedFacts.advanced_execute_cases _ _ _ _ _ _ H)
      as [->|(s1 & w1 & s2 & w2 & s3 & w3 & s4 & E1 & E2 & E3 & E4 & ->)];
      [apply unit_number_0_3|].
    cbn [Adv.result_of Adv.result_confidence].
    destruct (AdvancedFacts.validateAndFinalize_returned _ _ _ _ _ E4) as (-> & _).
    destruct (AdvancedFacts.detectConflicts_returned _ _ _ _ _ E3)
      as (_ & _ & _ & Hc3 & _).
    rewrite Hc3.
    assert (H1 : unit_number (Adv.confidence s1)).
    { destruct (AdvancedFacts.extractInformation_cases
                  (Adv.initialState input userId) c
                  (log_to w DEBUG (Adv.start_message input)))
        as (s1' & w1' & E1' & _ & Hs1).
      rewrite E1 in E1'. injection E1' as <- <-.
      destruct Hs1 as [(info & _ & Hinfo & ->)| ->]; [|apply unit_number_0_2].
      apply or_default_in_unit; [|apply unit_number_half].
      destruct Hinfo as [->|Hr]; [left; reflexivity | apply Hrep, Hr]. }
    destruct (AdvancedFacts.analyzePriority_cases _ _ _ _ _ E2)
      as (_ & _ & [(a & _ & Ha & ->)| ->]); [|exact H1].
    apply capped_sum_in_unit; [exact H1|].
    apply or_default_in_unit; [|apply unit_number_0_3].
    destruct Ha as [->|Hr]; [left; reflexivity | apply Hrep, Hr].
Qed.

(** The model of the two answers [text_complex] and [text_urgent] reports
    0.5 both times. *)
Lemma answers_report_in_unit :
  reports_in_unit (RT := Scenario.runtime)
    (Scenario.answers Scenario.text_complex Scenario.text_urgent).
Proof.
  intros o (i & text & m & Hc & Hm & Hp).
  destruct i as [|i]; cbn in Hc; injection Hc as <-;
    vm_compute in Hm; injection Hm as <-;
    vm_compute in Hp; injection Hp as <-;
    right; exists n0_5; repeat split.
Qed.

(** The bounds on the run of [Scenario.answers text_complex text_urgent]. *)
Lemma confidence_bounds_example :
  (exists r w',
     TC.execute (RT := Scenario.runtime) Scenario.meeting Scenario.user1
       (Scenario.answers Scenario.text_complex Scenario.text_urgent) start
       = (Returned r, w') /\
     JsNumber.leb n0 (TC.confidence r) = true /\
     JsNumber.leb (TC.confidence r) n1 = true) /\
  (exists r w',
     Adv.execute (RT := Scenario.runtime) Scenario.meeting Scenario.user1
       (Scenario.answers Scenario.text_complex Scenario.text_urgent) start
       = (Returned r, w') /\
     unit_number (Adv.result_confidence r)).
Proof.
  destruct (confidence_bounds (RT := Scenario.runtime)
              (Scenario.answers Scenario.text_complex Scenario.text_urgent))
    as (_ & H).
  destruct (H answers_report_in_unit) as (HT & HA).
  split.
  - assert (E : exists r w',
               TC.execute (RT := Scenario.runtime) Scenario.meeting
                 Scenario.user1
                 (Scenario.answers Scenario.text_complex Scenario.text_urgent)
                 start = (Returned r, w'))
      by (vm_compute; eexists _, _; reflexivity).
    destruct E as (r & w' & E).
    exists r, w'. split; [exact E | exact (HT _ _ _ _ _ E)].
  - assert (E : exists r w',
               Adv.execute (RT := Scenario.runtime) Scenario.meeting
                 Scenario.user1
                 (Scenario.answers Scenario.text_complex Scenario.text_urgent)
                 start = (Returned r, w'))
      by (vm_compute; eexists _, _; reflexivity).
    destruct E as (r & w' & E).
    exists r, w'. split; [exact E | exact (HA _ _ _ _ _ E)].
Qed.

(* ================================================================== *)
(** * The claims                                                       *)
(* ================================================================== *)


(** C1.  For every input string and userId, [TaskCreationWorkflow.execute]
    returns a result and never throws.  Whenever an exception escapes one
    of its steps, the result is the degraded one: the title is the input,
    cut to its first 50 characters followed by an ellipsis when it is
    longer than 50; priority medium; no tags and no entities;
    [needsConfirmation = true]; [confidence = 0.3]; and the suggestions
    hold the error-acknowledgement message. *)
Theorem C1_execute_never_throws_and_degrades {RT : Runtime}
    (c : client) (input userId : jsstring) (w : world) :
  exists r w',
    TC.execute input userId c w = (Returned r, w') /\
    (forall err w1,
       TC.steps input c (log_to w DEBUG (TC.start_message input userId))
         = (Thrown err, w1) ->
       ((List.length input <= 50)%nat -> title (TC.result_task r) = Str input) /\
       ((50 < List.length input)%nat ->
        title (TC.result_task r) = Str (firstn 50 input ++ js "...")) /\
       priority (TC.result_task r) = MEDIUM /\
       tags (TC.result_task r) = Arr [] /\
       get (aiMetadata (TC.result_task r)) (js "extractedEntities")
         = no_entities /\
       TC.needsConfirmation r = true /\
       TC.confidence r = n0_3 /\
       In msg_error_occurred (TC.suggestions r)).
Proof.
  rewrite TaskCreationFacts.execute_unfold.
  destruct (TC.steps input c _) as [[r|err] w1].
  - exists r, w1. split; [reflexivity|]. intros err w2 H. discriminate H.
  - eexists _, _. split; [reflexivity|]. intros _ _ _.
    cbn [TC.degraded TC.result_task TC.createBasicTask title priority tags
         aiMetadata TC.needsConfirmation TC.confidence TC.suggestions].
    unfold truncated_title, slice0.
    repeat split; try (left; reflexivity).
    + intros H. apply Nat.ltb_ge in H. rewrite H. reflexivity.
    + intros H. apply Nat.ltb_lt in H. rewrite H. reflexivity.
Qed.

(** A run of C1 in which [mapPriority] throws on a numeric priority. *)
Lemma C1_witness :
  exists r w',
    TC.execute (RT := Scenario.runtime) Scenario.meeting Scenario.user1
      (Scenario.answers (js "ok") Scenario.text_numeric_priority) start
      = (Returned r, w') /\
    title (TC.result_task r) = Str Scenario.meeting /\
    TC.needsConfirmation r = true /\
    TC.confidence r = n0_3.
Proof.
  destruct (C1_execute_never_throws_and_degrades (RT := Scenario.runtime)
              (Scenario.answers (js "ok") Scenario.text_numeric_priority)
              Scenario.meeting Scenario.user1 start)
    as (r & w' & E & H).
  exists r, w'. split; [exact E|].
  assert (Hs : exists err w1,
             TC.steps (RT := Scenario.runtime) Scenario.meeting
               (Scenario.answers (js "ok") Scenario.text_numeric_priority)
               (log_to start DEBUG
                  (TC.start_message Scenario.meeting Scenario.user1))
             = (Thrown err, w1))
    by (vm_compute; eexists _, _; reflexivity).
  destruct Hs as (err & w1 & Hs).
  destruct (H err w1 Hs) as (Hshort & _ & _ & _ & _ & Hn & Hc & _).
  split; [apply Hshort; vm_compute; lia|]. split; assumption.
Defined.

(** C2.  Whenever the finalizer returns a result whose aggregate
    confidence is strictly below 0.6, that result has
    [needsConfirmation = true]; in both workflows, for the finalizer on
    any stage outputs and for every result of [execute]. *)
Theorem C2_low_confidence_needs_confirmation {RT : Runtime} :
  (forall e a c w r w',
     TC.validateAndSuggest e a c w = (Returned r, w') ->
     JsNumber.ltb (TC.confidence r) n0_6 = true ->
     TC.needsConfirmation r = true) /\
  (forall st c w s w',
     Adv.validateAndFinalize st c w = (Returned s, w') ->
     lt (Adv.confidence s) (Num n0_6) = true ->
     Adv.needsHumanReview s = true) /\
  (forall input userId c w r w',
     TC.execute input userId c w = (Returned r, w') ->
     JsNumber.ltb (TC.confidence r) n0_6 = true ->
     TC.needsConfirmation r = true) /\
  (forall input userId c w r w',
     Adv.execute input userId c w = (Returned r, w') ->
     lt (Adv.result_confidence r) (Num n0_6) = true ->
     Adv.needsConfirmation r = true).
Proof.
  assert (HT : forall e a c w r w',
             TC.validateAndSuggest e a c w = (Returned r, w') ->
             JsNumber.ltb (TC.confidence r) n0_6 = true ->
             TC.needsConfirmation r = true).
  { intros e a c w r w' H Hlt.
    destruct (TaskCreationFacts.validateAndSuggest_returned _ _ _ _ _ _ H)
      as (Hc & Hn & _).
    rewrite Hn. rewrite Hc in Hlt. rewrite Hlt. reflexivity. }
  assert (HA : forall st c w s w',
             Adv.validateAndFinalize st c w = (Returned s, w') ->
             lt (Adv.confidence s) (Num n0_6) = true ->
             Adv.needsHumanReview s = true).
  { intros st c w s w' H Hlt.
    destruct (AdvancedFacts.validateAndFinalize_returned _ _ _ _ _ H)
      as (Hc & _ & Hn & _).
    rewrite Hn. rewrite Hc in Hlt. rewrite Hlt. reflexivity. }
  repeat split; trivial.
  - intros input userId c w r w' H Hlt.
    destruct (TaskCreationFacts.execute_cases _ _ _ _ _ _ H)
      as [->|(e & a & x & w1 & _ & _ & _ & _ & Hv)]; [reflexivity|].
    eapply HT; eauto.
  - intros input userId c w r w' H Hlt.
    destruct (AdvancedFacts.advanced_execute_cases _ _ _ _ _ _ H)
      as [->|(s1 & w1 & s2 & w2 & s3 & w3 & s4 & _ & _ & _ & Hv & ->)];
      [reflexivity|].
    eapply HA; eauto.
Qed.

(** C2 at concrete inputs: stage outputs whose confidences add up to 0.5,
    a run that ends in the degraded result, and a total outage in the
    advanced workflow (confidence 0.2). *)
Lemma C2_witness :
  (exists r w',
     TC.validateAndSuggest (RT := Scenario.runtime)
       [(js "confidence", Num n0_3)] [(js "confidence", Num n0_2)]
       Scenario.prose start = (Returned r, w') /\
     TC.needsConfirmation r = true) /\
  (exists r w',
     TC.execute (RT := Scenario.runtime) Scenario.meeting Scenario.user1
       (Scenario.answers (js "ok") Scenario.text_numeric_priority) start
       = (Returned r, w') /\
     TC.needsConfirmation r = true) /\
  (exists r w',
     Adv.execute (RT := Scenario.runtime) Scenario.meeting Scenario.user1
       Scenario.outage start = (Returned r, w') /\
     Adv.needsConfirmation r = true).
Proof.
  destruct (C2_low_confidence_needs_confirmation (RT := Scenario.runtime))
    as (H1 & _ & H3 & H4).
  split; [|split].
  - assert (E : exists r w',
               TC.validateAndSuggest (RT := Scenario.runtime)
                 [(js "confidence", Num n0_3)] [(js "confidence", Num n0_2)]
                 Scenario.prose start = (Returned r, w') /\
               TC.confidence r = n0_5)
      by (vm_compute; eexists _, _; split; reflexivity).
    destruct E as (r & w' & E & Hc).
    exists r, w'. split; [exact E|].
    apply (H1 _ _ _ _ _ _ E). rewrite Hc. vm_compute. reflexivity.
  - assert (E : exists r w',
               TC.execute (RT := Scenario.runtime) Scenario.meeting
                 Scenario.user1
                 (Scenario.answers (js "ok") Scenario.text_numeric_priority)
                 start = (Returned r, w') /\
               TC.confidence r = n0_3)
      by (vm_compute; eexists _, _; split; reflexivity).
    destruct E as (r & w' & E & Hc).
    exists r, w'. split; [exact E|].
    apply (H3 _ _ _ _ _ _ E). rewrite Hc. vm_compute. reflexivity.
  - assert (E : exists r w',
               Adv.execute (RT := Scenario.runtime) Scenario.meeting
                 Scenario.user1 Scenario.outage start = (Returned r, w') /\
               Adv.result_confidence r = Num n0_2)
      by (vm_compute; eexists _, _; split; reflexivity).
    destruct E as (r & w' & E & Hc).
    exists r, w'. split; [exact E|].
    apply (H4 _ _ _ _ _ _ E). rewrite Hc. vm_compute. reflexivity.
Defined.

(** C3 fails on the code.  Nothing clamps a confidence from below, and
    the advanced workflow does not cap the confidence it keeps when the
    priority call fails.  With the analysis answer [{"confidence": -5}],
    [TaskCreationWorkflow.execute] returns a confidence of
    [0.5 + (-5) = -4.5]; with the extraction answer [{"confidence": 7}] and
    a failing priority call, [AdvancedTaskCreationWorkflow.execute] returns
    a confidence of 7. *)
Theorem C3_confidence_outside_unit_interval :
  (exists r w,
     run (TC.execute (RT := Scenario.runtime) Scenario.meeting Scenario.user1)
         (Scenario.answers (js "ok") Scenario.text_negative_confidence)
     = (Returned r, w) /\
     TC.confidence r = Scenario.minus_4_5 /\
     get (aiMetadata (TC.result_task r)) (js "confidence")
       = Num Scenario.minus_4_5 /\
     JsNumber.ltb Scenario.minus_4_5 n0 = true) /\
  (exists r w,
     run (Adv.execute (RT := Scenario.runtime) Scenario.meeting Scenario.user1)
         (Scenario.answers_then_outage Scenario.text_confidence_seven)
     = (Returned r, w) /\
     Adv.result_confidence r = Num Scenario.seven /\
     JsNumber.ltb n1 Scenario.seven = true).
Proof.
  split; vm_compute; eexists _, _; repeat split.
Qed.




(** Where the stricter bar for urgent tasks does hold: when the
    analysis answers the priority ["urgent"], spelled so, every result
    whose confidence is below 0.8 asks for confirmation and holds the
    message asking to re-check the urgent task; for the finalizers of both
    workflows and for every result of [TaskCreationWorkflow.execute]. *)
Theorem urgent_answer_is_held_to_the_stricter_bar {RT : Runtime} :
  (forall e a c w r w',
     TC.validateAndSuggest e a c w = (Returned r, w') ->
     get a (js "priority") = Str (js "urgent") ->
     JsNumber.ltb (TC.confidence r) n0_8 = true ->
     TC.needsConfirmation r = true /\
     In msg_urgent_recheck (TC.suggestions r)) /\
  (forall st c w s w',
     Adv.validateAndFinalize st c w = (Returned s, w') ->
     opt_get (Adv.priorityAnalysis st) (js "priority") = Str (js "urgent") ->
     lt (Adv.confidence s) (Num n0_8) = true ->
     Adv.needsHumanReview s = true /\
     In msg_urgent_recheck (Adv.suggestions s)) /\
  (forall input userId c w r w',
     TC.execute input userId c w = (Returned r, w') ->
     get (aiMetadata (TC.result_task r)) (js "suggestedPriority")
       = Str (js "urgent") ->
     JsNumber.ltb (TC.confidence r) n0_8 = true ->
     TC.needsConfirmation r = true /\
     In msg_urgent_recheck (TC.suggestions r)).
Proof.
  assert (HT : forall e a c w r w',
             TC.validateAndSuggest e a c w = (Returned r, w') ->
             get a (js "priority") = Str (js "urgent") ->
             JsNumber.ltb (TC.confidence r) n0_8 = true ->
             TC.needsConfirmation r = true /\
             In msg_urgent_recheck (TC.suggestions r)).
  { intros e a c w r w' E Hp Hlt.
    destruct (TaskCreationFacts.validateAndSuggest_returned _ _ _ _ _ _ E)
      as (Hc & Hn & _ & _ & _ & Hm).
    rewrite Hc in Hlt.
    rewrite Hp, strict_eq_str_refl, Hlt in Hn, Hm. split.
    - rewrite Hn. cbn [andb]. apply orb_true_iff. left. apply orb_true_r.
    - apply Hm. reflexivity. }
  split; [exact HT|]. split.
  - intros st c w s w' E Hp Hlt.
    destruct (AdvancedFacts.validateAndFinalize_returned _ _ _ _ _ E)
      as (Hc & _ & Hn & Hm & _).
    rewrite Hc in Hlt.
    rewrite Hp, strict_eq_str_refl, Hlt in Hn, Hm. split.
    + rewrite Hn. cbn [andb]. apply orb_true_iff. left. apply orb_true_r.
    + apply Hm. reflexivity.
  - intros input userId c w r w' E Hp Hlt.
    destruct (TaskCreationFacts.execute_cases _ _ _ _ _ _ E)
      as [->|(e & a & x & w1 & _ & _ & _ & _ & Ev)]; [discriminate Hp|].
    destruct (TaskCreationFacts.validateAndSuggest_task _ _ _ _ _ _ Ev)
      as (_ & Hs & _).
    rewrite Hs in Hp. exact (HT _ _ _ _ _ _ Ev Hp Hlt).
Qed.

(** C5 fails on the code.  Both finalizers compare the priority string of
    the analysis answer with ["urgent"] as it is, whereas [mapPriority]
    lower-cases it first.  With the analysis answer
    [{"priority": "URGENT", "confidence": 0.2}] after an extraction of
    confidence 0.5, both workflows return a task of priority [URGENT] with
    an aggregate confidence of 0.7, which is at least 0.6 and below 0.8,
    with [needsConfirmation = false] and without any suggestion. *)
Theorem C5_upper_case_urgent_escapes_the_bar :
  (exists r w,
     run (TC.execute (RT := Cases.runtime) Scenario.meeting Scenario.user1)
         (Scenario.answers Cases.text_report Cases.text_upper_case_urgent)
     = (Returned r, w) /\
     priority (TC.result_task r) = URGENT /\
     TC.confidence r = Scenario.n0_7 /\
     JsNumber.leb n0_6 Scenario.n0_7 = true /\
     JsNumber.ltb Scenario.n0_7 n0_8 = true /\
     TC.needsConfirmation r = false /\
     TC.suggestions r = []) /\
  (exists r w t,
     run (Adv.execute (RT := Cases.runtime) Scenario.meeting Scenario.user1)
         (Scenario.answers Cases.text_report Cases.text_upper_case_urgent)
     = (Returned r, w) /\
     Adv.result_task r = Some t /\
     priority t = URGENT /\
     Adv.result_confidence r = Num Scenario.n0_7 /\
     ge (RT := Cases.runtime) (Num Scenario.n0_7) (Num n0_6) = true /\
     lt (RT := Cases.runtime) (Num Scenario.n0_7) (Num n0_8) = true /\
     Adv.needsConfirmation r = false /\
     Adv.result_suggestions r = []).
Proof.
  split; vm_compute; [eexists _, _|eexists _, _, _]; repeat split.
Qed.

(** Where the mismatch signal is emitted: when the analysis answers the
    priority ["urgent"], spelled so, and the complexity is at least 4,
    the state [detectConflicts] returns carries the
    [priority_complexity_mismatch] signal, of severity high, and every
    result the finalizer then returns asks for confirmation and carries
    the signal, whatever the confidence. *)
Theorem urgent_answer_on_a_complex_task_is_a_mismatch {RT : Runtime}
    (st : Adv.TaskCreationState) (c : client) (w : world)
    (s3 : Adv.TaskCreationState) (w3 : world) :
  Adv.detectConflicts st c w = (Returned s3, w3) ->
  ge (opt_get (Adv.extractedInfo st) (js "complexity")) (Num n4) = true ->
  opt_get (Adv.priorityAnalysis st) (js "priority") = Str (js "urgent") ->
  In Adv.mismatch_conflict (Adv.conflicts s3) /\
  Adv.type Adv.mismatch_conflict = js "priority_complexity_mismatch" /\
  Adv.severity Adv.mismatch_conflict = js "high" /\
  forall s4 w4,
    Adv.validateAndFinalize s3 c w3 = (Returned s4, w4) ->
    Adv.needsConfirmation (Adv.result_of s4) = true /\
    In Adv.mismatch_conflict (Adv.result_conflicts (Adv.result_of s4)).
Proof.
  intros E3 Hc Hp.
  destruct (AdvancedFacts.detectConflicts_returned _ _ _ _ _ E3)
    as (_ & _ & _ & _ & Hk).
  assert (Hsig : Adv.conflicts s3
                 = [Adv.complexity_conflict]
                   ++ (if gt (opt_get (Adv.extractedInfo st)
                                (js "estimatedDuration")) (Num n240)
                       then [Adv.duration_conflict] else [])
                   ++ [Adv.mismatch_conflict]).
  { rewrite Hk. unfold Adv.signals.
    rewrite Hc, Hp, strict_eq_str_refl. reflexivity. }
  assert (Hin : In Adv.mismatch_conflict (Adv.conflicts s3)).
  { rewrite Hsig. apply in_or_app. right. apply in_or_app. right.
    left. reflexivity. }
  split; [exact Hin|]. split; [reflexivity|]. split; [reflexivity|].
  intros s4 w4 E4.
  destruct (AdvancedFacts.validateAndFinalize_returned _ _ _ _ _ E4)
    as (_ & Hk4 & Hn & _).
  cbn [Adv.result_of Adv.needsConfirmation Adv.result_conflicts].
  split; [|rewrite Hk4; exact Hin].
  rewrite Hn, Hsig. cbn [app existsb].
  replace (Adv.is_high Adv.complexity_conflict) with true
    by (vm_compute; reflexivity).
  cbn [orb]. apply orb_true_r.
Qed.

(** C6 fails on the code.  [detectConflicts] compares the priority
    string of the analysis answer with ["urgent"] as it is, whereas
    [mapPriority] lower-cases it first.  With the extraction answer
    [{"complexity": 5, "confidence": 0.5}] and the analysis answer
    [{"priority": "URGENT", "confidence": 0.2}] the advanced workflow
    returns a task of priority [URGENT] and complexity 5 whose only
    signal is the complexity signal: no [priority_complexity_mismatch]
    signal is emitted. *)
Theorem C6_upper_case_urgent_gives_no_mismatch_signal :
  exists r w t,
    run (Adv.execute (RT := Cases.runtime) Scenario.meeting Scenario.user1)
        (Scenario.answers Scenario.text_complex Cases.text_upper_case_urgent)
    = (Returned r, w) /\
    Adv.result_task r = Some t /\
    priority t = URGENT /\
    get (aiMetadata t) (js "complexity") = Num n5 /\
    ge (RT := Cases.runtime) (Num n5) (Num n4) = true /\
    Adv.result_conflicts r = [Adv.complexity_conflict] /\
    ~ In Adv.mismatch_conflict (Adv.result_conflicts r).
Proof.
  vm_compute. eexists _, _, _. repeat split.
  intros [H|[]]. discriminate H.
Qed.

(** The whole advanced pipeline on the answers
    [{"complexity": 5, "confidence": 0.5}] and
    [{"priority": "urgent", "confidence": 0.5}]: the aggregate confidence
    is 1, the signals are the complexity and the mismatch signal, and the
    result asks for confirmation. *)
Lemma advanced_run_urgent_complex :
  exists r w,
    run (Adv.execute (RT := Scenario.runtime) Scenario.meeting Scenario.user1)
        (Scenario.answers Scenario.text_complex Scenario.text_urgent)
    = (Returned r, w) /\
    Adv.result_confidence r = Num n1 /\
    Adv.result_conflicts r = [Adv.complexity_conflict; Adv.mismatch_conflict] /\
    Adv.needsConfirmation r = true.
Proof. vm_compute. eexists _, _. repeat split. Qed.

(** C7 fails on the code.  Whenever the model answers both calls with
    text that holds no [{...}], [parseJSON] swallows its own
    "No JSON found" error and returns the empty object, so the extraction
    step never reaches [fallbackExtraction] and the task of the result has
    no title at all, whatever the input. *)
Theorem C7_no_json_leaves_title_undefined {RT : Runtime}
    (c : client) (input userId text0 text1 : jsstring) :
  c 0%nat = Responds text0 -> c 1%nat = Responds text1 ->
  match_braces text0 = None -> match_braces text1 = None ->
  exists r w',
    run (TC.execute input userId) c = (Returned r, w') /\
    title (TC.result_task r) = Undefined.
Proof.
  intros H0 H1 M0 M1.
  unfold run. rewrite TaskCreationFacts.execute_unfold.
  unfold TC.steps, TC.extractDetailedInformation, TC.analyzeTaskComplexity,
    TC.parseJSON, bind, try_catch, logger, ollama_generate, lift, throw, ret.
  cbn [calls logged log_to start].
  rewrite H0, M0. cbv beta iota.
  change (TC.calculateExtractionConfidence [] input) with (Returned n0_5).
  cbv beta iota.
  change (TC.complexity_prompt (set [] (js "confidence") (Num n0_5)))
    with (Returned tt).
  cbv beta iota. cbn [calls logged log_to]. rewrite H1, M1. cbv beta iota.
  match goal with
  | |- context [TC.validateAndSuggest ?e ?a c ?w0] =>
      destruct (proj2 (TaskCreationFacts.validateAndSuggest_returns_iff e a c w0))
        as (r & w' & E);
        [ repeat split; try reflexivity; exists MEDIUM; reflexivity | ];
      destruct (TaskCreationFacts.validateAndSuggest_returned _ _ _ _ _ _ E)
        as (_ & _ & _ & Ht & _)
  end.
  rewrite E. exists r, w'. split; [reflexivity|].
  rewrite Ht. reflexivity.
Qed.

(** C7 on a non-empty input and a model that answers in prose. *)
Lemma C7_witness :
  exists r w',
    run (TC.execute (RT := Scenario.runtime) Scenario.meeting Scenario.user1)
      Scenario.prose = (Returned r, w') /\
    title (TC.result_task r) = Undefined.
Proof.
  apply (C7_no_json_leaves_title_undefined (RT := Scenario.runtime)
           Scenario.prose Scenario.meeting Scenario.user1
           (js "죄송합니다, 잘 모르겠습니다.") (js "죄송합니다, 잘 모르겠습니다."));
    vm_compute; reflexivity.
Defined.




(** C9, as the specification states it, fails: when the model call of the
    extraction step fails, [TaskCreationWorkflow] falls back to
    [fallbackExtraction], whose tags are always empty; ["긴급"] is a hash
    word of the example input and is not among them. *)
Lemma C9_counterexample :
  ~ (forall (RT : Runtime) (c : client) (input t : jsstring) (err : error)
            (e : object) (w : world),
       c 0%nat = Rejects err ->
       run (TC.extractDetailedInformation input) c = (Returned e, w) ->
       Spec.hash_tag_of input t ->
       exists items,
         get e (js "tags") = Arr items /\ In (Str t) items).
Proof.
  intros H.
  assert (Ht : Spec.hash_tag_of Scenario.meeting (js "긴급")).
  { apply SplitFacts.fallbackParsing_tags_spec. vm_compute. left. reflexivity. }
  assert (E : exists e w,
             run (TC.extractDetailedInformation (RT := Scenario.runtime)
                    Scenario.meeting) Scenario.outage = (Returned e, w) /\
             get e (js "tags") = Arr [])
    by (vm_compute; eexists _, _; split; reflexivity).
  destruct E as (e & w & E & Htags).
  destruct (H Scenario.runtime Scenario.outage Scenario.meeting (js "긴급")
              Scenario.connection_refused e w eq_refl E Ht)
    as (items & Hi & Hin).
  rewrite Htags in Hi. injection Hi as <-. destruct Hin.
Qed.

(** C9, amended.  The keyword fallback of [AiService] yields as tags
    exactly the words of the input that start with a hash, with the hash
    stripped; on "회의 준비 #긴급 #보고서" these are "긴급" and "보고서".
    The fallback of [TaskCreationWorkflow] yields no tags. *)
Theorem C9_fallback_tags (input t : jsstring) :
  (In t (AiService.fallbackParsing_tags input) <-> Spec.hash_tag_of input t) /\
  AiService.fallbackParsing_tags Scenario.meeting = [js "긴급"; js "보고서"] /\
  get (TC.fallbackExtraction input) (js "tags") = Arr [].
Proof.
  split; [apply SplitFacts.fallbackParsing_tags_spec|].
  split; [vm_compute; reflexivity | reflexivity].
Qed.

(** C9 on the example input: "보고서" is one of its hash words. *)
Lemma C9_witness : Spec.hash_tag_of Scenario.meeting (js "보고서").
Proof.
  apply (proj1 (proj1 (C9_fallback_tags Scenario.meeting (js "보고서")))).
  vm_compute. right. left. reflexivity.
Defined.

(** C10.  The result of [TaskCreationWorkflow.execute] does not depend on
    [userId]: on the same answers of the completion client, two runs that
    differ in [userId] return the same outcome after the same number of
    calls, and their logs differ in the first line only. *)
Theorem C10_result_independent_of_userId {RT : Runtime}
    (c : client) (input userId1 userId2 : jsstring) :
  exists o k lines,
    run (TC.execute input userId1) c
      = (o, mkWorld k (mkLog DEBUG (TC.start_message input userId1) :: lines)) /\
    run (TC.execute input userId2) c
      = (o, mkWorld k (mkLog DEBUG (TC.start_message input userId2) :: lines)).
Proof.
  assert (Hob : oblivious
                  (try_catch (TC.steps input)
                     (fun error =>
                        logger ERROR (js "Task creation workflow failed: "
                                      ++ JsValue.message error) ;;
                        ret (TC.degraded input)))).
  { repeat oblivious_step. apply TaskCreationFacts.steps_oblivious. }
  destruct (Hob c 0%nat) as (o & k & lines & E).
  exists o, k, lines.
  unfold run, TC.execute, bind, logger, start, log_to.
  cbn [calls logged app]. split; apply (E [_]).
Qed.

Import TaskCreationFacts AdvancedFacts.

(* ================================================================== *)
(** * Titles and the JSON candidate                                    *)
(* ================================================================== *)

Module TextProperties.

Lemma upto_last_rbrace_none (s : jsstring) :
  upto_last_rbrace s = None <-> ~ In rbrace s.
Proof.
  induction s as [|c s IH]; simpl.
  - split; [intros _ []|reflexivity].
  - destruct (upto_last_rbrace s) as [r|].
    + split; [discriminate|]. intros H. exfalso.
      assert (E : Some r = None) by (apply IH; intros Hin; apply H; now right).
      discriminate E.
    + destruct (N.eqb_spec c rbrace) as [->|Hne].
      * split; [discriminate|]. intros H. exfalso. apply H. now left.
      * split; [|reflexivity]. intros _ [Hc|Hin]; [congruence|].
        now apply (proj1 IH).
Qed.

Lemma upto_last_rbrace_some (s r : jsstring) :
  upto_last_rbrace s = Some r <->
  exists body post,
    s = body ++ rbrace :: post /\ r = body ++ [rbrace] /\ ~ In rbrace post.
Proof.
  split.
  - revert r. induction s as [|c s IH]; simpl; intros r H; [discriminate|].
    destruct (upto_last_rbrace s) as [r'|] eqn:E.
    + injection H as <-.
      destruct (IH r' eq_refl) as (body & post & -> & -> & Hp).
      exists (c :: body), post. auto.
    + destruct (N.eqb_spec c rbrace) as [->|Hne]; [|discriminate].
      injection H as <-. exists [], s. repeat split.
      now apply upto_last_rbrace_none.
  - intros (body & post & -> & -> & Hp).
    induction body as [|b body IH]; simpl.
    + rewrite (proj2 (upto_last_rbrace_none post) Hp).
      reflexivity.
    + now rewrite IH.
Qed.

(** X3 ([parseJSON], the pattern [/\{[\s\S]*\}/]).  The JSON candidate
    handed to [JSON.parse] runs from the first opening brace of the
    answer to the last closing brace after it; there is a candidate
    exactly when a closing brace follows the first opening one. *)
Theorem match_braces_first_to_last (s m : jsstring) :
  match_braces s = Some m <->
  exists pre body post,
    s = pre ++ lbrace :: body ++ rbrace :: post /\
    m = lbrace :: body ++ [rbrace] /\
    ~ In lbrace pre /\ ~ In rbrace post.
Proof.
  split.
  - revert m. induction s as [|c s IH]; simpl; intros m H; [discriminate|].
    destruct (N.eqb_spec c lbrace) as [->|Hne].
    + destruct (upto_last_rbrace s) as [r|] eqn:E; [|discriminate].
      injection H as <-.
      apply upto_last_rbrace_some in E. destruct E as (body & post & -> & -> & Hp).
      exists [], body, post. repeat split; auto.
    + destruct (IH m H) as (pre & body & post & -> & -> & Hpre & Hpost).
      exists (c :: pre), body, post. repeat split; auto.
      intros [Hc|Hin]; [congruence|contradiction].
  - intros (pre & body & post & -> & -> & Hpre & Hpost).
    induction pre as [|p pre IH]; simpl.
    + rewrite (proj2 (upto_last_rbrace_some (body ++ rbrace :: post)
                        (body ++ [rbrace]))); [reflexivity|].
      exists body, post. auto.
    + destruct (N.eqb_spec p lbrace) as [->|Hne].
      * exfalso. apply Hpre. now left.
      * apply IH. intros Hin. apply Hpre. now right.
Qed.

Lemma truncated_title_nonempty (input : jsstring) :
  input <> [] -> truncated_title input <> [].
Proof.
  unfold truncated_title, slice0. intros Hne.
  destruct (50 <? List.length input)%nat; [|exact Hne].
  intros H. apply app_eq_nil in H. destruct H as [_ H]. discriminate H.
Qed.

Lemma truthy_or_right (a b : value) : truthy b = true -> truthy (or a b) = true.
Proof. intros H. unfold or. destruct (truthy a) eqn:E; assumption. Qed.

Lemma truthy_nonempty (s : jsstring) : s <> [] -> truthy (Str s) = true.
Proof. destruct s; [congruence|reflexivity]. Qed.

(** X2 (the title of every fallback: [fallbackExtraction],
    [createBasicTask], [extractBasicInfo], [createFallbackResult]).  The
    derived title has at most 53 characters, agrees with the input on
    its first 50 characters, and is empty only for the empty input. *)
Theorem truncated_title_bounded (input : jsstring) :
  (List.length (truncated_title input) <= 53)%nat /\
  firstn 50 (truncated_title input) = firstn 50 input /\
  (truncated_title input = [] <-> input = []).
Proof.
  unfold truncated_title, slice0.
  destruct (Nat.ltb_spec 50 (List.length input)) as [Hlt|Hge].
  - repeat split.
    + rewrite length_app, length_firstn.
      change (List.length (js "...")) with 3%nat. lia.
    + rewrite firstn_app, length_firstn, firstn_firstn.
      replace (50 - Nat.min 50 (List.length input))%nat with 0%nat by lia.
      replace (Nat.min 50 50) with 50%nat by reflexivity.
      simpl. apply app_nil_r.
    + intros H. apply app_eq_nil in H. destruct H as [_ H]. discriminate H.
    + intros ->. simpl in Hlt. lia.
  - repeat split; auto; lia.
Qed.

End TextProperties.

(* ================================================================== *)
(** * Further properties of [TaskCreationWorkflow]                     *)
(* ================================================================== *)

Module TaskCreationProperties.

Section Properties.
Context {RT : Runtime}.

(** [v && v.length > n] throws exactly when [v] is truthy and its
    [length] does not convert. *)
Lemma longer_than_returns (v : value) (n : number) :
  (exists b, TC.longer_than v n = Returned b) <->
  (truthy v = true -> converts (length_of v) = true).
Proof.
  unfold TC.longer_than. conversions.
  destruct (truthy v); [destruct (converts (length_of v))|]; split;
    try (intros _; eauto; fail);
    try (intros _ H; discriminate H);
    try (intros (b & H); discriminate H).
  intros H. discriminate (H eq_refl).
Qed.

(** The extraction confidence starts from 0.5 and only grows. *)
Lemma extraction_confidence_at_least_half (extractedInfo : object)
    (originalInput : jsstring) (x : number) :
  TC.calculateExtractionConfidence extractedInfo originalInput = Returned x ->
  JsNumber.leb n0_5 x = true /\ JsNumber.ltb x n1 = true.
Proof.
  intros H.
  destruct (calculateExtractionConfidence_sums _ _ _ H)
    as (clear & detailed & due & tagged & ->).
  destruct clear, detailed, due, tagged; split; vm_compute; reflexivity.
Qed.

(** X1 ([calculateExtractionConfidence]).  The extraction confidence is
    computed unless the [length] of a truthy title, description or tags
    does not convert to a primitive, in which case the comparison throws.
    When it is computed it is at least 0.5 and strictly below 1: with all
    four signals present the sum of the doubles 0.5, 0.2, 0.1, 0.1 and
    0.1 is 0.9999999999999999, so the cap [Math.min(confidence, 1.0)]
    never applies. *)
Theorem extraction_confidence_range (extractedInfo : object)
    (originalInput : jsstring) :
  ((exists x,
      TC.calculateExtractionConfidence extractedInfo originalInput
      = Returned x) <->
   (truthy (get extractedInfo (js "title")) = true ->
    converts (length_of (get extractedInfo (js "title"))) = true) /\
   (truthy (get extractedInfo (js "description")) = true ->
    converts (length_of (get extractedInfo (js "description"))) = true) /\
   (truthy (get extractedInfo (js "tags")) = true ->
    converts (length_of (get extractedInfo (js "tags"))) = true)) /\
  (forall x,
     TC.calculateExtractionConfidence extractedInfo originalInput
     = Returned x ->
     JsNumber.leb n0_5 x = true /\ JsNumber.ltb x n1 = true).
Proof.
  split; [|intros x H;
           destruct (calculateExtractionConfidence_sums _ _ _ H)
             as (clear & detailed & due & tagged & ->);
           destruct clear, detailed, due, tagged; split; vm_compute;
           reflexivity].
  rewrite <- (longer_than_returns (get extractedInfo (js "title")) n5),
    <- (longer_than_returns (get extractedInfo (js "description")) n10),
    <- (longer_than_returns (get extractedInfo (js "tags")) n0).
  unfold TC.calculateExtractionConfidence.
  destruct (TC.longer_than (get extractedInfo (js "title")) n5)
    as [clear|err];
    [|split; [intros (x & H); discriminate H
             |intros ((b & H) & _); discriminate H]].
  destruct (TC.longer_than (get extractedInfo (js "description")) n10)
    as [detailed|err];
    [|split; [intros (x & H); discriminate H
             |intros (_ & (b & H) & _); discriminate H]].
  destruct (TC.longer_than (get extractedInfo (js "tags")) n0)
    as [tagged|err];
    [|split; [intros (x & H); discriminate H
             |intros (_ & _ & b & H); discriminate H]].
  split; eauto 10.
Qed.

(** One run of the extraction step: it consumes one completion, and
    what it returns is read off that completion. *)
Lemma extractDetailedInformation_run (input : jsstring) (c : client)
    (w : world) :
  exists e w1,
    TC.extractDetailedInformation input c w = (Returned e, w1) /\
    calls w1 = S (calls w) /\
    match c (calls w) with
    | Rejects _ => e = TC.fallbackExtraction input
    | Responds text =>
        exists o,
          (o = [] \/
           exists m, match_braces text = Some m /\ JSON_parse m = Returned o) /\
          match TC.calculateExtractionConfidence o input with
          | Returned x => e = set o (js "confidence") (Num x)
          | Thrown _ => e = TC.fallbackExtraction input
          end
    end.
Proof.
  unfold TC.extractDetailedInformation.
  cbv [bind try_catch logger lift ollama_generate ret log_to].
  cbn [calls logged].
  destruct (c (calls w)) as [err|text].
  - eexists _, _. repeat split.
  - match goal with |- context [TC.parseJSON text c ?w0] =>
      destruct (parseJSON_cases text c w0) as (o & w1 & Ep & Hc & Ho)
    end.
    rewrite Ep.
    destruct (TC.calculateExtractionConfidence o input) as [x|err] eqn:Ex;
      eexists _, _; (split; [reflexivity|]); (split; [exact Hc|]);
      exists o; (split; [exact Ho|]); rewrite Ex; reflexivity.
Qed.

(** [a + b] for a text [b] is a text. *)
Lemma plus_text (a : value) (b : jsstring) :
  exists t, plus a (Str b) = Str t.
Proof.
  unfold plus. change (to_primitive (Str b)) with (Str b).
  destruct (to_primitive a); eexists; reflexivity.
Qed.

(** A converted [v || d] for a text [d]: the other texts convert too. *)
Lemma converts_or_text (v : value) (d d' : jsstring) :
  converts (or v (Str d)) = true -> converts (or v (Str d')) = true.
Proof. unfold or. destruct (truthy v); [trivial|reflexivity]. Qed.

(** Where the prompt of the analysis step can be built, the keyword
    analysis can be made. *)
Lemma prompt_allows_keyword_analysis (e : object) :
  TC.complexity_prompt e = Returned tt ->
  exists text,
    TC.fallbackPriorityAnalysis e = Returned (TC.keyword_analysis text).
Proof.
  unfold TC.complexity_prompt, TC.fallbackPriorityAnalysis. conversions.
  destruct (converts (get e (js "title"))); [|discriminate].
  destruct (converts (or (get e (js "description")) (Str (js "없음"))))
    eqn:Ed; [|discriminate].
  intros _. rewrite (converts_or_text _ _ [] Ed).
  destruct (plus_text (get e (js "title")) (js " ")) as (head & ->).
  eexists. reflexivity.
Qed.

(** One run of the analysis step: building the prompt throws before any
    completion is requested, or one completion is consumed. *)
Lemma analyzeTaskComplexity_run (e : object) (input : jsstring) (c : client)
    (w : world) :
  match TC.complexity_prompt e with
  | Thrown err =>
      exists w1,
        TC.analyzeTaskComplexity e input c w = (Thrown err, w1) /\
        calls w1 = calls w
  | Returned _ =>
      exists a w1,
        TC.analyzeTaskComplexity e input c w = (Returned a, w1) /\
        calls w1 = S (calls w) /\
        match c (calls w) with
        | Rejects _ =>
            exists text,
              TC.fallbackPriorityAnalysis e
              = Returned (TC.keyword_analysis text) /\
              a = TC.keyword_analysis text
        | Responds text =>
            a = [] \/
            exists m, match_braces text = Some m /\ JSON_parse m = Returned a
        end
  end.
Proof.
  pose proof (prompt_allows_keyword_analysis e) as Hk.
  unfold TC.analyzeTaskComplexity.
  cbv [bind try_catch logger lift ollama_generate ret log_to].
  cbn [calls logged].
  destruct (TC.complexity_prompt e) as [[]|err].
  - destruct (c (calls w)) as [err|text].
    + destruct (Hk eq_refl) as (text & Ek). rewrite Ek.
      eexists _, _. repeat split. eauto.
    + match goal with |- context [TC.parseJSON text c ?w0] =>
        destruct (parseJSON_cases text c w0) as (o & w1 & Ep & Hc & Ho)
      end.
      rewrite Ep. exists o, w1. repeat split; [exact Hc|exact Ho].
  - eexists. split; reflexivity.
Qed.

Lemma validateAndSuggest_calls (e a : object) (c : client) (w : world)
    (o : outcome TC.TaskCreationResult) (w' : world) :
  TC.validateAndSuggest e a c w = (o, w') -> calls w' = calls w.
Proof.
  destruct o as [r|err].
  - intros H.
    destruct (validateAndSuggest_task _ _ _ _ _ _ H) as (_ & _ & _ & ->).
    reflexivity.
  - unfold TC.validateAndSuggest, bind, logger, lift, ret. conversions.
    repeat match goal with
           | |- context [if ?b then _ else _] =>
               destruct b; cbv beta iota zeta
           end;
      (destruct (mapPriority (get a (js "priority"))) as [p|err'];
       cbv beta iota zeta);
      intros H; injection H as _ <-; reflexivity.
Qed.

(** X6 ([execute], [extractDetailedInformation], [analyzeTaskComplexity]).
    One request costs one or two completions, never more and never none;
    when only one was requested, the result is the degraded one. *)
Theorem execute_requests_one_or_two_completions (input userId : jsstring)
    (c : client) (w : world) :
  exists r w',
    TC.execute input userId c w = (Returned r, w') /\
    ((calls w' = calls w + 1 /\ r = TC.degraded input)
     \/ calls w' = calls w + 2)%nat.
Proof.
  rewrite execute_unfold. unfold TC.steps, bind.
  match goal with |- context [TC.extractDetailedInformation input c ?w0] =>
    destruct (extractDetailedInformation_run input c w0)
      as (e & w1 & Ee & Hc1 & _)
  end.
  rewrite Ee. cbn [log_to calls] in Hc1.
  pose proof (analyzeTaskComplexity_run e input c w1) as Ha.
  destruct (TC.complexity_prompt e) as [[]|err].
  - destruct Ha as (a & w2 & Ea & Hc2 & _). rewrite Ea.
    destruct (TC.validateAndSuggest e a c w2) as [[r|err] w3] eqn:Ev;
      apply validateAndSuggest_calls in Ev;
      eexists _, _; (split; [reflexivity|]); right; cbn [log_to calls]; lia.
  - destruct Ha as (w2 & Ea & Hc2). rewrite Ea.
    eexists _, _. split; [reflexivity|]. left. cbn [log_to calls].
    split; [lia|reflexivity].
Qed.

Lemma fallback_overallConfidence (input text : jsstring) :
  TC.overallConfidence (TC.fallbackExtraction input) (TC.keyword_analysis text)
  = n0_8.
Proof. vm_compute. reflexivity. Qed.

Lemma fallbackExtraction_prompt (input : jsstring) :
  TC.complexity_prompt (TC.fallbackExtraction input) = Returned tt.
Proof.
  unfold TC.complexity_prompt, TC.fallbackExtraction.
  destruct input as [|ch input]; [vm_compute; reflexivity|].
  destruct (100 <? List.length (ch :: input))%nat; vm_compute; reflexivity.
Qed.

(** The run of [execute] when every completion request is rejected. *)
Lemma execute_during_outage (c : client) (input userId : jsstring)
    (w : world) :
  (forall k, exists err, c k = Rejects err) ->
  exists r w' text,
    TC.execute input userId c w = (Returned r, w') /\
    title (TC.result_task r) = Str (truncated_title input) /\
    TC.confidence r = n0_8 /\
    TC.needsConfirmation r = false /\
    TC.suggestions r
    = (if strict_eq_str (get (TC.keyword_analysis text) (js "priority"))
            (js "high")
       then [msg_set_due_date] else []) /\
    TC.conflicts r = Some [] /\
    calls w' = (calls w + 2)%nat.
Proof.
  intros Hc. rewrite execute_unfold. unfold TC.steps, bind.
  match goal with |- context [TC.extractDetailedInformation input c ?w0] =>
    destruct (extractDetailedInformation_run input c w0)
      as (e & w1 & Ee & Hc1 & He);
    destruct (Hc (calls w0)) as (err0 & E0)
  end.
  rewrite Ee. rewrite E0 in He. subst e. cbn [log_to calls] in Hc1.
  pose proof (analyzeTaskComplexity_run (TC.fallbackExtraction input) input
                c w1) as Ha.
  rewrite fallbackExtraction_prompt in Ha.
  destruct Ha as (a & w2 & Ea & Hc2 & Ha). rewrite Ea.
  destruct (Hc (calls w1)) as (err1 & E1). rewrite E1 in Ha.
  destruct Ha as (text & _ & ->).
  destruct (proj2 (validateAndSuggest_returns_iff (TC.fallbackExtraction input)
                     (TC.keyword_analysis text) c w2)) as (r & w3 & Ev).
  { repeat split; try reflexivity.
    all: destruct (keyword_analysis_priority text) as (p & ->).
    all: apply mapPriority_string. }
  rewrite Ev. exists r, w3, text. split; [reflexivity|].
  pose proof (validateAndSuggest_calls _ _ _ _ _ _ Ev) as Hc3.
  destruct (validateAndSuggest_returned _ _ _ _ _ _ Ev)
    as (Hconf & Hneeds & Hconfl & Htitle & _).
  rewrite fallback_overallConfidence in Hconf, Hneeds.
  repeat split.
  - rewrite Htitle. reflexivity.
  - exact Hconf.
  - rewrite Hneeds.
    change (JsNumber.ltb n0_8 n0_6) with false.
    change (JsNumber.ltb n0_8 n0_8) with false.
    rewrite andb_false_r. reflexivity.
  - revert Ev. unfold TC.validateAndSuggest, bind, logger, lift, ret.
    conversions.
    rewrite fallback_overallConfidence.
    change (JsNumber.ltb n0_8 n0_6) with false.
    change (JsNumber.ltb n0_8 n0_8) with false.
    rewrite andb_false_r.
    change (truthy (get (TC.fallbackExtraction input) (js "dueDate")))
      with false.
    change (ge (get (TC.fallbackExtraction input) (js "complexity")) (Num n4))
      with false.
    change (gt (get (TC.fallbackExtraction input) (js "estimatedDuration"))
              (Num n240)) with false.
    change (converts (or (get (TC.fallbackExtraction input) (js "confidence"))
                         (Num n0_5))) with true.
    change (converts (or (get (TC.keyword_analysis text) (js "confidence"))
                         (Num n0_5))) with true.
    change (converts (get (TC.fallbackExtraction input) (js "complexity")))
      with true.
    change (converts (get (TC.fallbackExtraction input)
                        (js "estimatedDuration"))) with true.
    cbv beta iota zeta.
    destruct (mapPriority _) as [p|err]; cbv beta iota; intros H;
      [|discriminate H].
    injection H as <- _. cbn [TC.suggestions negb].
    rewrite andb_true_r. destruct (strict_eq_str _ _); reflexivity.
  - rewrite Hconfl. reflexivity.
  - lia.
Qed.

(** X4 ([execute] with [fallbackExtraction] and
    [fallbackPriorityAnalysis]).  When every completion request is
    rejected the workflow does not degrade: both steps fall back, the
    confidences 0.3 and 0.5 add up to 0.8, and the task, titled with
    the truncated input, is returned without a request for
    confirmation, without conflicts, and with no suggestion other than,
    for a priority of high, the one to set a due date. *)
Theorem outage_is_not_flagged (c : client) (input userId : jsstring) :
  (forall k, exists err, c k = Rejects err) ->
  exists r w',
    run (TC.execute input userId) c = (Returned r, w') /\
    title (TC.result_task r) = Str (truncated_title input) /\
    TC.confidence r = n0_8 /\
    TC.needsConfirmation r = false /\
    ~ In msg_error_occurred (TC.suggestions r) /\
    TC.conflicts r = Some [] /\
    calls w' = 2%nat.
Proof.
  intros Hc. unfold run.
  destruct (execute_during_outage c input userId start Hc)
    as (r & w' & text & E & Htitle & Hconf & Hneeds & Hsugg & Hconfl & Hcalls).
  exists r, w'. repeat split; try assumption.
  rewrite Hsugg. destruct (strict_eq_str _ _).
  - intros [H|[]]. vm_compute in H. discriminate H.
  - intros [].
Qed.

(** X5 ([validateAndSuggest] within [execute]).  A result that carries
    a conflict always asks for confirmation, and the only conflict the
    workflow ever reports is the resource conflict of a task estimated
    above 240 minutes. *)
Theorem conflict_needs_confirmation (input userId : jsstring) (c : client)
    (w : world) (r : TC.TaskCreationResult) (w' : world)
    (k : TC.conflict) (rest : list TC.conflict) :
  TC.execute input userId c w = (Returned r, w') ->
  TC.conflicts r = Some (k :: rest) ->
  TC.needsConfirmation r = true /\ k = TC.resource_conflict /\ rest = [].
Proof.
  intros He Hk.
  destruct (execute_cases _ _ _ _ _ _ He)
    as [->|(e & a & x & w1 & _ & _ & _ & _ & Ev)]; [discriminate Hk|].
  destruct (validateAndSuggest_returned _ _ _ _ _ _ Ev)
    as (_ & Hneeds & Hconfl & _).
  rewrite Hconfl in Hk.
  destruct (gt (get e (js "estimatedDuration")) (Num n240));
    [|discriminate Hk].
  injection Hk as <- <-. rewrite Hneeds.
  rewrite orb_true_r. auto.
Qed.

(** X7 ([extractDetailedInformation] into [validateAndSuggest]).  When
    both answers parse and the extraction confidence can be computed,
    the result is the degraded one (a conversion, or [mapPriority], threw
    on what the model answered), or its task takes its title from the
    extraction answer and its priority from the analysis answer, and the
    overall confidence is computed from [calculateExtractionConfidence]:
    a confidence reported by the extraction answer itself is overwritten
    and never reaches the result. *)
Theorem reported_extraction_confidence_is_overwritten (c : client)
    (input userId text0 m0 text1 m1 : jsstring) (e a : object) (x : number) :
  c 0%nat = Responds text0 -> match_braces text0 = Some m0 ->
  JSON_parse m0 = Returned e ->
  c 1%nat = Responds text1 -> match_braces text1 = Some m1 ->
  JSON_parse m1 = Returned a ->
  TC.calculateExtractionConfidence e input = Returned x ->
  exists r w',
    run (TC.execute input userId) c = (Returned r, w') /\
    (r = TC.degraded input \/
     (title (TC.result_task r) = get e (js "title") /\
      mapPriority (get a (js "priority"))
        = Returned (priority (TC.result_task r)) /\
      TC.confidence r =
        Math_min (plus (Num x) (or (get a (js "confidence")) (Num n0_5)))
          (Num n1))).
Proof.
  intros E0 Em0 Ep0 E1 Em1 Ep1 Ex.
  unfold run. rewrite execute_unfold. unfold TC.steps, bind.
  unfold TC.extractDetailedInformation, TC.analyzeTaskComplexity, TC.parseJSON.
  cbv [bind try_catch logger lift ollama_generate ret log_to start].
  cbn [calls logged].
  rewrite E0, Em0, Ep0, Ex.
  destruct (TC.complexity_prompt (set e (js "confidence") (Num x)))
    as [[]|err]; [|eexists _, _; split; [reflexivity|left; reflexivity]].
  cbn [calls logged]. rewrite E1, Em1, Ep1.
  match goal with
  | |- context [TC.validateAndSuggest ?e1 a c ?w2] =>
      destruct (TC.validateAndSuggest e1 a c w2) as [[r|err] w3] eqn:Ev;
        [|eexists _, _; split; [reflexivity|left; reflexivity]]
  end.
  destruct (validateAndSuggest_returned _ _ _ _ _ _ Ev)
    as (Hconf & _ & _ & Htitle & _).
  destruct (validateAndSuggest_task _ _ _ _ _ _ Ev) as (Hmap & _).
  exists r, w3. split; [reflexivity|]. right. repeat split.
  - rewrite Htitle. reflexivity.
  - exact Hmap.
  - rewrite Hconf. unfold TC.overallConfidence.
    change (get (set e (js "confidence") (Num x)) (js "confidence"))
      with (Num x).
    replace (or (Num x) (Num n0_5)) with (Num x); [reflexivity|].
    unfold or, truthy.
    destruct (calculateExtractionConfidence_nonneg _ _ _ Ex) as (_ & ->).
    reflexivity.
Qed.

End Properties.

End TaskCreationProperties.

(* ================================================================== *)
(** * Further properties of [AdvancedTaskCreationWorkflow]             *)
(* ================================================================== *)

Module AdvancedProperties.

Import StateViews TextProperties.

(** Both sides of a relabelling, with the projections computed. *)
Ltac relabel :=
  cbv beta iota zeta delta [relabelled with_userId andb];
  cbn [Adv.input Adv.userId Adv.extractedInfo
       Adv.priorityAnalysis Adv.needsHumanReview Adv.conflicts
       Adv.suggestions Adv.finalTask Adv.confidence Adv.currentStep];
  reflexivity.

Section Properties.
Context {RT : Runtime}.

Lemma extractInformation_relabelled (u : jsstring)
    (st : Adv.TaskCreationState) (c : client) (w : world) :
  Adv.extractInformation (with_userId u st) c w
  = relabelled u (Adv.extractInformation st c w).
Proof.
  unfold Adv.extractInformation, try_catch, bind, logger, ret,
    ollama_generate.
  cbn [calls logged log_to].
  destruct (c (calls w)) as [err|text]; cbv beta iota; [relabel|].
  destruct (Adv.parseJSON text c _) as [[o|err] w1]; relabel.
Qed.

Lemma analyzePriority_relabelled (u : jsstring)
    (st : Adv.TaskCreationState) (c : client) (w : world) :
  Adv.analyzePriority (with_userId u st) c w
  = relabelled u (Adv.analyzePriority st c w).
Proof.
  unfold Adv.analyzePriority, try_catch, bind, logger, ret, lift,
    ollama_generate.
  cbn [calls logged log_to].
  change (Adv.priority_prompt (with_userId u st))
    with (Adv.priority_prompt st).
  destruct (Adv.priority_prompt st); cbv beta iota; [|relabel].
  destruct (c (calls w)) as [err|text]; cbv beta iota; [relabel|].
  destruct (Adv.parseJSON text c _) as [[o|err] w1]; [|relabel].
  change (Adv.confidence (with_userId u st)) with (Adv.confidence st).
  destruct (sum _ _); relabel.
Qed.

Lemma detectConflicts_relabelled (u : jsstring)
    (st : Adv.TaskCreationState) (c : client) (w : world) :
  Adv.detectConflicts (with_userId u st) c w
  = relabelled u (Adv.detectConflicts st c w).
Proof.
  unfold Adv.detectConflicts, bind, logger, lift, ret, with_userId,
    relabelled.
  cbn [Adv.extractedInfo Adv.priorityAnalysis Adv.suggestions].
  destruct (at_least (opt_get (Adv.extractedInfo st) (js "complexity"))
              (Num n4)) as [[]|]; [| |relabel];
    (destruct (greater (opt_get (Adv.extractedInfo st)
                          (js "estimatedDuration")) (Num n240)) as [[]|];
     [| |relabel]);
    destruct (strict_eq_str
                (opt_get (Adv.priorityAnalysis st) (js "priority"))
                (js "urgent"));
    relabel.
Qed.

Lemma validateAndFinalize_relabelled (u : jsstring)
    (st : Adv.TaskCreationState) (c : client) (w : world) :
  Adv.validateAndFinalize (with_userId u st) c w
  = relabelled u (Adv.validateAndFinalize st c w).
Proof.
  unfold Adv.validateAndFinalize, bind, logger, lift, ret, with_userId.
  cbn [Adv.extractedInfo Adv.priorityAnalysis Adv.suggestions
       Adv.confidence Adv.conflicts Adv.input Adv.currentStep].
  destruct (less (Adv.confidence st) (Num n0_6)) as [[]|]; [| |relabel];
    destruct (strict_eq_str
                (opt_get (Adv.priorityAnalysis st) (js "priority"))
                (js "urgent"));
    cbv beta iota zeta;
    try (destruct (less (Adv.confidence st) (Num n0_8)) as [[]|];
         [| |relabel]);
    destruct (strict_eq_str
                (opt_get (Adv.priorityAnalysis st) (js "priority"))
                (js "high"));
    destruct (truthy (opt_get (Adv.extractedInfo st) (js "dueDate")));
    destruct (existsb Adv.is_high (Adv.conflicts st));
    cbv beta iota zeta;
    (destruct (mapPriority _) as [p|err]; [|relabel]);
    destruct (optional_date _); relabel.
Qed.

Lemma stages_relabelled (u : jsstring) (st : Adv.TaskCreationState)
    (c : client) (w : world) :
  Adv.stages (with_userId u st) c w = relabelled u (Adv.stages st c w).
Proof.
  unfold Adv.stages, bind.
  rewrite extractInformation_relabelled.
  destruct (Adv.extractInformation st c w) as [[s1|err] w1];
    [|reflexivity]. cbn [relabelled].
  rewrite analyzePriority_relabelled.
  destruct (Adv.analyzePriority s1 c w1) as [[s2|err] w2];
    [|reflexivity]. cbn [relabelled].
  rewrite detectConflicts_relabelled.
  destruct (Adv.detectConflicts s2 c w2) as [[s3|err] w3];
    [|reflexivity]. cbn [relabelled].
  apply validateAndFinalize_relabelled.
Qed.

(** X8 ([execute] and its four stages).  The [userId] takes no part in
    the advanced workflow: with the same completions, two users get the
    same result, the same number of requests and the same log lines. *)
Theorem advanced_execute_ignores_userId (input userId1 userId2 : jsstring)
    (c : client) (w : world) :
  Adv.execute input userId1 c w = Adv.execute input userId2 c w.
Proof.
  rewrite !advanced_execute_unfold.
  change (Adv.initialState input userId1)
    with (with_userId userId1 (Adv.initialState input userId2)).
  rewrite stages_relabelled.
  destruct (Adv.stages (Adv.initialState input userId2) c _)
    as [[s|err] w1]; reflexivity.
Qed.


(** What [validateAndFinalize] leaves in the state besides the fields
    of [validateAndFinalize_returned]. *)
Lemma validateAndFinalize_messages (st : Adv.TaskCreationState) (c : client)
    (w : world) (s4 : Adv.TaskCreationState) (w4 : world) :
  Adv.validateAndFinalize st c w = (Returned s4, w4) ->
  Adv.currentStep s4 = js "finalized" /\
  (lt (Adv.confidence st) (Num n0_6) = true ->
   In msg_be_specific (Adv.suggestions s4)) /\
  (existsb Adv.is_high (Adv.conflicts st) = true ->
   In msg_high_risk (Adv.suggestions s4)).
Proof.
  unfold Adv.validateAndFinalize, bind, logger, lift, ret. conversions.
  converting (Adv.confidence st).
  destruct (lt (Adv.confidence st) (Num n0_6));
    destruct (strict_eq_str
                (opt_get (Adv.priorityAnalysis st) (js "priority"))
                (js "urgent"));
    destruct (lt (Adv.confidence st) (Num n0_8));
    destruct (strict_eq_str
                (opt_get (Adv.priorityAnalysis st) (js "priority"))
                (js "high"));
    destruct (truthy (opt_get (Adv.extractedInfo st) (js "dueDate")));
    destruct (existsb Adv.is_high (Adv.conflicts st));
    cbv beta iota zeta;
    (destruct (mapPriority _) as [p|err];
     cbv beta iota; [|intros H; discriminate H]);
    try converting (opt_get (Adv.extractedInfo st) (js "dueDate"));
    intros H; injection H as <- <-;
    cbn [Adv.currentStep Adv.suggestions andb];
    repeat split; intros; try discriminate; in_appended.
Qed.

(** X11 ([detectConflicts] and [validateAndFinalize] within [execute]).
    A result that carries a conflict of severity high always asks for
    confirmation and says so among its suggestions. *)
Theorem high_severity_is_always_flagged (input userId : jsstring)
    (c : client) (w : world) (r : Adv.TaskCreationResult) (w' : world) :
  Adv.execute input userId c w = (Returned r, w') ->
  existsb Adv.is_high (Adv.result_conflicts r) = true ->
  Adv.needsConfirmation r = true /\
  In msg_high_risk (Adv.result_suggestions r).
Proof.
  intros He Hhigh.
  destruct (advanced_execute_cases _ _ _ _ _ _ He)
    as [->|(s1 & w1 & s2 & w2 & s3 & w3 & s4 & _ & _ & _ & E4 & ->)];
    [discriminate Hhigh|].
  destruct (validateAndFinalize_returned _ _ _ _ _ E4)
    as (_ & Hconfl & Hneeds & _).
  destruct (validateAndFinalize_messages _ _ _ _ _ E4) as (_ & _ & Hmsg).
  cbn [Adv.result_of Adv.result_conflicts Adv.needsConfirmation
       Adv.result_suggestions] in *.
  rewrite Hconfl in Hhigh. split; [|exact (Hmsg Hhigh)].
  rewrite Hneeds, Hhigh. apply orb_true_r.
Qed.

(** X12 ([detectConflicts] within [execute]).  The conflicts of a result
    are, in this order, the complexity, the duration and the mismatch
    signal, each at most once; the mismatch signal never comes without
    the complexity signal. *)
Theorem conflicts_have_one_shape (input userId : jsstring) (c : client)
    (w : world) :
  exists r w',
    Adv.execute input userId c w = (Returned r, w') /\
    exists complex long mismatch : bool,
      Adv.result_conflicts r
      = (if complex then [Adv.complexity_conflict] else [])
        ++ (if long then [Adv.duration_conflict] else [])
        ++ (if mismatch then [Adv.mismatch_conflict] else []) /\
      implb mismatch complex = true.
Proof.
  destruct (advanced_execute_returns input userId c w) as (r & w' & He).
  exists r, w'. split; [exact He|].
  destruct (advanced_execute_cases _ _ _ _ _ _ He)
    as [->|(s1 & w1 & s2 & w2 & s3 & w3 & s4 & _ & _ & E3 & E4 & ->)].
  - exists false, false, false. split; reflexivity.
  - destruct (validateAndFinalize_returned _ _ _ _ _ E4) as (_ & Hconfl & _).
    destruct (detectConflicts_returned _ _ _ _ _ E3)
      as (_ & _ & _ & _ & Hsig).
    cbn [Adv.result_of Adv.result_conflicts].
    rewrite Hconfl, Hsig. unfold Adv.signals.
    eexists _, _, _. split; [reflexivity|].
    destruct (strict_eq_str _ _), (ge _ _); reflexivity.
Qed.

(** X10 ([validateAndFinalize], [createBasicTask] within [execute]).
    The advanced workflow always returns a task, and for a non-empty
    input its title is never empty or missing: a title the model left
    out is replaced by the input. *)
Theorem advanced_task_is_always_titled (input userId : jsstring)
    (c : client) (w : world) :
  input <> [] ->
  exists r w' t,
    Adv.execute input userId c w = (Returned r, w') /\
    Adv.result_task r = Some t /\
    truthy (title t) = true /\
    (Adv.workflowPath r = [js "finalized"] \/ r = Adv.degraded input).
Proof.
  intros Hne.
  destruct (advanced_execute_returns input userId c w) as (r & w' & He).
  destruct (advanced_execute_cases _ _ _ _ _ _ He)
    as [->|(s1 & w1 & s2 & w2 & s3 & w3 & s4 & E1 & E2 & E3 & E4 & ->)].
  - eexists _, _, _. split; [exact He|]. split; [reflexivity|].
    split; [|now right].
    cbn [Adv.createBasicTask title].
    apply truthy_nonempty, truncated_title_nonempty, Hne.
  - destruct (validateAndFinalize_returned _ _ _ _ _ E4)
      as (_ & _ & _ & _ & t & Ht & Htitle).
    destruct (validateAndFinalize_messages _ _ _ _ _ E4) as (Hstep & _).
    exists (Adv.result_of s4), w', t. split; [exact He|].
    split; [exact Ht|].
    split; [|left; cbn [Adv.result_of Adv.workflowPath]; now rewrite Hstep].
    rewrite Htitle. apply truthy_or_right, truthy_nonempty.
    destruct (detectConflicts_returned _ _ _ _ _ E3) as (Hin3 & _).
    destruct (analyzePriority_cases _ _ _ _ _ E2) as (Hin2 & _).
    destruct (extractInformation_cases (Adv.initialState input userId) c
                (log_to w DEBUG (Adv.start_message input)))
      as (s1' & w1' & E1' & Hin1 & _).
    rewrite E1 in E1'. injection E1' as <- <-.
    rewrite Hin3, Hin2, Hin1. exact Hne.
Qed.

(** The extraction stage when the completion request is rejected. *)
Lemma extractInformation_rejected (st : Adv.TaskCreationState) (c : client)
    (w : world) (err : error) :
  c (calls w) = Rejects err ->
  exists s1 w1,
    Adv.extractInformation st c w = (Returned s1, w1) /\
    Adv.input s1 = Adv.input st /\
    Adv.extractedInfo s1
    = Some [ (js "title", Str (Adv.input st));
             (js "confidence", Num n0_2);
             (js "complexity", Num n2);
             (js "estimatedDuration", Num n30) ] /\
    Adv.confidence s1 = Num n0_2.
Proof.
  intros Hc.
  unfold Adv.extractInformation, try_catch, bind, logger, ret,
    ollama_generate.
  cbn [calls logged log_to]. rewrite Hc. cbv beta iota.
  eexists _, _. repeat split.
Qed.

(** The priority stage when the completion request is rejected. *)
Lemma analyzePriority_rejected (st : Adv.TaskCreationState) (c : client)
    (w : world) (err : error) :
  Adv.priority_prompt st = Returned tt ->
  c (calls w) = Rejects err ->
  exists s2 w2,
    Adv.analyzePriority st c w = (Returned s2, w2) /\
    Adv.input s2 = Adv.input st /\
    Adv.extractedInfo s2 = Adv.extractedInfo st /\
    Adv.priorityAnalysis s2
    = Some [ (js "priority", Str (js "medium"));
             (js "confidence", Num n0_3);
             (js "riskLevel", Str (js "medium")) ] /\
    Adv.confidence s2 = Adv.confidence st.
Proof.
  intros Hp Hc.
  unfold Adv.analyzePriority, try_catch, bind, logger, ret, lift,
    ollama_generate.
  cbn [calls logged log_to]. rewrite Hp. cbv beta iota. rewrite Hc.
  cbv beta iota. eexists _, _. repeat split.
Qed.

Lemma extractInformation_calls (st : Adv.TaskCreationState) (c : client)
    (w : world) (o : outcome Adv.TaskCreationState) (w1 : world) :
  Adv.extractInformation st c w = (o, w1) -> calls w1 = S (calls w).
Proof.
  unfold Adv.extractInformation, try_catch, bind, logger, ret,
    ollama_generate.
  cbn [calls logged log_to].
  destruct (c (calls w)) as [err|text]; cbv beta iota.
  - intros H; injection H as _ <-. reflexivity.
  - match goal with |- context [Adv.parseJSON text c ?w0] =>
      destruct (advanced_parseJSON_cases text c w0) as (o' & w' & Ep & Hc & _)
    end.
    rewrite Ep. intros H; injection H as _ <-. exact Hc.
Qed.

(** X9 ([execute] with the [catch] of [extractInformation] and of
    [analyzePriority]).  When every completion request is rejected the
    advanced workflow still finalizes a task titled with the whole
    input, but with confidence 0.2, no conflicts, and a request for
    confirmation asking for a more specific description. *)
Theorem advanced_outage_asks_for_confirmation (c : client)
    (input userId : jsstring) :
  (forall k, exists err, c k = Rejects err) ->
  exists r w' t,
    run (Adv.execute input userId) c = (Returned r, w') /\
    Adv.result_task r = Some t /\
    title t = Str input /\
    Adv.result_confidence r = Num n0_2 /\
    Adv.needsConfirmation r = true /\
    Adv.result_conflicts r = [] /\
    In msg_be_specific (Adv.result_suggestions r).
Proof.
  intros Hc. unfold run. rewrite advanced_execute_unfold.
  unfold Adv.stages, bind.
  match goal with |- context [Adv.extractInformation ?st c ?w0] =>
    destruct (Hc (calls w0)) as (err0 & E0);
    destruct (extractInformation_rejected st c w0 err0 E0)
      as (s1 & w1 & E1 & Hin1 & Hinfo1 & Hconf1)
  end.
  rewrite E1.
  destruct (Hc (calls w1)) as (err1 & Ec1).
  destruct (analyzePriority_rejected s1 c w1 err1)
    as (s2 & w2 & E2 & Hin2 & Hinfo2 & Hpri2 & Hconf2); [|exact Ec1|].
  { unfold Adv.priority_prompt. rewrite Hinfo1. reflexivity. }
  rewrite E2.
  destruct (proj2 (detectConflicts_returns_iff s2 c w2))
    as (s3 & w3 & E3).
  { rewrite Hinfo2, Hinfo1. split; reflexivity. }
  destruct (detectConflicts_returned _ _ _ _ _ E3)
    as (Hin3 & Hinfo3 & Hpri3 & Hconf3 & Hsig).
  rewrite E3.
  rewrite Hinfo2, Hinfo1 in Hinfo3. rewrite Hpri2 in Hpri3.
  rewrite Hconf2, Hconf1 in Hconf3.
  rewrite Hin2, Hin1 in Hin3.
  cbn [Adv.initialState Adv.input] in Hin3, Hinfo3.
  assert (Hsig3 : Adv.conflicts s3 = []).
  { rewrite Hsig. unfold Adv.signals. rewrite Hinfo2, Hinfo1, Hpri2.
    vm_compute. reflexivity. }
  destruct (proj2 (validateAndFinalize_returns_iff s3 c w3))
    as (s4 & w4 & E4).
  { rewrite Hconf3, Hinfo3, Hpri3. split; [reflexivity|].
    split; [intros H; discriminate H|]. apply mapPriority_string. }
  rewrite E4.
  destruct (validateAndFinalize_returned _ _ _ _ _ E4)
    as (Hconf4 & Hconfl4 & Hneeds & _ & t & Ht & Htitle).
  destruct (validateAndFinalize_messages _ _ _ _ _ E4) as (_ & Hmsg & _).
  exists (Adv.result_of s4), w4, t. split; [reflexivity|].
  cbn [Adv.result_of Adv.result_task Adv.result_confidence
       Adv.needsConfirmation Adv.result_conflicts Adv.result_suggestions].
  assert (Hlow : lt (Adv.confidence s3) (Num n0_6) = true).
  { rewrite Hconf3. vm_compute. reflexivity. }
  repeat split.
  - exact Ht.
  - rewrite Htitle, Hinfo3, Hin3. cbn [opt_get]. unfold or.
    destruct (truthy _); reflexivity.
  - rewrite Hconf4. exact Hconf3.
  - rewrite Hneeds, Hlow. reflexivity.
  - rewrite Hconfl4. exact Hsig3.
  - exact (Hmsg Hlow).
Qed.

End Properties.

End AdvancedProperties.

(* ================================================================== *)
(** * The patterns of [extractBasicInfo]                               *)
(* ================================================================== *)

Module PatternProperties.

Lemma hash_is_no_word : is_word hash = false.
Proof. reflexivity. Qed.

Lemma word_run_words (s : jsstring) : forallb is_word (word_run s) = true.
Proof.
  induction s as [|c s IH]; cbn [word_run forallb]; [reflexivity|].
  destruct (is_word c) eqn:E; cbn [forallb]; [now rewrite E|reflexivity].
Qed.

Lemma word_run_split (s : jsstring) :
  exists post, s = word_run s ++ post /\ (forall c rest, post = c :: rest -> is_word c = false).
Proof.
  induction s as [|c s (post & E & Hp)]; cbn [word_run].
  - exists []. split; [reflexivity|]. intros c rest H. discriminate H.
  - destruct (is_word c) eqn:Ec.
    + exists post. split; [cbn [app]; now rewrite <- E|exact Hp].
    + exists (c :: s). split; [reflexivity|].
      intros c' rest H. injection H as <- _. exact Ec.
Qed.

Lemma word_run_app (t post : jsstring) :
  forallb is_word t = true -> (forall c rest, post = c :: rest -> is_word c = false) -> word_run (t ++ post) = t.
Proof.
  intros Ht Hp. induction t as [|c t IH]; cbn [app word_run].
  - destruct post as [|c rest]; [reflexivity|].
    cbn [word_run]. now rewrite (Hp c rest eq_refl).
  - cbn [forallb] in Ht. apply andb_true_iff in Ht. destruct Ht as [Hc Ht].
    rewrite Hc, (IH Ht). reflexivity.
Qed.

(** Passing over word characters finds the same tags as scanning them:
    none of them is a hash. *)
Lemma hash_words_skip (k : nat) (s : jsstring) :
  forallb is_word (firstn k s) = true -> hash_words k s = hash_words 0 s.
Proof.
  revert k. induction s as [|c s IH]; intros k H; [now destruct k|].
  destruct k as [|k]; [reflexivity|].
  cbn [firstn forallb] in H. apply andb_true_iff in H. destruct H as [Hc H].
  cbn [hash_words]. rewrite (IH k H).
  destruct (N.eqb_spec c hash) as [->|_]; [|reflexivity].
  rewrite hash_is_no_word in Hc. discriminate Hc.
Qed.

Lemma hash_words_cons (c : code_unit) (s : jsstring) :
  hash_words 0 (c :: s)
  = if (c =? hash)%N
    then match word_run s with
         | [] => hash_words 0 s
         | w => w :: hash_words 0 s
         end
    else hash_words 0 s.
Proof.
  cbn [hash_words]. destruct (c =? hash)%N; [|reflexivity].
  destruct (word_run s) as [|c' w] eqn:E; [reflexivity|].
  f_equal. apply hash_words_skip.
  destruct (word_run_split s) as (post & Es & _).
  rewrite Es at 1. rewrite E, firstn_app, Nat.sub_diag, firstn_all.
  simpl firstn. rewrite app_nil_r, <- E. apply word_run_words.
Qed.

Lemma hash_words_later (c : code_unit) (s t : jsstring) :
  In t (hash_words 0 s) -> In t (hash_words 0 (c :: s)).
Proof.
  intros H. rewrite hash_words_cons.
  destruct (c =? hash)%N; [|exact H].
  destruct (word_run s); [exact H|now right].
Qed.

(** X13 ([extractBasicInfo], the pattern [/#(\w+)/g]).  The tags of the
    keyword fallback are exactly the longest non-empty runs of ASCII
    letters, digits and underscores that directly follow a hash in the
    input.  A hash followed by any other character, such as a Hangul
    syllable, yields no tag, and a hash in the middle of a word does. *)
Theorem hash_words_are_word_runs_after_a_hash (input t : jsstring) :
  In t (hash_words 0 input) <->
  exists pre post,
    input = pre ++ hash :: t ++ post /\
    t <> [] /\ forallb is_word t = true /\
    (forall c rest, post = c :: rest -> is_word c = false).
Proof.
  split.
  - induction input as [|c s IH]; [intros []|].
    rewrite hash_words_cons. intros H.
    assert (Hlater : In t (hash_words 0 s) ->
                     exists pre post,
                       c :: s = pre ++ hash :: t ++ post /\
                       t <> [] /\ forallb is_word t = true /\
                       (forall c rest, post = c :: rest -> is_word c = false)).
    { intros Hin. destruct (IH Hin) as (pre & post & -> & Hne & Hw & Hp).
      exists (c :: pre), post. auto. }
    destruct (N.eqb_spec c hash) as [->|_]; [|exact (Hlater H)].
    destruct (word_run s) as [|c' w] eqn:E; [exact (Hlater H)|].
    destruct H as [<-|H]; [|exact (Hlater H)].
    destruct (word_run_split s) as (post & Es & Hp).
    exists [], post. rewrite <- E. repeat split.
    + simpl. now rewrite <- Es.
    + rewrite E. discriminate.
    + apply word_run_words.
    + exact Hp.
  - intros (pre & post & -> & Hne & Hw & Hp).
    induction pre as [|p pre IH]; [|now apply hash_words_later].
    simpl app. rewrite hash_words_cons, N.eqb_refl.
    rewrite (word_run_app t post Hw Hp).
    destruct t; [congruence|now left].
Qed.

Import MatchViews.

Lemma consumes_weaken (m : matcher) (lo hi lo' hi' : nat) :
  consumes m lo hi -> (lo' <= lo)%nat -> (hi <= hi')%nat ->
  consumes m lo' hi'.
Proof.
  intros Hm Hlo Hhi s rest H. destruct (Hm s rest H) as (d & E & Hd).
  exists d. split; [exact E|lia].
Qed.

Lemma digit_consumes : consumes digit 1 1.
Proof.
  intros [|c s] rest H; cbn [digit] in H; [discriminate H|].
  destruct (is_digit c); [|discriminate H]. injection H as <-.
  exists [c]. split; [reflexivity|simpl; lia].
Qed.

Lemma char_consumes (ch : code_unit) : consumes (char ch) 1 1.
Proof.
  intros [|c s] rest H; cbn [char] in H; [discriminate H|].
  destruct (c =? ch)%N; [|discriminate H]. injection H as <-.
  exists [c]. split; [reflexivity|simpl; lia].
Qed.

Lemma literal_i_consumes (p : jsstring) :
  consumes (literal_i p) (List.length p) (List.length p).
Proof.
  induction p as [|ch p IH]; intros s rest H; cbn [literal_i] in H.
  - injection H as <-. exists []. split; [reflexivity|simpl; lia].
  - destruct s as [|c s]; [discriminate H|].
    destruct (fold c =? fold ch)%N; [|discriminate H].
    destruct (IH s rest H) as (d & -> & Hd).
    exists (c :: d). split; [reflexivity|simpl; lia].
Qed.

Lemma seq_consumes (m1 m2 : matcher) (lo1 hi1 lo2 hi2 : nat) :
  consumes m1 lo1 hi1 -> consumes m2 lo2 hi2 ->
  consumes (seq m1 m2) (lo1 + lo2) (hi1 + hi2).
Proof.
  intros H1 H2 s rest H. unfold seq in H.
  destruct (m1 s) as [r|] eqn:E1; [|discriminate H].
  destruct (H1 s r E1) as (d1 & -> & Hd1).
  destruct (H2 r rest H) as (d2 & -> & Hd2).
  exists (d1 ++ d2). rewrite length_app, app_assoc. split; [reflexivity|lia].
Qed.

Lemma alt_consumes (m1 m2 : matcher) (lo hi : nat) :
  consumes m1 lo hi -> consumes m2 lo hi -> consumes (alt m1 m2) lo hi.
Proof.
  intros H1 H2 s rest H. unfold alt in H.
  destruct (m1 s) as [r|] eqn:E1.
  - injection H as <-. exact (H1 s r E1).
  - exact (H2 s rest H).
Qed.

Lemma day_or_month_consumes : consumes day_or_month 2 3.
Proof.
  apply alt_consumes.
  - apply (consumes_weaken _ 3 3); [|lia|lia].
    apply (seq_consumes _ _ 1 1 2 2); [apply digit_consumes|].
    apply (seq_consumes _ _ 1 1 1 1); [apply digit_consumes|apply char_consumes].
  - apply (consumes_weaken _ 2 2); [|lia|lia].
    apply (seq_consumes _ _ 1 1 1 1); [apply digit_consumes|apply char_consumes].
Qed.

Lemma four_digits_consume :
  consumes (seq digit (seq digit (seq digit digit))) 4 4.
Proof.
  apply (seq_consumes _ _ 1 1 3 3); [apply digit_consumes|].
  apply (seq_consumes _ _ 1 1 2 2); [apply digit_consumes|].
  apply (seq_consumes _ _ 1 1 1 1); apply digit_consumes.
Qed.

Lemma iso_date_consumes : consumes iso_date 10 10.
Proof.
  unfold iso_date.
  repeat first
    [ apply digit_consumes
    | apply char_consumes
    | match goal with
      | |- consumes (seq _ _) (S ?n) _ => apply (seq_consumes _ _ 1 1 n n)
      end ].
Qed.

Lemma slash_date_consumes : consumes slash_date 8 10.
Proof.
  unfold slash_date.
  apply (seq_consumes _ _ 2 3 6 7); [apply day_or_month_consumes|].
  apply (seq_consumes _ _ 2 3 4 4);
    [apply day_or_month_consumes|apply four_digits_consume].
Qed.

Lemma datePattern_consumes : consumes datePattern 2 10.
Proof.
  unfold datePattern.
  repeat apply alt_consumes.
  - apply (consumes_weaken _ 10 10); [apply iso_date_consumes|lia|lia].
  - apply (consumes_weaken _ 8 10); [apply slash_date_consumes|lia|lia].
  - apply (consumes_weaken _ 2 2); [apply (literal_i_consumes (js "내일"))|lia|lia].
  - apply (consumes_weaken _ 3 3); [apply (literal_i_consumes (js "다음주"))|lia|lia].
  - apply (consumes_weaken _ 9 9);
      [apply (literal_i_consumes (js "next week"))|lia|lia].
  - apply (consumes_weaken _ 8 8);
      [apply (literal_i_consumes (js "tomorrow"))|lia|lia].
Qed.

(** X14 ([extractBasicInfo], the pattern [datePattern] with the flags
    [gi]).  Every date the keyword fallback reports is a piece of the
    input at which the pattern matches, between 2 and 10 characters
    long. *)
Theorem reported_dates_are_pieces_of_the_input (input d : jsstring) :
  In d (match_global datePattern 0 input) ->
  exists pre post,
    input = pre ++ d ++ post /\
    datePattern (d ++ post) = Some post /\
    (2 <= List.length d <= 10)%nat.
Proof.
  assert (G : forall skip,
             In d (match_global datePattern skip input) ->
             exists pre post,
               input = pre ++ d ++ post /\
               datePattern (d ++ post) = Some post /\
               (2 <= List.length d <= 10)%nat); [|exact (G 0%nat)].
  revert d.
  induction input as [|c s IH]; intros d skip H; [destruct H|].
  assert (Hlater : forall k, In d (match_global datePattern k s) ->
                   exists pre post,
                     c :: s = pre ++ d ++ post /\
                     datePattern (d ++ post) = Some post /\
                     (2 <= List.length d <= 10)%nat).
  { intros k Hin. destruct (IH d k Hin) as (pre & post & -> & Hd).
    exists (c :: pre), post. split; [reflexivity|exact Hd]. }
  cbn [match_global] in H.
  destruct skip as [|k]; [|exact (Hlater k H)].
  destruct (datePattern (c :: s)) as [rest|] eqn:E; [|exact (Hlater _ H)].
  destruct H as [<-|H]; [|exact (Hlater _ H)].
  destruct (datePattern_consumes _ _ E) as (d & Es & Hd).
  assert (Ed : matched (c :: s) rest = d).
  { unfold matched. rewrite Es, length_app.
    replace (List.length d + List.length rest - List.length rest)%nat
      with (List.length d + 0)%nat by lia.
    rewrite firstn_app_2. simpl. apply app_nil_r. }
  rewrite Ed. exists [], rest. rewrite <- Es. auto.
Qed.

End PatternProperties.

(* ================================================================== *)
(** * Properties of [SimpleTaskWorkflow]                               *)
(* ================================================================== *)

Module Simple := SimpleTaskWorkflow.

Module SimpleFacts.

Import TextProperties.

Section Facts.
Context {RT : Runtime} {DT : Dates}.

Lemma simple_parseJSON_cases (text : jsstring) (c : client) (w : world) :
  exists o w',
    Simple.parseJSON text c w = (Returned o, w') /\ calls w' = calls w /\
    (o = [] \/
     exists m, match_braces text = Some m /\ JSON_parse m = Returned o).
Proof.
  unfold Simple.parseJSON, try_catch, bind, lift, throw, logger, ret.
  destruct (match_braces text) as [m|] eqn:Em.
  - destruct (JSON_parse m) as [o|err] eqn:Ep.
    + exists o, w. repeat split; eauto.
    + eexists [], _. repeat split; eauto.
  - eexists [], _. repeat split; eauto.
Qed.

(** One run of the extraction step: it consumes one completion and
    never throws. *)
Lemma simple_extractInformation_run (input : jsstring) (c : client)
    (w : world) :
  exists e w1,
    Simple.extractInformation input c w = (Returned e, w1) /\
    calls w1 = S (calls w) /\
    match c (calls w) with
    | Rejects _ => e = Simple.extractBasicInfo input
    | Responds text =>
        e = [] \/
        exists m, match_braces text = Some m /\ JSON_parse m = Returned e
    end.
Proof.
  unfold Simple.extractInformation.
  cbv [bind try_catch logger ollama_generate ret log_to]. cbn [calls logged].
  destruct (c (calls w)) as [err|text].
  - eexists _, _. repeat split.
  - match goal with |- context [Simple.parseJSON text c ?w0] =>
      destruct (simple_parseJSON_cases text c w0) as (o & w1 & Ep & Hc & Ho)
    end.
    rewrite Ep. exists o, w1. repeat split; [exact Hc|exact Ho].
Qed.

(** One run of the priority step: it throws, before any request, when
    its prompt cannot be built, and otherwise consumes one completion and
    returns. *)
Lemma simple_analyzePriority_run (e : object) (input : jsstring) (c : client)
    (w : world) :
  match Simple.priority_prompt e input with
  | Thrown err =>
      exists w1,
        Simple.analyzePriority e input c w = (Thrown err, w1) /\
        calls w1 = calls w
  | Returned _ =>
      exists p w1,
        Simple.analyzePriority e input c w = (Returned p, w1) /\
        calls w1 = S (calls w) /\
        match c (calls w) with
        | Rejects _ => p = Simple.analyzePriorityKeywords input
        | Responds text =>
            p = [] \/
            exists m, match_braces text = Some m /\ JSON_parse m = Returned p
        end
  end.
Proof.
  unfold Simple.analyzePriority.
  cbv [bind try_catch logger lift ollama_generate ret log_to].
  cbn [calls logged].
  destruct (Simple.priority_prompt e input) as [[]|err0];
    [|eexists; split; reflexivity].
  destruct (c (calls w)) as [err|text].
  - eexists _, _. repeat split.
  - match goal with |- context [Simple.parseJSON text c ?w0] =>
      destruct (simple_parseJSON_cases text c w0) as (o & w1 & Ep & Hc & Ho)
    end.
    rewrite Ep. exists o, w1. repeat split; [exact Hc|exact Ho].
Qed.

Lemma or_strings (a b : jsstring) : exists s, or (Str a) (Str b) = Str s.
Proof. unfold or. destruct (truthy (Str a)); eauto. Qed.

(** The prompt of the priority step can be built from the keyword
    extraction and from an empty object. *)
Lemma extractBasicInfo_prompt (input : jsstring) :
  Simple.priority_prompt (Simple.extractBasicInfo input) input = Returned tt.
Proof.
  unfold Simple.priority_prompt, Simple.extractBasicInfo.
  match goal with
  | |- context [(js "title", Str ?t)] =>
      change (get _ (js "title")) with (Str t);
      destruct (or_strings t input) as (s & ->)
  end.
  destruct (100 <? List.length input)%nat; [|reflexivity].
  change (get _ (js "description")) with (Str input).
  destruct (or_strings input (js "없음")) as (s' & ->). reflexivity.
Qed.

Lemma empty_object_prompt (input : jsstring) :
  Simple.priority_prompt [] input = Returned tt.
Proof. reflexivity. Qed.

(** What [finalizeResult] returns, when it returns. *)
Lemma finalizeResult_returned (e p : object) (input : jsstring) (c : client)
    (w : world) (r : Simple.WorkflowResult) (w' : world) :
  Simple.finalizeResult e p input c w = (Returned r, w') ->
  calls w' = calls w /\
  Simple.title r = or (get e (js "title")) (Str (slice0 50 input)) /\
  Simple.dueDate r = Simple.parsedDueDate e /\
  mapPriority (or (get p (js "priority")) (Str (js "medium")))
    = Returned (Simple.priority r) /\
  Simple.tags r = or (get e (js "tags")) (Arr []) /\
  Simple.entities r = or (get e (js "entities")) no_entities /\
  Simple.confidence r = Simple.overallConfidence e p.
Proof.
  unfold Simple.finalizeResult, bind, logger, lift, ret.
  destruct (sum _ _) as [total|err]; cbv beta iota zeta;
    [|intros H; discriminate H].
  destruct (mapPriority _) as [q|err]; cbv beta iota; intros H;
    [|discriminate H].
  injection H as <- <-. repeat split.
Qed.

(** [finalizeResult] returns exactly when the two confidences it adds
    convert and [mapPriority] returns. *)
Lemma finalizeResult_returns_iff (e p : object) (input : jsstring)
    (c : client) (w : world) :
  (exists r w', Simple.finalizeResult e p input c w = (Returned r, w')) <->
  (converts (or (get e (js "confidence")) (Num Simple.n0_7)) = true /\
   converts (or (get p (js "confidence")) (Num Simple.n0_7)) = true /\
   exists q,
     mapPriority (or (get p (js "priority")) (Str (js "medium")))
       = Returned q).
Proof.
  unfold Simple.finalizeResult, bind, logger, lift, ret, sum, operator.
  destruct (converts (or (get e (js "confidence")) (Num Simple.n0_7)));
    [|split; [intros (r & w' & H); discriminate H
             |intros (H & _); discriminate H]].
  destruct (converts (or (get p (js "confidence")) (Num Simple.n0_7)));
    [|split; [intros (r & w' & H); discriminate H
             |intros (_ & H & _); discriminate H]].
  cbv beta iota zeta.
  destruct (mapPriority _) as [q|err]; cbv beta iota; split.
  - eauto.
  - eauto.
  - intros (r & w' & H). discriminate H.
  - intros (_ & _ & q & H). discriminate H.
Qed.

Lemma finalizeResult_calls (e p : object) (input : jsstring) (c : client)
    (w : world) (o : outcome Simple.WorkflowResult) (w' : world) :
  Simple.finalizeResult e p input c w = (o, w') -> calls w' = calls w.
Proof.
  unfold Simple.finalizeResult, bind, logger, lift, ret.
  destruct (sum _ _) as [total|err]; cbv beta iota zeta;
    [|intros H; injection H as _ <-; reflexivity].
  destruct (mapPriority _) as [q|err]; cbv beta iota; intros H;
    injection H as _ <-; reflexivity.
Qed.

(** [execute] unfolded: the entry line, then the three steps, then the
    [catch] if they threw. *)
Lemma simple_execute_unfold (input : jsstring) (c : client) (w : world) :
  Simple.execute input c w =
  match Simple.steps input c
          (log_to w DEBUG (js "Starting workflow execution for: " ++ input))
  with
  | (Returned r, w') => (Returned r, w')
  | (Thrown err, w') =>
      (Returned (Simple.createFallbackResult input),
       log_to w' ERROR (js "Workflow execution failed: "
                        ++ JsValue.message err))
  end.
Proof. reflexivity. Qed.

Lemma simple_execute_returns (input : jsstring) : returns (Simple.execute input).
Proof. unfold Simple.execute. repeat returns_step. Qed.

(** A result of [execute] is the fallback result or comes out of
    [finalizeResult], on objects that are empty, decoded from an answer,
    or a keyword fallback.  It costs two completions, or one when the
    prompt of the priority step cannot be built, and then the result is
    the fallback one. *)
Lemma simple_execute_cases (input : jsstring) (c : client) (w : world)
    (r : Simple.WorkflowResult) (w' : world) :
  Simple.execute input c w = (Returned r, w') ->
  (calls w' = S (S (calls w)) \/
   calls w' = S (calls w) /\ r = Simple.createFallbackResult input) /\
  (r = Simple.createFallbackResult input \/
   exists e p w2,
     (e = [] \/ reported c e \/ e = Simple.extractBasicInfo input) /\
     (p = [] \/ reported c p \/ p = Simple.analyzePriorityKeywords input) /\
     Simple.finalizeResult e p input c w2 = (Returned r, w')).
Proof.
  rewrite simple_execute_unfold. unfold Simple.steps, bind.
  match goal with |- context [Simple.extractInformation input c ?w0] =>
    destruct (simple_extractInformation_run input c w0)
      as (e & w1 & Ee & Hc1 & He)
  end.
  rewrite Ee. cbn [log_to calls] in Hc1.
  pose proof (simple_analyzePriority_run e input c w1) as Hrun.
  destruct (Simple.priority_prompt e input) as [[]|err0].
  2:{ destruct Hrun as (w2 & Ep & Hc2). rewrite Ep.
      intros H; injection H as <- <-.
      split; [right; split; [cbn [log_to calls]; lia|reflexivity]
             |left; reflexivity]. }
  destruct Hrun as (p & w2 & Ep & Hc2 & Hp).
  rewrite Ep.
  destruct (Simple.finalizeResult e p input c w2) as [[r'|err] w3] eqn:Ef;
    pose proof (finalizeResult_calls _ _ _ _ _ _ _ Ef) as Hc3;
    intros H; injection H as <- <-;
    (split; [left; cbn [log_to calls]; lia|]);
    [right|left; reflexivity].
  exists e, p, w2. repeat split; [| |exact Ef].
  - cbn [log_to calls] in He.
    destruct (c (calls w)) as [err|text] eqn:Ec; [auto|].
    destruct He as [He|(m & Hm & Hj)]; [auto|].
    right; left. exists (calls w), text, m. auto.
  - destruct (c (calls w1)) as [err|text] eqn:Ec; [auto|].
    destruct Hp as [Hp|(m & Hm & Hj)]; [auto|].
    right; left. exists (calls w1), text, m. auto.
Qed.

End Facts.

End SimpleFacts.

Module SimpleProperties.

Import TextProperties SimpleFacts.

Section Properties.
Context {RT : Runtime} {DT : Dates}.

(** X15 ([execute], [analyzePriority], [finalizeResult],
    [createFallbackResult]).  The simple workflow never throws and for a
    non-empty input returns a non-empty title: a title the model left out
    is replaced by the first 50 characters of the input.  It costs two
    completions, or only one, and then the result is the fallback result:
    the prompt of the priority step is built before its [try], so when
    the extraction answer holds a title, a description or a due date that
    cannot be converted to a string the second request is never made. *)
Theorem simple_task_is_always_titled (input : jsstring) (c : client)
    (w : world) :
  input <> [] ->
  exists r w',
    Simple.execute input c w = (Returned r, w') /\
    truthy (Simple.title r) = true /\
    (calls w' = (calls w + 2)%nat \/
     calls w' = (calls w + 1)%nat /\
     r = Simple.createFallbackResult input).
Proof.
  intros Hne.
  destruct (simple_execute_returns input c w) as (r & w' & He).
  exists r, w'. split; [exact He|].
  destruct (simple_execute_cases _ _ _ _ _ He) as (Hc & Hr).
  split.
  - destruct Hr as [->|(e & p & w2 & _ & _ & Ef)].
    + cbn [Simple.createFallbackResult Simple.title].
      apply truthy_nonempty, truncated_title_nonempty, Hne.
    + destruct (finalizeResult_returned _ _ _ _ _ _ _ Ef) as (_ & -> & _).
      apply truthy_or_right, truthy_nonempty.
      unfold slice0. destruct input; [congruence|discriminate].
  - destruct Hc as [Hc|(Hc & ->)]; [left; lia|right; split; [lia|reflexivity]].
Qed.


Lemma number_0_7_in_unit : unit_number (Num Simple.n0_7).
Proof. exists Simple.n0_7. repeat split. Qed.

Lemma number_0_6_in_unit : unit_number (Num n0_6).
Proof. exists n0_6. repeat split. Qed.

(** X18 ([finalizeResult], [createFallbackResult] within [execute]).
    The confidence of a result never exceeds 1, and it lies within
    [0, 1] whenever the confidences the model reports do. *)
Theorem simple_confidence_is_capped (c : client) (input : jsstring)
    (w : world) :
  exists r w',
    Simple.execute input c w = (Returned r, w') /\
    JsNumber.ltb n1 (Simple.confidence r) = false /\
    (reports_in_unit c ->
     JsNumber.leb n0 (Simple.confidence r) = true /\
     JsNumber.leb (Simple.confidence r) n1 = true).
Proof.
  destruct (simple_execute_returns input c w) as (r & w' & He).
  exists r, w'. split; [exact He|].
  destruct (simple_execute_cases _ _ _ _ _ He)
    as (_ & [->|(e & p & w2 & Hcase_e & Hcase_p & Ef)]).
  - repeat split.
  - destruct (finalizeResult_returned _ _ _ _ _ _ _ Ef)
      as (_ & _ & _ & _ & _ & _ & ->).
    unfold Simple.overallConfidence. split.
    + unfold Math_min. change (to_number (Num n1)) with n1.
      apply min_one_not_above.
    + intros Hrep.
      assert (Hu : unit_number
                     (Num (Math_min
                             (plus (or (get e (js "confidence"))
                                       (Num Simple.n0_7))
                                   (or (get p (js "confidence"))
                                       (Num Simple.n0_7)))
                             (Num n1)))).
      { apply capped_sum_in_unit;
          (apply or_default_in_unit; [|apply number_0_7_in_unit]).
        - destruct Hcase_e as [->|[Hr| ->]];
            [left; reflexivity | apply Hrep, Hr
            | right; exists n0_5; repeat split].
        - destruct Hcase_p as [->|[Hr| ->]];
            [left; reflexivity | apply Hrep, Hr
            | right; exists n0_6; repeat split]. }
      destruct Hu as (n & En & Hn). injection En as <-. exact Hn.
Qed.

Lemma truncated_title_or_slice (input : jsstring) :
  or (Str (truncated_title input)) (Str (slice0 50 input))
  = Str (truncated_title input).
Proof.
  unfold or, truthy.
  destruct (truncated_title input) as [|ch t] eqn:E; [|reflexivity].
  destruct input as [|ch input]; [reflexivity|].
  exfalso. apply (truncated_title_nonempty (ch :: input)); [discriminate|exact E].
Qed.

(** X16 ([execute] with [extractBasicInfo] and
    [analyzePriorityKeywords]).  When every completion request is
    rejected both steps fall back on keywords, and the result then
    carries the highest confidence there is: 0.5 and 0.6 add up to 1.1
    and are capped to 1.  Its title is the truncated input and its tags
    are the hash words of the input. *)
Theorem simple_outage_reports_full_confidence (c : client)
    (input : jsstring) :
  (forall k, exists err, c k = Rejects err) ->
  exists r w',
    run (Simple.execute input) c = (Returned r, w') /\
    Simple.title r = Str (truncated_title input) /\
    Simple.tags r = Arr (map Str (hash_words 0 input)) /\
    Simple.dueDate r = None /\
    Simple.confidence r = n1.
Proof.
  intros Hc. unfold run. rewrite simple_execute_unfold.
  unfold Simple.steps, bind.
  match goal with |- context [Simple.extractInformation input c ?w0] =>
    destruct (simple_extractInformation_run input c w0)
      as (e & w1 & Ee & Hc1 & He);
    destruct (Hc (calls w0)) as (err0 & E0); rewrite E0 in He; subst e
  end.
  rewrite Ee.
  pose proof (simple_analyzePriority_run (Simple.extractBasicInfo input)
                input c w1) as Hrun.
  rewrite extractBasicInfo_prompt in Hrun.
  destruct Hrun as (p & w2 & Ep & Hc2 & Hp).
  destruct (Hc (calls w1)) as (err1 & E1). rewrite E1 in Hp. subst p.
  rewrite Ep.
  destruct (proj2 (finalizeResult_returns_iff (Simple.extractBasicInfo input)
                     (Simple.analyzePriorityKeywords input) input c w2))
    as (r & w3 & Ef).
  { split; [reflexivity|]. split; [reflexivity|].
    unfold Simple.analyzePriorityKeywords.
    match goal with
    | |- context [(js "priority", Str ?pr)] =>
        change (get _ (js "priority")) with (Str pr);
        destruct (or_strings pr (js "medium")) as (s & ->)
    end.
    apply mapPriority_string. }
  rewrite Ef. exists r, w3. split; [reflexivity|].
  destruct (finalizeResult_returned _ _ _ _ _ _ _ Ef)
    as (_ & Htitle & Hdue & _ & Htags & _ & Hconf).
  repeat split.
  - rewrite Htitle. apply truncated_title_or_slice.
  - rewrite Htags. reflexivity.
  - rewrite Hdue. reflexivity.
  - rewrite Hconf. vm_compute. reflexivity.
Qed.

(** X17 ([parseJSON] into [finalizeResult]).  When neither answer holds
    a JSON candidate both steps yield an empty object, yet the result
    carries the highest confidence: the defaults 0.7 and 0.7 add up to
    1.4 and are capped to 1.  The title is the first 50 characters of
    the input, without an ellipsis. *)
Theorem answers_without_json_get_full_confidence (c : client)
    (input text0 text1 : jsstring) :
  c 0%nat = Responds text0 -> c 1%nat = Responds text1 ->
  match_braces text0 = None -> match_braces text1 = None ->
  exists r w',
    run (Simple.execute input) c = (Returned r, w') /\
    Simple.title r = Str (slice0 50 input) /\
    Simple.tags r = Arr [] /\
    Simple.dueDate r = None /\
    Simple.confidence r = n1.
Proof.
  intros E0 E1 Em0 Em1. unfold run. rewrite simple_execute_unfold.
  unfold Simple.steps, bind.
  unfold Simple.extractInformation, Simple.analyzePriority, Simple.parseJSON.
  cbv [bind try_catch logger lift throw ollama_generate ret log_to start].
  cbn [calls logged].
  rewrite E0, Em0. rewrite empty_object_prompt.
  cbn [calls logged]. rewrite E1, Em1.
  match goal with
  | |- context [Simple.finalizeResult [] [] input c ?w2] =>
      destruct (proj2 (finalizeResult_returns_iff [] [] input c w2))
        as (r & w3 & Ef);
        [split; [reflexivity|]; split; [reflexivity|];
         apply mapPriority_string|];
      rewrite Ef
  end.
  exists r, w3. split; [reflexivity|].
  destruct (finalizeResult_returned _ _ _ _ _ _ _ Ef)
    as (_ & Htitle & Hdue & _ & Htags & _ & Hconf).
  repeat split.
  - rewrite Htitle. reflexivity.
  - rewrite Htags. reflexivity.
  - rewrite Hdue. reflexivity.
  - rewrite Hconf. vm_compute. reflexivity.
Qed.

(** X25 ([finalizeResult] within [execute]).  When the analysis answer
    gives a priority that [mapPriority] cannot lower-case (a number, a
    boolean, an array or an object), the simple workflow discards both
    answers and returns the fallback result: the truncated input as
    title, medium priority, no tags and confidence 0.3. *)
Theorem priority_that_is_no_string_discards_the_answers (c : client)
    (input text1 m1 : jsstring) (a : object) (err : error) :
  c 1%nat = Responds text1 -> match_braces text1 = Some m1 ->
  JSON_parse m1 = Returned a ->
  mapPriority (or (get a (js "priority")) (Str (js "medium"))) = Thrown err ->
  exists w',
    run (Simple.execute input) c
    = (Returned (Simple.createFallbackResult input), w').
Proof.
  intros E1 Em1 Ep1 Hmap. unfold run. rewrite simple_execute_unfold.
  unfold Simple.steps, bind.
  match goal with |- context [Simple.extractInformation input c ?w0] =>
    destruct (simple_extractInformation_run input c w0)
      as (e & w1 & Ee & Hc1 & _)
  end.
  rewrite Ee. cbn [log_to calls start] in Hc1.
  unfold Simple.analyzePriority, Simple.parseJSON.
  cbv [bind try_catch logger lift ollama_generate ret log_to].
  cbn [calls logged].
  destruct (Simple.priority_prompt e input) as [[]|err0];
    [|eexists; reflexivity].
  rewrite Hc1, E1, Em1, Ep1.
  unfold Simple.finalizeResult, bind, logger, lift.
  destruct (sum _ _) as [total|err1]; [|eexists; reflexivity].
  rewrite Hmap. eexists. reflexivity.
Qed.

End Properties.

End SimpleProperties.

(* ================================================================== *)
(** * Properties of the [AiService] methods                            *)
(* ================================================================== *)

Module Service := AiServiceMethods.

Module ServiceProperties.

Import SimpleFacts.

Section Properties.
Context {RT : Runtime} {DT : Dates}.

(** X19 ([parseNaturalLanguageTask]).  The backup parser is dead code:
    the simple workflow never throws, so whatever
    [parseNaturalLanguageTaskOriginal] does, the method returns the
    workflow's result, with its title, priority and confidence. *)
Theorem backup_parser_is_never_used (input : jsstring) (c : client)
    (w : world) :
  exists r d w',
    Simple.execute input c
      (log_to w DEBUG (js "Parsing natural language input: " ++ input))
      = (Returned r, w') /\
    Service.title d = Simple.title r /\
    Service.priority d = Simple.priority r /\
    Service.confidence d = Simple.confidence r /\
    forall original : jsstring -> M Service.ParsedTaskData,
      Service.parseNaturalLanguageTask original input c w = (Returned d, w').
Proof.
  destruct (simple_execute_returns input c
              (log_to w DEBUG (js "Parsing natural language input: " ++ input)))
    as (r & w' & He).
  eexists r, _, w'. split; [exact He|].
  split; [|split; [|split]]; cycle 3.
  - intros original. unfold Service.parseNaturalLanguageTask.
    cbv [bind try_catch logger ret]. rewrite He. reflexivity.
  - reflexivity.
  - reflexivity.
  - reflexivity.
Qed.

(** X20 ([createTaskFromNaturalLanguage]).  The method returns the task,
    the confirmation flag, the suggestions and the conflicts of
    [TaskCreationWorkflow.execute] as they are.  Its own fallback on
    [parseNaturalLanguageTask] is dead code, because the workflow never
    throws. *)
Theorem service_returns_the_workflow_result (input userId : jsstring)
    (c : client) (w : world) :
  exists r w',
    TC.execute input userId c
      (log_to w DEBUG (js "Creating task from natural language for user "
                       ++ userId ++ js ": " ++ input))
      = (Returned r, w') /\
    forall original : jsstring -> M Service.ParsedTaskData,
      Service.createTaskFromNaturalLanguage original input userId c w
      = (Returned {| Service.created_task := TC.result_task r;
                     Service.needsConfirmation := TC.needsConfirmation r;
                     Service.suggestions := TC.suggestions r;
                     Service.conflicts := TC.conflicts r |}, w').
Proof.
  destruct (execute_returns input userId c
              (log_to w DEBUG (js "Creating task from natural language for user "
                               ++ userId ++ js ": " ++ input)))
    as (r & w' & He).
  exists r, w'. split; [exact He|].
  intros original. unfold Service.createTaskFromNaturalLanguage.
  cbv [bind try_catch logger ret]. rewrite He. reflexivity.
Qed.

(** X26 ([createTaskFromNaturalLanguage] over
    [TaskCreationWorkflow.execute]).  When every completion request is
    rejected, the service still returns a task, titled with the
    truncated input, and does not ask for confirmation. *)
Theorem outage_yields_an_unconfirmed_task
    (original : jsstring -> M Service.ParsedTaskData) (input userId : jsstring)
    (c : client) (w : world) :
  (forall k, exists err, c k = Rejects err) ->
  exists t w',
    Service.createTaskFromNaturalLanguage original input userId c w
    = (Returned t, w') /\
    title (Service.created_task t) = Str (truncated_title input) /\
    Service.needsConfirmation t = false /\
    Service.conflicts t = Some [] /\
    calls w' = (calls w + 2)%nat.
Proof.
  intros Hc. unfold Service.createTaskFromNaturalLanguage.
  cbv [bind try_catch logger ret].
  match goal with |- context [TC.execute input userId c ?w0] =>
    destruct (TaskCreationProperties.execute_during_outage c input userId
                w0 Hc)
      as (r & w' & text & E & Htitle & _ & Hneeds & _ & Hconfl & Hcalls)
  end.
  rewrite E. eexists _, w'. split; [reflexivity|].
  cbn [Service.created_task Service.needsConfirmation Service.conflicts].
  cbn [log_to calls] in Hcalls.
  split; [exact Htitle|]. split; [exact Hneeds|].
  split; [exact Hconfl|exact Hcalls].
Qed.

End Properties.

End ServiceProperties.

(* ================================================================== *)
(** * Properties of [ProjectAnalysisWorkflow]                          *)
(* ================================================================== *)

Module Project := ProjectAnalysisWorkflow.

Module OrderFacts.

(** [<] on numbers is transitive. *)
Lemma ltb_trans (a b c : number) :
  JsNumber.ltb a b = true -> JsNumber.ltb b c = true ->
  JsNumber.ltb a c = true.
Proof.
  unfold JsNumber.ltb, SFltb.
  destruct a as [sa|sa| |sa ma ea], b as [sb|sb| |sb mb eb],
    c as [sc|sc| |sc mc ec];
    cbn [SFcompare]; try discriminate; try (intros _ H; exact H);
    try (intros H _; exact H);
    try (destruct sa, sb, sc; cbn; congruence).
  change (Pos.compare_cont Eq ma mb) with (Pos.compare ma mb).
  change (Pos.compare_cont Eq mb mc) with (Pos.compare mb mc).
  change (Pos.compare_cont Eq ma mc) with (Pos.compare ma mc).
  destruct sa, sb, sc; try discriminate; try reflexivity;
    destruct (Z.compare_spec ea eb), (Z.compare_spec eb ec),
      (Z.compare_spec ea ec);
    try discriminate; try reflexivity; try lia; subst;
    destruct (Pos.compare_spec ma mb), (Pos.compare_spec mb mc),
      (Pos.compare_spec ma mc);
    cbn [CompOpp]; intros Hab Hbc;
    try discriminate Hab; try discriminate Hbc; try reflexivity; lia.
Qed.

Section Values.
Context {RT : Runtime}.

Lemma lt_numbers (a b : number) : lt (Num a) (Num b) = JsNumber.ltb a b.
Proof. reflexivity. Qed.

Lemma gt_numbers (a b : number) : gt (Num a) (Num b) = JsNumber.ltb b a.
Proof. reflexivity. Qed.

End Values.

End OrderFacts.

Module ProjectFacts.

Import OrderFacts.

Section Facts.
Context {RT : Runtime} {DT : Dates}.

Lemma project_parseJSON_returns (text : jsstring) (c : client) (w : world) :
  exists o w',
    Project.parseJSON text c w = (Returned o, w') /\ calls w' = calls w.
Proof.
  unfold Project.parseJSON, try_catch, bind, lift, logger, ret.
  destruct (match_braces text) as [m|].
  - destruct (JSON_parse m) as [o|err]; eexists _, _; split; reflexivity.
  - eexists _, _; split; reflexivity.
Qed.

(** A list the model may add to: it keeps what it had. *)
Lemma pushed_appends (items : list value) (answer : object) (k : jsstring)
    (all : list value) :
  Project.pushed items answer k = Returned all ->
  exists more, all = items ++ more.
Proof.
  unfold Project.pushed. destruct (truthy (get answer k)).
  - destruct (spread (get answer k)) as [more|err]; intros H;
      [|discriminate H].
    injection H as <-. eauto.
  - intros H. injection H as <-. exists []. now rewrite app_nil_r.
Qed.

(** One request to the model for more entries of a list: it costs one
    completion, never throws, and keeps what the list had. *)
Lemma asked_for_more (items : list value) (k : jsstring) (msg : jsstring)
    (c : client) (w : world) :
  exists more w1,
    try_catch
      (response <- ollama_generate ;;
       answer <- Project.parseJSON response ;;
       lift (Project.pushed items answer k))
      (fun error => logger WARN (msg ++ error_to_string error) ;; ret items)
      c w
    = (Returned (items ++ more), w1) /\
    calls w1 = S (calls w).
Proof.
  cbv [bind try_catch logger lift ollama_generate ret log_to].
  cbn [calls logged].
  destruct (c (calls w)) as [err|text].
  - eexists [], _. rewrite app_nil_r. split; reflexivity.
  - match goal with |- context [Project.parseJSON text c ?w0] =>
      destruct (project_parseJSON_returns text c w0) as (o & w1 & Ep & Hc)
    end.
    rewrite Ep.
    destruct (Project.pushed items o k) as [all|err] eqn:Epush.
    + destruct (pushed_appends _ _ _ _ Epush) as (more & ->).
      exists more, w1. split; [reflexivity|exact Hc].
    + eexists [], _. rewrite app_nil_r. split; [reflexivity|exact Hc].
Qed.

Lemma calculateMetrics_run (today : nat -> number)
    (st : Project.ProjectAnalysisState) (c : client) (w : world) :
  exists w1,
    calls w1 = calls w /\
    Project.calculateMetrics today st c w
    = match Project.measured today (Project.projectData st) with
      | Thrown e => (Thrown e, w1)
      | Returned m =>
          (Returned {| Project.projectId := Project.projectId st;
                       Project.projectData := Project.projectData st;
                       Project.analysisType := Project.analysisType st;
                       Project.insights := Project.insights st;
                       Project.recommendations := Project.recommendations st;
                       Project.risks := Project.risks st;
                       Project.metrics := Some m;
                       Project.confidence := n0_8 |}, w1)
      end.
Proof.
  unfold Project.calculateMetrics, bind, logger, lift, ret.
  eexists. split; [|destruct (Project.measured _ _); reflexivity].
  reflexivity.
Qed.

Lemma identifyRisks_run (today : number) (st : Project.ProjectAnalysisState)
    (c : client) (w : world) (base : list value) :
  Project.metric_risks today st = Returned base ->
  exists s1 w1 more,
    Project.identifyRisks today st c w = (Returned s1, w1) /\
    calls w1 = S (calls w) /\
    Project.risks s1 = base ++ more /\
    Project.metrics s1 = Project.metrics st /\
    Project.confidence s1 = Project.confidence st.
Proof.
  intros Hbase. unfold Project.identifyRisks.
  unfold bind at 1. unfold logger at 1. unfold bind at 1.
  rewrite Hbase. unfold lift at 1. unfold bind at 1.
  match goal with |- context [try_catch ?m ?h c ?w0] =>
    destruct (asked_for_more base (js "additionalRisks")
                (js "AI risk analysis failed: ") c w0)
      as (more & w1 & E & Hc)
  end.
  rewrite E. eexists _, w1, more. split; [reflexivity|].
  cbn [log_to calls] in Hc. repeat split. exact Hc.
Qed.

(** [identifyRisks] throws, before any request, when reading the risks
    off the metrics throws. *)
Lemma identifyRisks_thrown (today : number)
    (st : Project.ProjectAnalysisState) (c : client) (w : world)
    (e : error) :
  Project.metric_risks today st = Thrown e ->
  exists w1,
    Project.identifyRisks today st c w = (Thrown e, w1) /\
    calls w1 = calls w.
Proof.
  intros Hbase. unfold Project.identifyRisks.
  unfold bind at 1. unfold logger at 1. unfold bind at 1.
  rewrite Hbase. unfold lift at 1.
  eexists. split; reflexivity.
Qed.

(** [generateInsights] throws, before any request, when one of the risks
    cannot be converted to a string; otherwise it costs one completion
    and returns. *)
Lemma generateInsights_run (st : Project.ProjectAnalysisState) (c : client)
    (w : world) :
  if forallb converts (Project.risks st)
  then
    exists s1 w1,
      Project.generateInsights st c w = (Returned s1, w1) /\
      calls w1 = S (calls w) /\
      Project.risks s1 = Project.risks st /\
      Project.metrics s1 = Project.metrics st /\
      (Project.confidence s1 = Project.confidence st \/
       exists answer,
         Project.confidence s1
         = Math_min (plus (Num (Project.confidence st))
                          (or (get answer (js "confidence")) (Num n0_3)))
                    (Num n1))
  else
    exists w1,
      Project.generateInsights st c w = (Thrown cannot_convert, w1) /\
      calls w1 = calls w.
Proof.
  unfold Project.generateInsights, Project.insights_prompt.
  cbv [bind try_catch logger lift ollama_generate ret log_to].
  cbn [calls logged].
  destruct (forallb converts (Project.risks st));
    [|eexists; split; reflexivity].
  destruct (c (calls w)) as [err|text].
  - eexists _, _. repeat split. left. reflexivity.
  - match goal with |- context [Project.parseJSON text c ?w0] =>
      destruct (project_parseJSON_returns text c w0) as (o & w1 & Ep & Hc)
    end.
    rewrite Ep. unfold sum, operator. cbn [converts].
    destruct (converts (or (get o (js "confidence")) (Num n0_3))).
    + eexists _, w1. split; [reflexivity|].
      split; [exact Hc|]. repeat split. right. exists o. reflexivity.
    + eexists _, _. split; [reflexivity|].
      split; [exact Hc|]. repeat split. left. reflexivity.
Qed.

Lemma createRecommendations_run (st : Project.ProjectAnalysisState)
    (c : client) (w : world) :
  exists s1 w1 more,
    Project.createRecommendations st c w = (Returned s1, w1) /\
    calls w1 = S (calls w) /\
    Project.recommendations s1 = Project.metric_recommendations st ++ more /\
    Project.risks s1 = Project.risks st /\
    Project.metrics s1 = Project.metrics st /\
    Project.confidence s1 = Project.confidence st.
Proof.
  unfold Project.createRecommendations.
  unfold bind at 1. unfold logger at 1. unfold bind at 1.
  match goal with |- context [try_catch ?m ?h c ?w0] =>
    destruct (asked_for_more (Project.metric_recommendations st)
                (js "actionableRecommendations")
                (js "AI recommendation generation failed: ") c w0)
      as (more & w1 & E & Hc)
  end.
  rewrite E. eexists _, w1, more. split; [reflexivity|].
  cbn [log_to calls] in Hc. repeat split. exact Hc.
Qed.

(** Metrics are only computed for project data that is not [null] or
    [undefined]. *)
Lemma measured_data (today : nat -> number) (data : value)
    (m : Project.Metrics) (k : jsstring) :
  Project.measured today data = Returned m ->
  exists v, member data k = Returned v.
Proof.
  unfold Project.measured, member.
  destruct data; try discriminate; eauto.
Qed.

(** Reading the risks off the metrics throws, for project data that has
    properties, only on a due date that cannot be converted. *)
Lemma metric_risks_thrown (today : number)
    (st : Project.ProjectAnalysisState) (v : value) (e : error) :
  member (Project.projectData st) (js "dueDate") = Returned v ->
  Project.metric_risks today st = Thrown e ->
  truthy v = true /\ converts v = false.
Proof.
  intros Hv. unfold Project.metric_risks. rewrite Hv.
  destruct (lt _ _); cbn [andb]; [|intros H; discriminate H].
  destruct (truthy v); [|intros H; discriminate H].
  unfold Project.calculateDaysToDeadline, and_then, converted.
  destruct (converts v); [intros H; discriminate H|].
  intros _. split; reflexivity.
Qed.

(** [analyzeProject] unfolded: the entry line, then the four steps, then
    the [catch] if they threw. *)
Lemma analyzeProject_unfold (now : Project.clock) (projectId : jsstring)
    (data : value) (analysisType : jsstring) (c : client) (w : world) :
  Project.analyzeProject now projectId data analysisType c w =
  match Project.stages now
          (Project.initialState projectId data analysisType) c
          (log_to w DEBUG (js "🔍 Starting project analysis for: "
                           ++ projectId))
  with
  | (Returned s, w') => (Returned (Project.result_of s), w')
  | (Thrown err, w') =>
      (Returned Project.failed,
       log_to w' ERROR (js "Project analysis failed: "
                        ++ error_to_string err))
  end.
Proof.
  unfold Project.analyzeProject, bind, try_catch, logger, ret.
  destruct (Project.stages _ _ _ _) as [[s|err] w']; reflexivity.
Qed.

(** The ways an analysis ends.  Without metrics and without any
    completion requested; with the fixed error result although the
    metrics were computed, because reading the risks off them threw
    (no completion requested) or because a risk the model added cannot
    be converted to a string (one completion requested); or with metrics
    after three completions, the lists holding what the metrics give and
    then what the model adds. *)
Lemma analyzeProject_cases (now : Project.clock) (projectId : jsstring)
    (data : value) (analysisType : jsstring) (c : client) (w : world) :
  exists r w',
    Project.analyzeProject now projectId data analysisType c w
    = (Returned r, w') /\
    match Project.measured (Project.at_metrics now) data with
    | Thrown _ => r = Project.failed /\ calls w' = calls w
    | Returned m =>
        (r = Project.failed /\ calls w' = calls w /\
         exists s e,
           Project.metrics s = Some m /\ Project.projectData s = data /\
           Project.metric_risks (Project.at_deadline now) s = Thrown e) \/
        (r = Project.failed /\ calls w' = (calls w + 1)%nat) \/
        (calls w' = (calls w + 3)%nat /\
         Project.result_metrics r = Some m /\
         forallb converts (Project.result_risks r) = true /\
         (exists s base more,
            Project.metrics s = Some m /\
            Project.metric_risks (Project.at_deadline now) s = Returned base /\
            Project.result_risks r = base ++ more) /\
         (exists s more,
            Project.metrics s = Some m /\
            Project.result_recommendations r
            = Project.metric_recommendations s ++ more) /\
         (Project.result_confidence r = n0_8 \/
          exists answer,
            Project.result_confidence r
            = Math_min (plus (Num n0_8)
                             (or (get answer (js "confidence")) (Num n0_3)))
                       (Num n1)))
    end.
Proof.
  rewrite analyzeProject_unfold. unfold Project.stages, bind.
  match goal with |- context [Project.calculateMetrics ?t ?st c ?w0] =>
    destruct (calculateMetrics_run t st c w0) as (w1 & Hc1 & E1)
  end.
  rewrite E1. cbn [Project.initialState Project.projectData].
  cbn [log_to calls] in Hc1.
  destruct (Project.measured (Project.at_metrics now) data) as [m|err] eqn:Em.
  - match goal with |- context [Project.identifyRisks ?t ?st c w1] =>
      pose (s1 := st);
      destruct (Project.metric_risks t st) as [base|e] eqn:Hbase
    end.
    + destruct (identifyRisks_run _ _ c w1 base Hbase)
        as (s2 & w2 & more & E2 & Hc2 & Hr2 & Hm2 & Hf2).
      rewrite E2.
      pose proof (generateInsights_run s2 c w2) as Hrun.
      destruct (forallb converts (Project.risks s2)) eqn:Hconv.
      * destruct Hrun as (s3 & w3 & E3 & Hc3 & Hr3 & Hm3 & Hf3).
        rewrite E3.
        destruct (createRecommendations_run s3 c w3)
          as (s4 & w4 & more4 & E4 & Hc4 & Hrec4 & Hr4 & Hm4 & Hf4).
        rewrite E4. eexists _, _. split; [reflexivity|].
        right; right.
        cbn [Project.result_of Project.result_metrics Project.result_risks
             Project.result_recommendations Project.result_confidence].
        split; [lia|]. split; [now rewrite Hm4, Hm3, Hm2|].
        split; [now rewrite Hr4, Hr3|].
        split; [|split].
        -- exists s1, base, more. split; [reflexivity|].
           split; [exact Hbase|]. now rewrite Hr4, Hr3, Hr2.
        -- exists s3, more4. split; [now rewrite Hm3, Hm2|exact Hrec4].
        -- rewrite Hf4. destruct Hf3 as [->|(answer & ->)]; rewrite Hf2.
           ++ now left.
           ++ right. exists answer. reflexivity.
      * destruct Hrun as (w3 & E3 & Hc3). rewrite E3.
        eexists _, _. split; [reflexivity|]. right; left.
        split; [reflexivity|]. cbn [log_to calls]. lia.
    + destruct (identifyRisks_thrown _ _ c w1 e Hbase) as (w2 & E2 & Hc2).
      rewrite E2. eexists _, _. split; [reflexivity|]. left.
      split; [reflexivity|]. split; [cbn [log_to calls]; lia|].
      exists s1, e. split; [reflexivity|]. split; [reflexivity|exact Hbase].
  - eexists _, _. split; [reflexivity|]. split; [reflexivity|].
    cbn [log_to calls]. exact Hc1.
Qed.

End Facts.

End ProjectFacts.

Module ProjectProperties.

Import OrderFacts ProjectFacts ProjectViews.

Section Properties.
Context {RT : Runtime} {DT : Dates}.

(** X21 ([analyzeProject] and its four steps).  The analysis never
    throws.  It ends in one of three ways: with the fixed error result
    before any completion is requested; with the fixed error result
    after one completion, when a risk the model added cannot be
    converted to a string for the prompt of [generateInsights], which is
    built outside its [try]; or with metrics after exactly three
    completions, and then every risk of the result converts.  Project
    data that is [null] or [undefined] gives the first.  The confidence
    never exceeds 1. *)
Theorem analysis_costs_three_completions_or_none (now : Project.clock)
    (projectId : jsstring) (data : value) (analysisType : jsstring)
    (c : client) (w : world) :
  exists r w',
    Project.analyzeProject now projectId data analysisType c w
    = (Returned r, w') /\
    ((r = Project.failed /\ calls w' = calls w) \/
     (r = Project.failed /\ calls w' = (calls w + 1)%nat) \/
     (calls w' = (calls w + 3)%nat /\
      forallb converts (Project.result_risks r) = true /\
      exists m, Project.result_metrics r = Some m)) /\
    (data = Undefined \/ data = Null ->
     r = Project.failed /\ calls w' = calls w) /\
    JsNumber.ltb n1 (Project.result_confidence r) = false.
Proof.
  destruct (analyzeProject_cases now projectId data analysisType c w)
    as (r & w' & E & H).
  exists r, w'. split; [exact E|].
  destruct (Project.measured (Project.at_metrics now) data) as [m|err] eqn:Em.
  - split; [|split].
    + destruct H as [(-> & Hc & _)|[(-> & Hc)|(Hc & Hm & Hr & _)]];
        [left; split; [reflexivity|exact Hc]
        |right; left; split; [reflexivity|exact Hc]
        |right; right; split; [exact Hc|split; [exact Hr|eauto]]].
    + intros [->| ->]; discriminate Em.
    + destruct H as [(-> & _)|[(-> & _)|(_ & _ & _ & _ & _ & Hconf)]];
        [reflexivity|reflexivity|].
      destruct Hconf as [->|(answer & ->)]; [reflexivity|].
      unfold Math_min. change (to_number (Num n1)) with n1.
      apply min_one_not_above.
  - destruct H as (-> & Hc). split; [left; split; [reflexivity|exact Hc]|].
    split; [intros _; split; [reflexivity|exact Hc]|reflexivity].
Qed.

Lemma thresholds_20_30 : JsNumber.ltb n20 n30 = true.
Proof. reflexivity. Qed.

Lemma thresholds_3_5 : JsNumber.ltb n3 n5 = true.
Proof. reflexivity. Qed.

Lemma thresholds_50_70 : JsNumber.ltb n50 n70 = true.
Proof. reflexivity. Qed.

(** X22 ([identifyRisks] and [createRecommendations] within
    [analyzeProject]).  Every risk read off the metrics comes with its
    recommendation: an overdue rate above 30 gives the overdue risk and
    the schedule recommendation, an average task duration above 5 gives
    the duration risk and the duration recommendation, and a completion
    rate below 50 gives the progress recommendation.  What the model
    answers can only add to the two lists. *)
Theorem metric_risks_come_with_recommendations (now : Project.clock)
    (projectId : jsstring) (data : value) (analysisType : jsstring)
    (c : client) (w : world) (r : Project.ProjectAnalysisResult)
    (w' : world) (m : Project.Metrics) :
  Project.analyzeProject now projectId data analysisType c w
  = (Returned r, w') ->
  Project.result_metrics r = Some m ->
  (JsNumber.ltb n30 (Project.overdueRate m) = true ->
   In (Str Project.risk_overdue) (Project.result_risks r) /\
   In (Str Project.advice_schedule) (Project.result_recommendations r)) /\
  (JsNumber.ltb n5 (Project.averageTaskDuration m) = true ->
   In (Str Project.risk_duration) (Project.result_risks r) /\
   In (Str Project.advice_duration) (Project.result_recommendations r)) /\
  (JsNumber.ltb (Project.completionRate m) n50 = true ->
   In (Str Project.advice_progress) (Project.result_recommendations r)).
Proof.
  intros E Hm.
  destruct (analyzeProject_cases now projectId data analysisType c w)
    as (r0 & w0 & E0 & H).
  rewrite E in E0. injection E0 as <- <-.
  destruct (Project.measured (Project.at_metrics now) data) as [m0|err];
    [|destruct H as (-> & _); discriminate Hm].
  destruct H as [(-> & _)|[(-> & _)|H]]; [discriminate Hm|discriminate Hm|].
  destruct H as (_ & Hm0 & _ & (s & base & more & Hs & Hbase & ->)
                 & (s' & more' & Hs' & ->) & _).
  rewrite Hm in Hm0. injection Hm0 as <-.
  unfold Project.metric_risks in Hbase. unfold Project.metric_recommendations.
  rewrite Hs in Hbase. rewrite Hs'. cbn [Project.metric] in *.
  rewrite !gt_numbers, !lt_numbers in *.
  destruct (if JsNumber.ltb (Project.completionRate m) n50
            then member (Project.projectData s) (js "dueDate")
            else Returned (Bool false)) as [dueDate|err];
    [|discriminate Hbase].
  destruct (if JsNumber.ltb (Project.completionRate m) n50 && truthy dueDate
            then _ else _) as [listed|err] eqn:Hlisted;
    [|discriminate Hbase].
  injection Hbase as <-.
  assert (Hfirst : JsNumber.ltb n30 (Project.overdueRate m) = true ->
                   In (Str Project.risk_overdue) listed).
  { intros H30. rewrite H30 in Hlisted.
    destruct (_ && _) in Hlisted;
      [destruct (Project.calculateDaysToDeadline _ _) as [days|err] in Hlisted;
       [destruct (JsNumber.ltb days n30) in Hlisted|discriminate Hlisted]|];
      injection Hlisted as <-; in_appended. }
  clear Hlisted.
  split; [|split].
  - intros H30. pose proof (ltb_trans _ _ _ thresholds_20_30 H30) as H20.
    rewrite H20. split; apply in_or_app; left.
    + destruct (JsNumber.ltb n5 _); [apply in_or_app; left|];
        exact (Hfirst H30).
    + destruct (JsNumber.ltb _ n70); destruct (JsNumber.ltb n3 _);
        in_appended.
  - intros H5. pose proof (ltb_trans _ _ _ thresholds_3_5 H5) as H3.
    rewrite H5, H3. split; apply in_or_app; left; in_appended.
  - intros H50. pose proof (ltb_trans _ _ _ H50 thresholds_50_70) as H70.
    rewrite H70. apply in_or_app; left.
    destruct (JsNumber.ltb n3 _); in_appended.
Qed.

(** X24 ([calculateProjectHealth]).  A project whose overdue rate is not
    below 30 is rated poor whatever its completion rate, and so is one
    whose completion rate is not above 40 whatever its overdue rate;
    rates that are [NaN] are rated poor as well. *)
Theorem health_is_poor_beyond_the_thresholds (completionRate overdueRate
    : number) :
  JsNumber.ltb overdueRate n30 = false
  \/ JsNumber.ltb n40 completionRate = false ->
  Project.calculateProjectHealth completionRate overdueRate = Project.poor.
Proof.
  assert (H10_30 : JsNumber.ltb n10 n30 = true) by reflexivity.
  assert (H40_60 : JsNumber.ltb n40 n60 = true) by reflexivity.
  assert (H40_80 : JsNumber.ltb n40 n80 = true) by reflexivity.
  unfold Project.calculateProjectHealth. intros [Hlate|Hdone].
  - rewrite Hlate.
    destruct (JsNumber.ltb overdueRate n10) eqn:E10;
      [rewrite (ltb_trans _ _ _ E10 H10_30) in Hlate; discriminate Hlate|].
    destruct (JsNumber.ltb overdueRate n20) eqn:E20;
      [rewrite (ltb_trans _ _ _ E20 thresholds_20_30) in Hlate;
       discriminate Hlate|].
    now rewrite !andb_false_r.
  - rewrite Hdone.
    destruct (JsNumber.ltb n80 completionRate) eqn:E80;
      [rewrite (ltb_trans _ _ _ H40_80 E80) in Hdone; discriminate Hdone|].
    destruct (JsNumber.ltb n60 completionRate) eqn:E60;
      [rewrite (ltb_trans _ _ _ H40_60 E60) in Hdone; discriminate Hdone|].
    reflexivity.
Qed.

Lemma measured_without_tasks (today : nat -> number) (data : value) :
  member data (js "tasks") = Returned Undefined ->
  Project.measured today data = Returned no_tasks.
Proof.
  intros H. unfold Project.measured. rewrite H. vm_compute. reflexivity.
Qed.

(** X23 ([calculateMetrics], [calculateProjectHealth], [identifyRisks],
    [generateInsights], [createRecommendations] within [analyzeProject]).
    Project data without a [tasks] property, such as the string the
    controller passes, is measured as an empty project.  Its analysis
    ends in one of three ways.  With the fixed error result and no
    completion requested: only when the data has a due date that cannot
    be converted for [new Date].  With the fixed error result after one
    completion: when a risk the model added cannot be converted to a
    string.  Or, after three completions, with the metrics of an empty
    project (all counts and rates 0, health poor) and recommendations
    that start with the one to raise the progress. *)
Theorem data_without_tasks_is_a_poor_empty_project (now : Project.clock)
    (projectId : jsstring) (data : value) (analysisType : jsstring)
    (c : client) (w : world) :
  member data (js "tasks") = Returned Undefined ->
  exists r w',
    Project.analyzeProject now projectId data analysisType c w
    = (Returned r, w') /\
    ((r = Project.failed /\ calls w' = calls w /\
      exists dueDate,
        member data (js "dueDate") = Returned dueDate /\
        truthy dueDate = true /\ converts dueDate = false) \/
     (r = Project.failed /\ calls w' = (calls w + 1)%nat) \/
     (exists more,
        Project.result_metrics r = Some no_tasks /\
        Project.result_recommendations r
        = Str Project.advice_progress :: more /\
        calls w' = (calls w + 3)%nat)).
Proof.
  intros Hdata.
  destruct (analyzeProject_cases now projectId data analysisType c w)
    as (r & w' & E & H).
  pose proof (measured_without_tasks (Project.at_metrics now) _ Hdata) as Em.
  rewrite Em in H.
  exists r, w'. split; [exact E|].
  destruct H as [(-> & Hc & s & e & Hs & Hd & He)|[(-> & Hc)|H]].
  - left. split; [reflexivity|]. split; [exact Hc|].
    destruct (measured_data _ _ _ (js "dueDate") Em) as (v & Hv).
    exists v. split; [exact Hv|].
    rewrite <- Hd in Hv. exact (metric_risks_thrown _ _ _ _ Hv He).
  - right; left. split; [reflexivity|exact Hc].
  - right; right.
    destruct H as (Hc & Hm & _ & _ & (s & more & Hs & Hrec) & _).
    exists more. split; [exact Hm|]. split; [|exact Hc].
    rewrite Hrec. unfold Project.metric_recommendations. rewrite Hs.
    reflexivity.
Qed.

End Properties.

End ProjectProperties.

(* ================================================================== *)
(** * The properties at concrete runs                                  *)
(* ================================================================== *)

Module Runs.

Import TextProperties TaskCreationProperties AdvancedProperties
  PatternProperties SimpleProperties ServiceProperties ProjectProperties
  ProjectViews.

Lemma match_braces_first_to_last_witness :
  match_braces (js "ok {a} }{ bye") = Some (js "{a} }").
Proof.
  apply (proj2 (match_braces_first_to_last _ _)).
  exists (js "ok "), (js "a} "), (js "{ bye").
  repeat split; vm_compute; intuition discriminate.
Defined.

Lemma outage_is_not_flagged_witness :
  exists r w',
    run (TC.execute (RT := Scenario.runtime) Scenario.meeting Scenario.user1)
      Scenario.outage = (Returned r, w') /\
    TC.confidence r = n0_8 /\
    TC.needsConfirmation r = false.
Proof.
  destruct (outage_is_not_flagged (RT := Scenario.runtime) Scenario.outage
              Scenario.meeting Scenario.user1)
    as (r & w' & E & _ & Hc & Hn & _).
  - intros k. exists Scenario.connection_refused. reflexivity.
  - exists r, w'. split; [exact E|]. split; [exact Hc|exact Hn].
Defined.

Lemma conflict_needs_confirmation_witness :
  exists r w',
    TC.execute (RT := Cases.runtime) Scenario.meeting Scenario.user1
      (Scenario.answers Cases.text_long_task Scenario.text_urgent) start
      = (Returned r, w') /\
    TC.conflicts r = Some [TC.resource_conflict] /\
    TC.needsConfirmation r = true.
Proof.
  assert (E : exists r w',
             TC.execute (RT := Cases.runtime) Scenario.meeting Scenario.user1
               (Scenario.answers Cases.text_long_task Scenario.text_urgent)
               start = (Returned r, w') /\
             TC.conflicts r = Some [TC.resource_conflict])
    by (vm_compute; eexists _, _; split; reflexivity).
  destruct E as (r & w' & E & Hk). exists r, w'.
  split; [exact E|]. split; [exact Hk|].
  exact (proj1 (conflict_needs_confirmation _ _ _ _ _ _ _ _ E Hk)).
Defined.

Lemma reported_extraction_confidence_is_overwritten_witness :
  exists r w',
    run (TC.execute (RT := Scenario.runtime) Scenario.meeting Scenario.user1)
      (Scenario.answers Scenario.text_negative_confidence Scenario.text_urgent)
      = (Returned r, w') /\
    priority (TC.result_task r) = URGENT /\
    TC.confidence r = n1.
Proof.
  destruct (reported_extraction_confidence_is_overwritten
              (RT := Scenario.runtime)
              (Scenario.answers Scenario.text_negative_confidence
                 Scenario.text_urgent)
              Scenario.meeting Scenario.user1
              Scenario.text_negative_confidence
              Scenario.text_negative_confidence
              Scenario.text_urgent Scenario.text_urgent
              [(js "confidence", Num Scenario.minus_five)]
              [(js "priority", Str (js "urgent")); (js "confidence", Num n0_5)]
              n0_5)
    as (r & w' & E & [Hr|(_ & Hp & Hc)]); try (vm_compute; reflexivity).
  - exfalso. subst r.
    apply (f_equal (fun p => match fst p with
                             | Returned r => TC.needsConfirmation r
                             | Thrown _ => false
                             end)) in E.
    vm_compute in E. discriminate E.
  - exists r, w'. split; [exact E|]. split.
    + vm_compute in Hp. injection Hp as Hp. symmetry. exact Hp.
    + rewrite Hc. vm_compute. reflexivity.
Defined.

Lemma high_severity_is_always_flagged_witness :
  exists r w',
    Adv.execute (RT := Scenario.runtime) Scenario.meeting Scenario.user1
      (Scenario.answers Scenario.text_complex Scenario.text_urgent) start
      = (Returned r, w') /\
    Adv.needsConfirmation r = true /\
    In msg_high_risk (Adv.result_suggestions r).
Proof.
  assert (E : exists r w',
             Adv.execute (RT := Scenario.runtime) Scenario.meeting
               Scenario.user1
               (Scenario.answers Scenario.text_complex Scenario.text_urgent)
               start = (Returned r, w') /\
             existsb Adv.is_high (Adv.result_conflicts r) = true)
    by (vm_compute; eexists _, _; split; reflexivity).
  destruct E as (r & w' & E & Hk). exists r, w'.
  split; [exact E|].
  exact (high_severity_is_always_flagged _ _ _ _ _ _ E Hk).
Defined.

Lemma advanced_task_is_always_titled_witness :
  exists r w' t,
    Adv.execute (RT := Scenario.runtime) Scenario.meeting Scenario.user1
      Scenario.prose start = (Returned r, w') /\
    Adv.result_task r = Some t /\
    truthy (title t) = true.
Proof.
  destruct (advanced_task_is_always_titled (RT := Scenario.runtime)
              Scenario.meeting Scenario.user1 Scenario.prose start)
    as (r & w' & t & E & Ht & Htitle & _).
  - vm_compute. discriminate.
  - exists r, w', t. split; [exact E|]. split; [exact Ht|exact Htitle].
Defined.

Lemma advanced_outage_asks_for_confirmation_witness :
  exists r w',
    run (Adv.execute (RT := Scenario.runtime) Scenario.meeting Scenario.user1)
      Scenario.outage = (Returned r, w') /\
    Adv.result_confidence r = Num n0_2 /\
    Adv.needsConfirmation r = true.
Proof.
  destruct (advanced_outage_asks_for_confirmation (RT := Scenario.runtime)
              Scenario.outage Scenario.meeting Scenario.user1)
    as (r & w' & t & E & _ & _ & Hc & Hn & _).
  - intros k. exists Scenario.connection_refused. reflexivity.
  - exists r, w'. split; [exact E|]. split; [exact Hc|exact Hn].
Defined.

Lemma hash_words_are_word_runs_after_a_hash_witness :
  In (js "report_1") (hash_words 0 Cases.planning) /\
  ~ In (js "긴급") (hash_words 0 Cases.planning).
Proof.
  split.
  - apply (proj2 (hash_words_are_word_runs_after_a_hash _ _)).
    exists (js "내일 회의 #긴급 "), (js " 2024-03-01").
    repeat split; try (vm_compute; reflexivity).
    + vm_compute. discriminate.
    + intros c rest H. vm_compute in H. injection H as <- _. reflexivity.
  - intros H.
    apply (proj1 (hash_words_are_word_runs_after_a_hash _ _)) in H.
    destruct H as (pre & post & _ & _ & Hw & _).
    vm_compute in Hw. discriminate Hw.
Defined.

Lemma reported_dates_are_pieces_of_the_input_witness :
  exists pre post,
    Cases.planning = pre ++ js "2024-03-01" ++ post /\
    (2 <= List.length (js "2024-03-01") <= 10)%nat.
Proof.
  destruct (reported_dates_are_pieces_of_the_input Cases.planning
              (js "2024-03-01"))
    as (pre & post & E & _ & Hl).
  - vm_compute. right. left. reflexivity.
  - exists pre, post. split; [exact E|exact Hl].
Defined.

Lemma simple_task_is_always_titled_witness :
  exists r w',
    Simple.execute (RT := Scenario.runtime) (DT := Cases.dates)
      Scenario.meeting Scenario.prose start = (Returned r, w') /\
    truthy (Simple.title r) = true.
Proof.
  destruct (simple_task_is_always_titled (RT := Scenario.runtime)
              (DT := Cases.dates) Scenario.meeting Scenario.prose start)
    as (r & w' & E & Ht & _).
  - vm_compute. discriminate.
  - exists r, w'. split; [exact E|exact Ht].
Defined.

Lemma simple_confidence_is_capped_witness :
  exists r w',
    Simple.execute (RT := Scenario.runtime) (DT := Cases.dates)
      Scenario.meeting
      (Scenario.answers Scenario.text_complex Scenario.text_urgent) start
      = (Returned r, w') /\
    JsNumber.leb n0 (Simple.confidence r) = true /\
    JsNumber.leb (Simple.confidence r) n1 = true.
Proof.
  destruct (simple_confidence_is_capped (RT := Scenario.runtime)
              (DT := Cases.dates)
              (Scenario.answers Scenario.text_complex Scenario.text_urgent)
              Scenario.meeting start)
    as (r & w' & E & _ & H).
  exists r, w'. split; [exact E|]. apply H, answers_report_in_unit.
Defined.

Lemma simple_outage_reports_full_confidence_witness :
  exists r w',
    run (Simple.execute (RT := Scenario.runtime) (DT := Cases.dates)
           Cases.planning) Scenario.outage = (Returned r, w') /\
    Simple.tags r = Arr [Str (js "report_1")] /\
    Simple.confidence r = n1.
Proof.
  destruct (simple_outage_reports_full_confidence (RT := Scenario.runtime)
              (DT := Cases.dates) Scenario.outage Cases.planning)
    as (r & w' & E & _ & Ht & _ & Hc).
  - intros k. exists Scenario.connection_refused. reflexivity.
  - exists r, w'. split; [exact E|]. split; [|exact Hc].
    rewrite Ht. vm_compute. reflexivity.
Defined.

Lemma answers_without_json_get_full_confidence_witness :
  exists r w',
    run (Simple.execute (RT := Scenario.runtime) (DT := Cases.dates)
           Scenario.meeting) Scenario.prose = (Returned r, w') /\
    Simple.title r = Str Scenario.meeting /\
    Simple.confidence r = n1.
Proof.
  destruct (answers_without_json_get_full_confidence (RT := Scenario.runtime)
              (DT := Cases.dates) Scenario.prose Scenario.meeting
              (js "죄송합니다, 잘 모르겠습니다.") (js "죄송합니다, 잘 모르겠습니다."))
    as (r & w' & E & Ht & _ & _ & Hc); try reflexivity.
  exists r, w'. split; [exact E|]. split; [|exact Hc].
  rewrite Ht. vm_compute. reflexivity.
Defined.

Lemma analysis_costs_three_completions_or_none_witness :
  exists w',
    Project.analyzeProject (RT := Scenario.runtime) (DT := Cases.dates)
      Cases.april (js "p-1") Null (js "comprehensive") Scenario.prose start
    = (Returned Project.failed, w').
Proof.
  destruct (analysis_costs_three_completions_or_none (RT := Scenario.runtime)
              (DT := Cases.dates) Cases.april (js "p-1") Null
              (js "comprehensive") Scenario.prose start)
    as (r & w' & E & _ & H & _).
  destruct (H (or_intror eq_refl)) as (Hr & _).
  exists w'. rewrite <- Hr. exact E.
Defined.

Lemma metric_risks_come_with_recommendations_witness :
  exists r w',
    Project.analyzeProject (RT := Scenario.runtime) (DT := Cases.dates)
      Cases.april (js "p-1") Cases.late_project (js "comprehensive")
      Scenario.outage start = (Returned r, w') /\
    In (Str Project.risk_overdue) (Project.result_risks r) /\
    In (Str Project.advice_schedule) (Project.result_recommendations r) /\
    In (Str Project.advice_progress) (Project.result_recommendations r).
Proof.
  assert (E : exists r w' m,
             Project.analyzeProject (RT := Scenario.runtime)
               (DT := Cases.dates) Cases.april (js "p-1") Cases.late_project
               (js "comprehensive") Scenario.outage start = (Returned r, w') /\
             Project.result_metrics r = Some m /\
             Project.overdueRate m = n100 /\ Project.completionRate m = n0)
    by (vm_compute; eexists _, _, _; repeat split; reflexivity).
  destruct E as (r & w' & m & E & Hm & Hover & Hdone).
  destruct (metric_risks_come_with_recommendations _ _ _ _ _ _ _ _ _ E Hm)
    as (H30 & _ & H50).
  exists r, w'. split; [exact E|].
  destruct H30 as (Hrisk & Hadvice); [rewrite Hover; reflexivity|].
  split; [exact Hrisk|]. split; [exact Hadvice|].
  apply H50. rewrite Hdone. reflexivity.
Defined.

Lemma data_without_tasks_is_a_poor_empty_project_witness :
  exists r w',
    Project.analyzeProject (RT := Scenario.runtime) (DT := Cases.dates)
      Cases.april (js "p-1") (Str Scenario.user1) (js "comprehensive")
      Scenario.prose start = (Returned r, w') /\
    Project.result_metrics r = Some no_tasks /\
    calls w' = 3%nat.
Proof.
  destruct (data_without_tasks_is_a_poor_empty_project
              (RT := Scenario.runtime) (DT := Cases.dates) Cases.april
              (js "p-1") (Str Scenario.user1) (js "comprehensive")
              Scenario.prose start eq_refl)
    as (r & w' & E & [(_ & _ & d & Hd & Ht & _)|[(Hr & _)|(more & Hm & _ & Hc)]]).
  - exfalso. injection Hd as <-. discriminate Ht.
  - exfalso. subst r.
    apply (f_equal (fun p => match fst p with
                             | Returned r => Project.result_metrics r
                             | Thrown _ => None
                             end)) in E.
    vm_compute in E. discriminate E.
  - exists r, w'. split; [exact E|]. split; [exact Hm|exact Hc].
Defined.

(** The runs that end early because a value of the model's answer cannot
    be converted to a primitive. *)

(** [calculateExtractionConfidence] throws on the answer
    [{"title": {"length": {"toString": 1}}}]: it compares the length of
    the title with 5. *)
Example extraction_confidence_of_an_unconvertible_length :
  TC.calculateExtractionConfidence (RT := Cases.runtime)
    [(js "title", Obj [(js "length", Obj [(js "toString", Num n1)])])]
    Scenario.meeting
  = Thrown cannot_convert.
Proof. reflexivity. Qed.

(** On the answer [{"title": {"toString": 1}}] the task creation
    workflow requests one completion and returns the degraded result:
    the prompt of [analyzeTaskComplexity] cannot be built. *)
Example task_creation_stops_after_one_completion :
  exists w',
    run (TC.execute (RT := Cases.runtime) Scenario.meeting Scenario.user1)
      (Scenario.answers Cases.text_title_object Scenario.text_urgent)
    = (Returned (TC.degraded Scenario.meeting), w') /\
    calls w' = 1%nat.
Proof. vm_compute. eexists. split; reflexivity. Qed.

(** On the same answer the simple workflow requests one completion and
    returns the fallback result. *)
Example simple_workflow_stops_after_one_completion :
  exists w',
    run (Simple.execute (RT := Cases.runtime) (DT := Cases.dates)
           Scenario.meeting)
      (Scenario.answers Cases.text_title_object Scenario.text_urgent)
    = (Returned (Simple.createFallbackResult Scenario.meeting), w') /\
    calls w' = 1%nat.
Proof. vm_compute. eexists. split; reflexivity. Qed.

(** When the model adds the risk [{"toString": 1}] the project analysis
    requests one completion and returns the fixed error result. *)
Example project_analysis_stops_after_one_completion :
  exists w',
    run (Project.analyzeProject (RT := Cases.runtime) (DT := Cases.dates)
           Cases.april (js "p-1") (Str Scenario.user1) (js "comprehensive"))
      (Scenario.answers Cases.text_risk_object Cases.text_risk_object)
    = (Returned Project.failed, w') /\
    calls w' = 1%nat.
Proof. vm_compute. eexists. split; reflexivity. Qed.

Lemma health_is_poor_beyond_the_thresholds_witness :
  Project.calculateProjectHealth n100 n30 = Project.poor.
Proof.
  apply health_is_poor_beyond_the_thresholds. left. reflexivity.
Defined.

Lemma priority_that_is_no_string_discards_the_answers_witness :
  exists w',
    run (Simple.execute (RT := Scenario.runtime) (DT := Cases.dates)
           Scenario.meeting)
      (Scenario.answers (js "ok") Scenario.text_numeric_priority)
    = (Returned (Simple.createFallbackResult Scenario.meeting), w').
Proof.
  apply (priority_that_is_no_string_discards_the_answers
           (RT := Scenario.runtime) (DT := Cases.dates)
           (Scenario.answers (js "ok") Scenario.text_numeric_priority)
           Scenario.meeting Scenario.text_numeric_priority
           Scenario.text_numeric_priority [(js "priority", Num n5)]
           (TypeError "priority?.toLowerCase is not a function"));
    vm_compute; reflexivity.
Defined.

Lemma outage_yields_an_unconfirmed_task_witness :
  exists t w',
    Service.createTaskFromNaturalLanguage (RT := Scenario.runtime)
      (DT := Cases.dates) (fun _ => throw Scenario.connection_refused)
      Scenario.meeting Scenario.user1 Scenario.outage start
    = (Returned t, w') /\
    Service.needsConfirmation t = false.
Proof.
  destruct (outage_yields_an_unconfirmed_task (RT := Scenario.runtime)
              (DT := Cases.dates) (fun _ => throw Scenario.connection_refused)
              Scenario.meeting Scenario.user1 Scenario.outage start)
    as (t & w' & E & _ & Hn & _).
  - intros k. exists Scenario.connection_refused. reflexivity.
  - exists t, w'. split; [exact E|exact Hn].
Defined.

End Runs.
